(** * etuh-app: analytics aggregation and AI chat tool-calling

    A shallow embedding of the analytics models ([models/offer_analytics.py],
    [models/analytics.py]), of the offer search and chat orchestration
    ([models/ai_chat.py]), of the per-user chat quota ([models/user.py]) and
    of the chat endpoint ([routes/ai_chat.py]).

    Conventions.
    - A database table without a declared key is a list of rows in insertion
      order: [SELECT .. fetchone() is not None] is [existsb], [UPDATE .. WHERE]
      rewrites every matching row, [INSERT] appends.  The [users] table has a
      primary key and is a finite map from the id.
    - Dates and timestamps are integers (a day number, a clock reading);
      [date.today()] and [datetime.now()] are inputs called [today] and [now].
    - A nullable column or a Python value that may be [None] is an [option].
    - Database statements are taken to succeed, so the [except] branches
      that only guard a broken connection are not modelled; the ones that
      catch what the code itself can raise are. *)

From stdpp Require Import base numbers list strings gmap.
From Stdlib Require Import ZArith String Ascii List Bool Lia Sorted.
Import ListNotations.

Local Open Scope string_scope.
Local Open Scope list_scope.
Local Open Scope Z_scope.

(** ** Python and SQL helpers *)

(** Truthiness of an optional integer ([if user_id], [if offer_id],
    [if business_id]): [None] and [0] are false. *)
Definition py_truthy (v : option Z) : bool :=
  match v with
  | Some n => negb (n =? 0)
  | None => false
  end.

(** Truthiness of an optional string ([if city], [if keywords]). *)
Definition py_truthy_str (v : option string) : bool :=
  match v with
  | Some s => negb (String.eqb s "")
  | None => false
  end.

(** SQL [col = %s] on a nullable column and a parameter: true only when both
    are non-null and equal. *)
Definition sql_eq_id (col param : option Z) : bool :=
  match col, param with
  | Some a, Some b => a =? b
  | _, _ => false
  end.

(** SQL [COALESCE(col, %s)]. *)
Definition coalesce {A} (col param : option A) : option A :=
  match col with
  | Some a => Some a
  | None => param
  end.

(** [UPDATE t SET .. WHERE p]: every matching row is rewritten. *)
Definition sql_update {R} (p : R -> bool) (f : R -> R) (t : list R) : list R :=
  List.map (fun r => if p r then f r else r) t.

(** [INSERT INTO t VALUES ..]. *)
Definition sql_insert {R} (r : R) (t : list R) : list R := t ++ [r].

(** ** models/user.py: the users table and the daily chat quota *)

Module User.

(** The columns of [users] read by the analytics and the chat quota.  The
    table has the primary key [id]; the JWT identity is that id. *)
Record row := {
  city : option string;
  ai_chat_count : Z;
  ai_chat_date : option Z
}.

Abbreviation table := (gmap Z row).

(** [check_ai_chat_limit]: [False] for an unknown user, [True] when the
    stored date is null or not today, otherwise [ai_chat_count < daily_limit]. *)
Definition check_ai_chat_limit (users : table) (today : Z) (user_id : Z)
    (daily_limit : Z) : bool :=
  match users !! user_id with
  | None => false
  | Some r =>
      match ai_chat_date r with
      | None => true
      | Some d => if d =? today then ai_chat_count r <? daily_limit else true
      end
  end.

(** [increment_ai_chat_usage]:
    [UPDATE users SET ai_chat_count = CASE WHEN ai_chat_date = today THEN
     ai_chat_count + 1 ELSE 1 END, ai_chat_date = today WHERE id = %s
     RETURNING ai_chat_count]; returns the new count, or 1 when no row was
    updated. *)
Definition increment_ai_chat_usage (users : table) (today : Z) (user_id : Z)
  : Z * table :=
  match users !! user_id with
  | None => (1, users)
  | Some r =>
      let n := match ai_chat_date r with
               | Some d => if d =? today then ai_chat_count r + 1 else 1
               | None => 1
               end in
      (n, <[user_id := {| city := city r; ai_chat_count := n;
                          ai_chat_date := Some today |}]> users)
  end.

(** The number of messages counted for the user today, as
    [get_ai_chat_usage] reports it: 0 unless the stored date is today. *)
Definition usage_today (users : table) (today : Z) (user_id : Z) : Z :=
  match users !! user_id with
  | None => 0
  | Some r =>
      match ai_chat_date r with
      | Some d => if d =? today then ai_chat_count r else 0
      | None => 0
      end
  end.

End User.

(** ** models/offer_analytics.py *)

Module OfferAnalytics.

(** A row of [offer_analytics]. *)
Record row := {
  offer_id : Z;
  date : Z;
  views : Z;
  clicks : Z;
  conversions : Z;
  conversion_calls : Z;
  conversion_directions : Z;
  conversion_website : Z;
  user_id : option Z;
  user_city : option string
}.

Abbreviation table := (list row).

(** [WHERE offer_id = %s AND date = %s]. *)
Definition is_for (o d : Z) (r : row) : bool :=
  (offer_id r =? o) && (date r =? d).

(** [_get_user_city]: the city of the user, [None] when the user is
    unknown or the city is null or empty. *)
Definition _get_user_city (users : User.table) (uid : option Z) : option string :=
  match uid with
  | Some u =>
      match users !! u with
      | Some r => if py_truthy_str (User.city r) then User.city r else None
      | None => None
      end
  | None => None
  end.

(** [_is_user_already_tracked_today]:
    [SELECT id .. WHERE offer_id = %s AND user_id = %s AND date = %s]. *)
Definition _is_user_already_tracked_today
    (t : table) (o : Z) (uid : option Z) (event_date : Z) : bool :=
  existsb (fun r => (offer_id r =? o) && sql_eq_id (user_id r) uid
                    && (date r =? event_date)) t.

(** The three generic counters and the three typed conversion counters. *)
Inductive field := Views | Clicks | Conversions.
Inductive conversion_field := Website | Calls | Directions.

Definition field_mapping (event_type : string) : option field :=
  if String.eqb event_type "view" then Some Views
  else if String.eqb event_type "click" then Some Clicks
  else if String.eqb event_type "conversion" then Some Conversions
  else None.

Definition conversion_field_mapping (conversion_type : string)
  : option conversion_field :=
  if String.eqb conversion_type "website" then Some Website
  else if String.eqb conversion_type "call" then Some Calls
  else if String.eqb conversion_type "directions" then Some Directions
  else None.

Definition get_conversion (f : conversion_field) (r : row) : Z :=
  match f with
  | Website => conversion_website r
  | Calls => conversion_calls r
  | Directions => conversion_directions r
  end.

(** [_has_user_converted_today]:
    [SELECT id .. WHERE offer_id = %s AND user_id = %s AND date = %s
     AND {field} > 0]; [False] for an unknown conversion type. *)
Definition _has_user_converted_today
    (t : table) (o : Z) (uid : option Z) (conversion_type : string)
    (event_date : Z) : bool :=
  match conversion_field_mapping conversion_type with
  | None => false
  | Some f =>
      existsb (fun r => (offer_id r =? o) && sql_eq_id (user_id r) uid
                        && (date r =? event_date)
                        && (0 <? get_conversion f r)) t
  end.

(** The row inserted when none exists for the offer and the day. *)
Definition new_row (o d : Z) (uid : option Z) (ucity : option string) : row :=
  {| offer_id := o; date := d; views := 0; clicks := 0; conversions := 0;
     conversion_calls := 0; conversion_directions := 0;
     conversion_website := 0; user_id := uid; user_city := ucity |}.

(** [SELECT id .. WHERE offer_id = %s AND date = %s], then [INSERT] when
    nothing was found. *)
Definition ensure_row (o d : Z) (uid : option Z) (ucity : option string)
    (t : table) : table :=
  if existsb (is_for o d) t then t else sql_insert (new_row o d uid ucity) t.

(** [SET {field} = {field} + 1, user_id = COALESCE(user_id, %s),
     user_city = COALESCE(user_city, %s)]. *)
Definition bump (f : field) (uid : option Z) (ucity : option string)
    (r : row) : row :=
  {| offer_id := offer_id r; date := date r;
     views := match f with Views => views r + 1 | _ => views r end;
     clicks := match f with Clicks => clicks r + 1 | _ => clicks r end;
     conversions :=
       match f with Conversions => conversions r + 1 | _ => conversions r end;
     conversion_calls := conversion_calls r;
     conversion_directions := conversion_directions r;
     conversion_website := conversion_website r;
     user_id := coalesce (user_id r) uid;
     user_city := coalesce (user_city r) ucity |}.

(** [SET {field} = {field} + 1, conversions = conversions + 1,
     user_id = COALESCE(..), user_city = COALESCE(..)]. *)
Definition bump_conversion (f : conversion_field) (uid : option Z)
    (ucity : option string) (r : row) : row :=
  {| offer_id := offer_id r; date := date r;
     views := views r; clicks := clicks r;
     conversions := conversions r + 1;
     conversion_calls :=
       match f with Calls => conversion_calls r + 1 | _ => conversion_calls r end;
     conversion_directions :=
       match f with
       | Directions => conversion_directions r + 1
       | _ => conversion_directions r
       end;
     conversion_website :=
       match f with
       | Website => conversion_website r + 1
       | _ => conversion_website r
       end;
     user_id := coalesce (user_id r) uid;
     user_city := coalesce (user_city r) ucity |}.

(** [user_city = None; if user_id: user_city = _get_user_city(user_id)]. *)
Definition city_of_user (users : User.table) (uid : option Z) : option string :=
  if py_truthy uid then _get_user_city users uid else None.

(** The dedup guard of [track_offer_interaction] (the condition of the
    early [return True]). *)
Definition is_duplicate_interaction (t : table) (o : Z) (uid : option Z)
    (today : Z) : bool :=
  py_truthy uid && _is_user_already_tracked_today t o uid today.

(** The dedup guard of [track_conversion]. *)
Definition is_duplicate_conversion (t : table) (o : Z) (uid : option Z)
    (conversion_type : string) (today : Z) : bool :=
  py_truthy uid && _has_user_converted_today t o uid conversion_type today.

(** [track_offer_interaction]: the returned boolean and the table after
    the call. *)
Definition track_offer_interaction (users : User.table) (today : Z)
    (o : Z) (uid : option Z) (event_type : string) (t : table)
  : bool * table :=
  let ucity := city_of_user users uid in
  if is_duplicate_interaction t o uid today then (true, t)
  else
    let t1 := ensure_row o today uid ucity t in
    match field_mapping event_type with
    | None => (false, t1)
    | Some f => (true, sql_update (is_for o today) (bump f uid ucity) t1)
    end.

(** [track_conversion]. *)
Definition track_conversion (users : User.table) (today : Z)
    (o : Z) (conversion_type : string) (uid : option Z) (t : table)
  : bool * table :=
  let ucity := city_of_user users uid in
  if is_duplicate_conversion t o uid conversion_type today then (true, t)
  else
    let t1 := ensure_row o today uid ucity t in
    match conversion_field_mapping conversion_type with
    | None => (false, t1)
    | Some f =>
        (true, sql_update (is_for o today) (bump_conversion f uid ucity) t1)
    end.

(** The sum of the three typed conversion counters of a row. *)
Definition typed_conversions (r : row) : Z :=
  conversion_calls r + conversion_directions r + conversion_website r.

(** The equality between the conversions total and its typed breakdown. *)
Definition conversions_balanced (r : row) : Prop :=
  conversions r = typed_conversions r.

End OfferAnalytics.

(** ** The PostgreSQL text operators used by the offer search

    [LOWER], [TRIM], [LIKE] and the regular-expression operator [~] belong to
    the database, not to the repository.  They are modelled on byte strings:
    [LOWER] folds the ASCII letters only, [TRIM] removes spaces at both ends,
    and [~] covers the fragment of the regular-expression language that the
    patterns of the search are written in (literals, [.], [^], [$], [\s],
    escaped punctuation, groups, [|], and the quantifiers [*], [+], [?]).
    A pattern outside this fragment is rejected like an invalid one. *)

Module Postgres.

Local Open Scope char_scope.

Definition lower_ascii (c : ascii) : ascii :=
  let n := N_of_ascii c in
  if ((65 <=? n) && (n <=? 90))%N then ascii_of_N (n + 32) else c.

Fixpoint lower (s : string) : string :=
  match s with
  | EmptyString => EmptyString
  | String c s' => String (lower_ascii c) (lower s')
  end.

Fixpoint ltrim (s : string) : string :=
  match s with
  | String " " s' => ltrim s'
  | _ => s
  end.

Fixpoint rtrim (s : string) : string :=
  match s with
  | EmptyString => EmptyString
  | String c s' =>
      match rtrim s' with
      | EmptyString => if Ascii.eqb c " " then EmptyString else String c EmptyString
      | t => String c t
      end
  end.

Definition trim (s : string) : string := ltrim (rtrim s).

(** [s LIKE p]: [%] stands for any run of characters, [_] for one character,
    and a backslash makes the next character literal. *)
Fixpoint like (p s : string) {struct p} : bool :=
  match p with
  | EmptyString => match s with EmptyString => true | _ => false end
  | String "%" p' =>
      (fix skip (s : string) : bool :=
         like p' s ||
         match s with
         | EmptyString => false
         | String _ s' => skip s'
         end) s
  | String "_" p' =>
      match s with
      | EmptyString => false
      | String _ s' => like p' s'
      end
  | String "\" (String c p') =>
      match s with
      | EmptyString => false
      | String d s' => Ascii.eqb c d && like p' s'
      end
  | String c p' =>
      match s with
      | EmptyString => false
      | String d s' => Ascii.eqb c d && like p' s'
      end
  end.

(** Regular expressions of the modelled fragment. *)
Inductive regex :=
| Nul                      (* matches nothing *)
| Eps                      (* the empty string *)
| Bol                      (* ^ *)
| Eol                      (* $ *)
| Lit (c : ascii)
| Dot                      (* . *)
| Space                    (* \s *)
| Alt (r1 r2 : regex)
| Cat (r1 r2 : regex)
| Star (r : regex).

Definition is_space (c : ascii) : bool :=
  let n := N_of_ascii c in
  ((n =? 32) || ((9 <=? n) && (n <=? 13)))%N.

Definition is_alnum (c : ascii) : bool :=
  let n := N_of_ascii c in
  (((48 <=? n) && (n <=? 57)) || ((65 <=? n) && (n <=? 90))
   || ((97 <=? n) && (n <=? 122)))%N.

(** A quantifier run after an atom: [*], [+], [?]. *)
Fixpoint parse_quantifiers (a : regex) (s : string) : regex * string :=
  match s with
  | String "*" s' => parse_quantifiers (Star a) s'
  | String "+" s' => parse_quantifiers (Cat a (Star a)) s'
  | String "?" s' => parse_quantifiers (Alt Eps a) s'
  | _ => (a, s)
  end.

(** Recursive descent over the pattern text; the fuel bounds the nesting. *)
Fixpoint parse_alt (fuel : nat) (s : string) : option (regex * string) :=
  match fuel with
  | O => None
  | S n =>
      match parse_cat n s with
      | Some (r1, String "|" s') =>
          match parse_alt n s' with
          | Some (r2, s'') => Some (Alt r1 r2, s'')
          | None => None
          end
      | other => other
      end
  end
with parse_cat (fuel : nat) (s : string) : option (regex * string) :=
  match fuel with
  | O => None
  | S n =>
      match s with
      | EmptyString => Some (Eps, s)
      | String "|" _ => Some (Eps, s)
      | String ")" _ => Some (Eps, s)
      | _ =>
          match parse_atom n s with
          | Some (a, s') =>
              let (q, s'') := parse_quantifiers a s' in
              match parse_cat n s'' with
              | Some (r, s''') => Some (Cat q r, s''')
              | None => None
              end
          | None => None
          end
      end
  end
with parse_atom (fuel : nat) (s : string) : option (regex * string) :=
  match fuel with
  | O => None
  | S n =>
      match s with
      | EmptyString => None
      | String "(" s' =>
          match parse_alt n s' with
          | Some (r, String ")" s'') => Some (r, s'')
          | _ => None
          end
      | String "." s' => Some (Dot, s')
      | String "^" s' => Some (Bol, s')
      | String "$" s' => Some (Eol, s')
      | String "\" (String c s') =>
          if Ascii.eqb c "s" then Some (Space, s')
          else if is_alnum c then None
          else Some (Lit c, s')
      | String "\" EmptyString => None
      | String "[" _ => None
      | String "{" _ => None
      | String "*" _ => None
      | String "+" _ => None
      | String "?" _ => None
      | String c s' => Some (Lit c, s')
      end
  end.

Definition regex_compile (pattern : string) : option regex :=
  match parse_alt (2 * String.length pattern + 4) pattern with
  | Some (r, EmptyString) => Some r
  | _ => None
  end.

(** Whether [r] matches the empty string at a position that is the start
    ([bol]) or the end ([eol]) of the subject. *)
Fixpoint nullable (bol eol : bool) (r : regex) : bool :=
  match r with
  | Nul => false
  | Eps => true
  | Bol => bol
  | Eol => eol
  | Lit _ | Dot | Space => false
  | Alt r1 r2 => nullable bol eol r1 || nullable bol eol r2
  | Cat r1 r2 => nullable bol eol r1 && nullable bol eol r2
  | Star _ => true
  end.

Definition mk_alt (r1 r2 : regex) : regex :=
  match r1, r2 with
  | Nul, _ => r2
  | _, Nul => r1
  | _, _ => Alt r1 r2
  end.

Definition mk_cat (r1 r2 : regex) : regex :=
  match r1, r2 with
  | Nul, _ => Nul
  | _, Nul => Nul
  | Eps, _ => r2
  | _, _ => Cat r1 r2
  end.

(** The residual of [r] after reading [c] at a position that is the start of
    the subject iff [bol]. *)
Fixpoint derive (bol : bool) (c : ascii) (r : regex) : regex :=
  match r with
  | Nul | Eps | Bol | Eol => Nul
  | Lit d => if Ascii.eqb c d then Eps else Nul
  | Dot => Eps
  | Space => if is_space c then Eps else Nul
  | Alt r1 r2 => mk_alt (derive bol c r1) (derive bol c r2)
  | Cat r1 r2 =>
      mk_alt (mk_cat (derive bol c r1) r2)
             (if nullable bol false r1 then derive bol c r2 else Nul)
  | Star r1 => mk_cat (derive bol c r1) (Star r1)
  end.

Fixpoint matches_from (bol : bool) (r : regex) (s : string) : bool :=
  match s with
  | EmptyString => nullable bol true r
  | String c s' => matches_from false (derive bol c r) s'
  end.

(** [subject ~ r]: some substring of the subject matches. *)
Definition regex_exec (r : regex) (subject : string) : bool :=
  matches_from true (Cat (Star Dot) (Cat r (Star Dot))) subject.

End Postgres.

(** ** The offers and businesses tables *)

Module Offers.

(** The columns of [offers] that the search reads or orders by.  The other
    columns are copied to the result unchanged and are left out. *)
Record offer := {
  id : Z;
  title : option string;
  description : option string;
  keywords : option string;
  city : option string;
  category : option string;
  status : option string;
  expires_at : option Z;
  is_premium : bool;
  created_at : Z;
  business_id : option Z
}.

Record business := {
  business_name : option string;
  phone : option string;
  email : option string
}.

End Offers.

(** ** models/ai_chat.py *)

Module AIChat.
Import Offers.

(** The double-quote character, for the patterns and the stored city lists
    that contain it. *)
Definition dq : string := String "034"%char EmptyString.

(** An element of the returned list (the keys of [frontend_offer] that come
    from the columns above and from the joined business). *)
Record frontend_offer := {
  fo_id : Z;
  fo_title : option string;
  fo_description : option string;
  fo_keywords : option string;
  fo_city : option string;
  fo_category : option string;
  isPremium : bool;
  businessName : option string;
  fo_phone : option string;
  fo_email : option string;
  expiresAt : option Z;
  createdAt : Z;
  fo_status : option string;
  businessId : option Z
}.

(** *** search_offers_function *)

(** [o.status = 'approved' AND (o.expires_at IS NULL OR o.expires_at >= %s)].
    In a [WHERE] clause built from [AND] and [OR] only, a null comparison
    excludes the row exactly as a false one does, so a comparison on a null
    column is [false]. *)
Definition is_active (now : Z) (o : offer) : bool :=
  match status o with
  | Some s => String.eqb s "approved"
  | None => false
  end &&
  match expires_at o with
  | None => true
  | Some e => now <=? e
  end.

(** [LOWER(col) LIKE LOWER(%s)]. *)
Definition ilike (col : option string) (pattern : string) : bool :=
  match col with
  | Some v => Postgres.like (Postgres.lower pattern) (Postgres.lower v)
  | None => false
  end.

(** The keywords clause, with [search_pattern = f"%{keywords}%"]. *)
Definition keywords_clause (kw : string) (o : offer) : bool :=
  let search_pattern := "%" +:+ kw +:+ "%" in
  ilike (title o) search_pattern || ilike (description o) search_pattern
  || ilike (keywords o) search_pattern.

(** [LOWER(o.category) = LOWER(%s)]. *)
Definition category_clause (cat : string) (o : offer) : bool :=
  match category o with
  | Some c => String.eqb (Postgres.lower c) (Postgres.lower cat)
  | None => false
  end.

(** The four regular expressions of the city clause, in the order of the
    query text; the second one does not depend on the requested city. *)
Definition city_patterns (q : string) : list string :=
  let q' := Postgres.lower (Postgres.trim q) in
  [ "(^|,)\s*" +:+ q' +:+ "\s*(,|$)";
    "\[" +:+ dq +:+ ".*koko maa.*" +:+ dq +:+ "\]";
    "\[" +:+ dq +:+ ".*" +:+ q' +:+ ".*" +:+ dq +:+ "\]";
    dq +:+ ".*" +:+ q' +:+ ".*" +:+ dq ].

(** The city clause on a stored city, once the patterns are compiled. *)
Definition city_clause_compiled (q : string) (rs : list Postgres.regex)
    (stored : option string) : bool :=
  match stored with
  | None => false
  | Some c =>
      String.eqb (Postgres.lower (Postgres.trim c)) "koko maa"
      || String.eqb (Postgres.lower (Postgres.trim c))
                    (Postgres.lower (Postgres.trim q))
      || existsb (fun r => Postgres.regex_exec r (Postgres.lower c)) rs
  end.

(** Compiles every pattern; [None] when one is rejected. *)
Fixpoint compile_all (ps : list string) : option (list Postgres.regex) :=
  match ps with
  | [] => Some []
  | p :: ps' =>
      match Postgres.regex_compile p, compile_all ps' with
      | Some r, Some rs => Some (r :: rs)
      | _, _ => None
      end
  end.

(** The city clause of the query for the requested city [q]; [None] when the
    statement fails on a rejected regular expression. *)
Definition city_clause (q : string) : option (option string -> bool) :=
  match compile_all (city_patterns q) with
  | Some rs => Some (city_clause_compiled q rs)
  | None => None
  end.

(** [ORDER BY o.is_premium DESC, o.created_at DESC]: [a] may come before
    [b]. *)
Definition precedes (a b : offer) : bool :=
  match is_premium a, is_premium b with
  | true, false => true
  | false, true => false
  | _, _ => created_at b <=? created_at a
  end.

Fixpoint insert_sorted (o : offer) (l : list offer) : list offer :=
  match l with
  | [] => [o]
  | x :: l' => if precedes o x then o :: x :: l' else x :: insert_sorted o l'
  end.

(** Rows that compare equal keep their table order. *)
Definition order_by (l : list offer) : list offer :=
  List.fold_right insert_sorted [] l.

(** The mapping of a fetched row to the dictionary sent to the front end;
    the business columns come from [LEFT JOIN businesses b ON
    o.business_id = b.id]. *)
Definition to_frontend (businesses : gmap Z business) (o : offer)
  : frontend_offer :=
  let b := match business_id o with
           | Some k => businesses !! k
           | None => None
           end in
  {| fo_id := id o; fo_title := title o; fo_description := description o;
     fo_keywords := keywords o; fo_city := city o; fo_category := category o;
     isPremium := is_premium o;
     businessName := b ≫= business_name;
     fo_phone := b ≫= phone;
     fo_email := b ≫= email;
     expiresAt := expires_at o;
     createdAt := created_at o;
     fo_status := status o;
     businessId := business_id o |}.

(** The [WHERE] clause for the given parameters; [None] when the statement
    fails. *)
Definition where_clause (now : Z) (cat kw cty : option string)
  : option (offer -> bool) :=
  let kw_ok o := if py_truthy_str kw then keywords_clause (default "" kw) o else true in
  let cat_ok o := if py_truthy_str cat then category_clause (default "" cat) o else true in
  if py_truthy_str cty then
    match city_clause (default "" cty) with
    | Some f => Some (fun o => is_active now o && kw_ok o && cat_ok o && f (city o))
    | None => None
    end
  else Some (fun o => is_active now o && kw_ok o && cat_ok o).

(** [search_offers_function]: the approved, unexpired offers that pass the
    filters, premium first and newest first, at most ten of them; the empty
    list when the statement fails ([except Exception: return []]).
    [active_only] is accepted and not used. *)
Definition search_offers_function (offers : list offer)
    (businesses : gmap Z business) (now : Z)
    (cat kw cty : option string) (active_only : bool) : list frontend_offer :=
  match where_clause now cat kw cty with
  | Some p =>
      List.map (to_frontend businesses)
               (firstn 10 (order_by (List.filter p offers)))
  | None => []
  end.

(** The city clause applied to a stored city, [None] if the statement fails. *)
Definition city_matches (q stored : string) : option bool :=
  match city_clause q with
  | Some f => Some (f (Some stored))
  | None => None
  end.

(** What the search promises about one returned offer. *)
Definition eligible (now : Z) (fo : frontend_offer) : Prop :=
  fo_status fo = Some "approved" /\
  (expiresAt fo = None \/ exists e, expiresAt fo = Some e /\ now <= e).

(** *** The chat orchestrator *)

(** The externally visible steps of a chat request, in the order they
    happen: the two quota operations of the endpoint, a call to the language
    model, and a run of the search tool. *)
Inductive effect := QuotaCheck | ModelCall | ToolSearch | QuotaIncrement.

(** A computation that logs its effects and either returns or raises; what
    was logged before an exception stays logged. *)
Inductive outcome (A : Type) := Returned (a : A) | Raised.
Arguments Returned {A} a.
Arguments Raised {A}.

Definition action (A : Type) : Type := list effect * outcome A.

Definition ret {A} (a : A) : action A := ([], Returned a).

Definition raise {A} : action A := ([], Raised).

Definition bind {A B} (m : action A) (f : A -> action B) : action B :=
  match m with
  | (l, Returned a) => let (l', r) := f a in (l ++ l', r)
  | (l, Raised) => (l, Raised)
  end.

Definition perform {A} (e : effect) (r : outcome A) : action A := ([e], r).

#[global] Instance action_ret : MRet action := @ret.
#[global] Instance action_bind : MBind action := fun A B f m => bind m f.

(** The keyword arguments of [search_offers_function]. *)
Record search_args := {
  arg_category : option string;
  arg_keywords : option string;
  arg_city : option string;
  arg_active_only : bool
}.

(** A tool call of the model.  [tc_arguments] is [None] when
    [json.loads(tool_call.function.arguments)] raises or the decoded object
    has a key that [search_offers_function] does not accept. *)
Record tool_call := {
  tc_id : string;
  tc_name : string;
  tc_arguments : option search_args
}.

Record assistant_message := {
  content : option string;
  tool_calls : list tool_call
}.

(** The texts sent to the model.  Each is a fixed template of the source,
    identified here by the values it is filled with. *)
Inductive prompt :=
| SystemPrompt (finnish : bool) (user_city : option string)
| UserText (text : string)
| FollowUpFound (finnish : bool) (count : nat)
| FollowUpNone (finnish : bool) (args : search_args).

Inductive chat_message :=
| SystemMsg (p : prompt)
| UserMsg (p : prompt)
| AssistantMsg (m : assistant_message)
| ToolMsg (tool_call_id : string) (offers_count : nat).

(** The language model provider: [chat.completions.create] with the tool
    schema (first turn) and without it (second turn, of which only the
    content is read).  Either may raise. *)
Record provider := {
  first_turn : list chat_message -> outcome assistant_message;
  second_turn : list chat_message -> outcome (option string)
}.

(** The latest OpenAI row of [ai_model_credentials]. *)
Record credentials := {
  api_key : string;
  cred_model_name : option string;
  cred_chat_limit : option Z
}.

(** The fields of an [AIChat] instance; [openai_client] holds the key the
    client was built with. *)
Record chat := {
  openai_client : option string;
  model_name : option string;
  chat_limit : Z
}.

(** [__init__] and [_load_api_credentials]; [None] stands for no row found
    or a failed read, which both leave the client unset and the limit at 15.
    [result[2] or 15] also replaces a limit of 0. *)
Definition new_chat (creds : option credentials) : chat :=
  match creds with
  | Some c =>
      {| openai_client := Some (api_key c);
         model_name := Some (if py_truthy_str (cred_model_name c)
                             then default "gpt-4o" (cred_model_name c)
                             else "gpt-4o");
         chat_limit := if py_truthy (cred_chat_limit c)
                       then default 15 (cred_chat_limit c) else 15 |}
  | None => {| openai_client := None; model_name := None; chat_limit := 15 |}
  end.

Definition get_chat_limit (self : chat) : Z := chat_limit self.

(** The dictionary returned by [process_chat_message]. *)
Record response := {
  success : bool;
  message : option string;
  offers : list frontend_offer
}.

Definition str_is (v : option string) (s : string) : bool :=
  match v with
  | Some x => String.eqb x s
  | None => false
  end.

(** The body of the [try] block: the first turn, then, if the model asked
    for [search_offers], the search and the second turn. *)
Definition exchange (p : provider) (offer_rows : list offer)
    (businesses : gmap Z business) (now : Z) (user_message : string)
    (user_city language : option string)
  : action (option string * list frontend_offer) :=
  let fi := str_is language "fi" in
  let messages :=
    [ SystemMsg (SystemPrompt fi (if py_truthy_str user_city then user_city
                                  else None));
      UserMsg (UserText user_message) ] in
  m ← perform ModelCall (first_turn p messages);
  match tool_calls m with
  | [] => ret (content m, [])
  | calls =>
      match List.find (fun tc => String.eqb (tc_name tc) "search_offers") calls with
      | None => raise    (* [ai_message] is read before any assignment *)
      | Some tc =>
          match tc_arguments tc with
          | None => raise
          | Some args =>
              let args :=
                if py_truthy_str user_city && negb (py_truthy_str (arg_city args))
                then {| arg_category := arg_category args;
                        arg_keywords := arg_keywords args;
                        arg_city := user_city;
                        arg_active_only := arg_active_only args |}
                else args in
              found ← perform ToolSearch
                         (Returned (search_offers_function offer_rows businesses
                                      now (arg_category args) (arg_keywords args)
                                      (arg_city args) (arg_active_only args)));
              let follow_up_prompt :=
                match found with
                | [] => FollowUpNone fi args
                | _ => FollowUpFound fi (List.length found)
                end in
              let final_messages :=
                messages ++ [ AssistantMsg m;
                              ToolMsg (tc_id tc) (List.length found);
                              UserMsg follow_up_prompt ] in
              ai_message ← perform ModelCall (second_turn p final_messages);
              ret (ai_message, found)
          end
      end
  end.

Definition service_unavailable : string :=
  "AI service not available. Please try again later.".

Definition error_msg (language : option string) : string :=
  if str_is language "en"
  then "Sorry, I'm having trouble right now. Please try again later."
  else "Anteeksi, minulla on teknisiä ongelmia. Yritä myöhemmin uudelleen.".

(** [process_chat_message]: the effects it performed and the dictionary it
    returns.  Every exception of the [try] block is caught. *)
Definition process_chat_message (self : chat) (p : provider)
    (offer_rows : list offer) (businesses : gmap Z business) (now : Z)
    (user_message : string) (user_city language : option string)
  : list effect * response :=
  match openai_client self with
  | None =>
      ([], {| success := false; message := Some service_unavailable;
              offers := [] |})
  | Some _ =>
      match exchange p offer_rows businesses now user_message user_city
                     language with
      | (log, Returned (ai_message, found)) =>
          (log, {| success := true; message := ai_message; offers := found |})
      | (log, Raised) =>
          (log, {| success := false; message := Some (error_msg language);
                   offers := [] |})
      end
  end.

(** How many times the usage counter was incremented. *)
Definition increments (log : list effect) : nat :=
  List.length (List.filter (fun e => match e with
                                     | QuotaIncrement => true
                                     | _ => false
                                     end) log).

End AIChat.

(** ** models/analytics.py: the batch ingest path *)

Module Analytics.

(** A Python [dict] with integer keys: an association list in insertion
    order, without repeated keys when built by [dict_set]. *)
Definition dict (V : Type) : Type := list (Z * V).

Fixpoint dict_get {V} (d : dict V) (k : Z) : option V :=
  match d with
  | [] => None
  | (k', v) :: d' => if k' =? k then Some v else dict_get d' k
  end.

(** [d[k] = v]: overwrites in place, or appends a new key at the end. *)
Fixpoint dict_set {V} (d : dict V) (k : Z) (v : V) : dict V :=
  match d with
  | [] => [(k, v)]
  | (k', v') :: d' =>
      if k' =? k then (k', v) :: d' else (k', v') :: dict_set d' k v
  end.

(** An element of [events_data]; [event.get(..)] gives [None] for a missing
    key. *)
Record event := {
  event_type : option string;
  session_id : option string;
  user_id : option Z;
  offer_id : option Z;
  metadata : option string;
  ip_address : option string;
  user_agent : option string
}.

(** The counted event types, [['view', 'click', 'conversion']]. *)
Inductive kind := View | Click | Conversion.

Definition kind_of (event_type : option string) : option kind :=
  match event_type with
  | Some s =>
      if String.eqb s "view" then Some View
      else if String.eqb s "click" then Some Click
      else if String.eqb s "conversion" then Some Conversion
      else None
  | None => None
  end.

(** [{'view': _, 'click': _, 'conversion': _}]. *)
Record stats := { view : nat; click : nat; conversion : nat }.

Definition no_stats : stats := {| view := 0; click := 0; conversion := 0 |}.

(** [stats[event_type] += 1]. *)
Definition count_one (k : kind) (s : stats) : stats :=
  match k with
  | View => {| view := S (view s); click := click s; conversion := conversion s |}
  | Click => {| view := view s; click := S (click s); conversion := conversion s |}
  | Conversion =>
      {| view := view s; click := click s; conversion := S (conversion s) |}
  end.

Definition add_stats (a b : stats) : stats :=
  {| view := view a + view b; click := click a + click b;
     conversion := conversion a + conversion b |}.

(** A row of [business_analytics] (the columns the batch path writes). *)
Record row := {
  business_id : Z;
  date : Z;
  total_views : Z;
  total_clicks : Z;
  total_conversions : Z;
  total_spent : Z;
  active_offers : Z
}.

Record state := {
  analytics_events : list event;
  business_analytics : list row
}.

(** One turn of the loop over [events_data] that fills [business_updates]. *)
Definition tally_event (business_updates : dict stats) (e : event) : dict stats :=
  match offer_id e, kind_of (event_type e) with
  | Some o, Some k =>
      if py_truthy (Some o) then
        dict_set business_updates o
                 (count_one k (default no_stats (dict_get business_updates o)))
      else business_updates
  | _, _ => business_updates
  end.

Definition tally (events_data : list event) : dict stats :=
  fold_left tally_event events_data [].

(** [SELECT id, business_id FROM offers WHERE id = ANY(%s)], folded into
    [business_mapping]. *)
Definition business_mapping (offers : list Offers.offer) (offer_ids : list Z)
  : dict (option Z) :=
  fold_left (fun m o => dict_set m (Offers.id o) (Offers.business_id o))
            (List.filter (fun o => existsb (Z.eqb (Offers.id o)) offer_ids) offers)
            [].

(** One turn of the loop that groups the updates by business. *)
Definition group_offer (mapping : dict (option Z)) (business_stats : dict stats)
    (entry : Z * stats) : dict stats :=
  let (o, s) := entry in
  match dict_get mapping o with
  | Some (Some b) =>
      if py_truthy (Some b) then
        dict_set business_stats b
                 (add_stats (default no_stats (dict_get business_stats b)) s)
      else business_stats
  | _ => business_stats
  end.

Definition is_for (b d : Z) (r : row) : bool :=
  (business_id r =? b) && (date r =? d).

(** [SET total_views = total_views + %s, ..]. *)
Definition add_to_row (s : stats) (r : row) : row :=
  {| business_id := business_id r; date := date r;
     total_views := total_views r + Z.of_nat (view s);
     total_clicks := total_clicks r + Z.of_nat (click s);
     total_conversions := total_conversions r + Z.of_nat (conversion s);
     total_spent := total_spent r; active_offers := active_offers r |}.

(** [VALUES (%s, %s, %s, %s, %s, 0, 0, CURRENT_TIMESTAMP)]. *)
Definition row_of_stats (b d : Z) (s : stats) : row :=
  {| business_id := b; date := d;
     total_views := Z.of_nat (view s);
     total_clicks := Z.of_nat (click s);
     total_conversions := Z.of_nat (conversion s);
     total_spent := 0; active_offers := 0 |}.

Definition any_positive (s : stats) : bool :=
  ((0 <? view s) || (0 <? click s) || (0 <? conversion s))%nat.

(** One turn of the loop over [business_stats]: check, then update or
    insert. *)
Definition apply_business (event_date : Z) (t : list row) (entry : Z * stats)
  : list row :=
  let (b, s) := entry in
  if any_positive s then
    if existsb (is_for b event_date) t
    then sql_update (is_for b event_date) (add_to_row s) t
    else sql_insert (row_of_stats b event_date s) t
  else t.

(** [_batch_update_business_analytics]. *)
Definition _batch_update_business_analytics (offers : list Offers.offer)
    (business_updates : dict stats) (event_date : Z) (t : list row)
  : list row :=
  match business_updates with
  | [] => t
  | _ =>
      let offer_ids := List.map fst business_updates in
      let mapping := business_mapping offers offer_ids in
      let business_stats := fold_left (group_offer mapping) business_updates [] in
      fold_left (apply_business event_date) business_stats t
  end.

(** *** What [analytics_events] accepts

    The table of [create_tables]: [event_type VARCHAR(50) NOT NULL],
    [session_id VARCHAR(255)], [user_id INTEGER REFERENCES users(id)],
    [offer_id INTEGER REFERENCES offers(id)], [metadata JSONB],
    [ip_address INET], [user_agent TEXT].  A row is inserted only if every
    value fits the type of its column, the event type is not null and the
    two references exist.  Whether a value fits its column is decided by the
    input conversions of the server and of the driver; they are the
    parameter [fits] of the model.  The NOT NULL and the two references are
    checked on the row and on the tables. *)
Definition references_user (users : User.table) (e : event) : bool :=
  match user_id e with
  | None => true
  | Some u => match users !! u with Some _ => true | None => false end
  end.

Definition references_offer (offers : list Offers.offer) (e : event) : bool :=
  match offer_id e with
  | None => true
  | Some o => existsb (fun x => Offers.id x =? o) offers
  end.

Definition accepted (fits : event -> bool) (users : User.table)
    (offers : list Offers.offer) (e : event) : bool :=
  fits e
  && match event_type e with Some _ => true | None => false end
  && references_user users e
  && references_offer offers e.

(** [batch_track_events]: nothing for an empty batch; otherwise one bulk
    insert of the events, then the aggregate update for the day.  The
    insert is one transaction, committed after the last row: when a row is
    refused the statement raises, nothing is stored, and the [except] of
    [batch_track_events] ends the call before the aggregate update. *)
Definition batch_track_events (fits : event -> bool) (users : User.table)
    (offers : list Offers.offer) (event_date : Z)
    (events_data : list event) (st : state) : state :=
  match events_data with
  | [] => st
  | _ =>
      if forallb (accepted fits users offers) events_data then
        {| analytics_events := analytics_events st ++ events_data;
           business_analytics :=
             _batch_update_business_analytics offers (tally events_data)
               event_date (business_analytics st) |}
      else st
  end.

(** The totals of the aggregate rows of a business on a day. *)
Definition totals (r : row) : Z * Z * Z :=
  (total_views r, total_clicks r, total_conversions r).

Definition totals_of (b d : Z) (t : list row) : list (Z * Z * Z) :=
  List.map totals (List.filter (is_for b d) t).

(** *** What a batch counts for a business *)

Section Contributions.
Variable offers : list Offers.offer.

(** The mapping over the whole [offers] table. *)
Definition whole_mapping : dict (option Z) :=
  fold_left (fun m o => dict_set m (Offers.id o) (Offers.business_id o)) offers [].

(** The business an offer is counted for: the non-null, non-zero
    [business_id] of the offer. *)
Definition business_of (o : Z) : option Z :=
  match dict_get whole_mapping o with
  | Some (Some b) => if py_truthy (Some b) then Some b else None
  | _ => None
  end.

Definition counts_for (b o : Z) : bool :=
  match business_of o with
  | Some b' => b' =? b
  | None => false
  end.

(** What one event adds to the counts of business [b]. *)
Definition contribution (b : Z) (e : event) : stats :=
  match offer_id e, kind_of (event_type e) with
  | Some o, Some k =>
      if py_truthy (Some o) && counts_for b o then count_one k no_stats
      else no_stats
  | _, _ => no_stats
  end.

Definition batch_total (b : Z) (events : list event) : stats :=
  List.fold_right (fun e acc => add_stats (contribution b e) acc) no_stats events.

(** The part of a [business_updates] dictionary that goes to business [b]. *)
Definition share (b : Z) (d : dict stats) : stats :=
  List.fold_right
    (fun (entry : Z * stats) acc =>
       if counts_for b (fst entry) then add_stats (snd entry) acc else acc)
    no_stats d.

End Contributions.

(** *** The totals of the aggregate rows *)

Definition stats_totals (s : stats) : Z * Z * Z :=
  (Z.of_nat (view s), Z.of_nat (click s), Z.of_nat (conversion s)).

Definition add_totals (s : stats) (x : Z * Z * Z) : Z * Z * Z :=
  let '(v, c, n) := x in
  (v + Z.of_nat (view s), c + Z.of_nat (click s), n + Z.of_nat (conversion s)).

(** The effect of a batch that counts [s] for a business on the totals of
    its rows of the day: nothing for an empty count, one new row when the
    business has none, otherwise every row grows. *)
Definition bump_totals (s : stats) (rows : list (Z * Z * Z)) : list (Z * Z * Z) :=
  if any_positive s then
    match rows with
    | [] => [stats_totals s]
    | _ => List.map (add_totals s) rows
    end
  else rows.

End Analytics.

(** ** routes/ai_chat.py: POST /ai-chat *)

Module AIChatRoute.
Import AIChat.

(** A key of the JSON body: missing, [null], or a string. *)
Inductive json_field := Absent | Null | Str (s : string).

(** [data.get(key)] and [data.get(key, fallback)]. *)
Definition get (f : json_field) : option string :=
  match f with
  | Str s => Some s
  | _ => None
  end.

Definition get_or (f : json_field) (fallback : string) : option string :=
  match f with
  | Absent => Some fallback
  | Null => None
  | Str s => Some s
  end.

(** The JSON body of the request ([message], [userCity], [language]). *)
Record body := {
  message : json_field;
  userCity : json_field;
  language : json_field
}.

(** White space for [str.strip()] on ASCII text. *)
Definition py_is_space (c : ascii) : bool :=
  let n := N_of_ascii c in
  ((n =? 32) || ((9 <=? n) && (n <=? 13)) || ((28 <=? n) && (n <=? 31)))%N.

Fixpoint lstrip (s : string) : string :=
  match s with
  | String c s' => if py_is_space c then lstrip s' else s
  | EmptyString => s
  end.

Fixpoint rstrip (s : string) : string :=
  match s with
  | EmptyString => EmptyString
  | String c s' =>
      match rstrip s' with
      | EmptyString => if py_is_space c then EmptyString else String c EmptyString
      | t => String c t
      end
  end.

Definition strip (s : string) : string := lstrip (rstrip s).

(** What the endpoint answers: the HTTP status and the JSON fields. *)
Record reply := {
  status : Z;
  success : bool;
  reply_message : option string;
  reply_offers : list frontend_offer;
  currentUsage : option Z;
  dailyLimit : option Z;
  limitReached : option bool
}.

Definition refuse (code : Z) (text : option string) (limit : option Z)
    (reached : option bool) : reply :=
  {| status := code; success := false; reply_message := text;
     reply_offers := []; currentUsage := None; dailyLimit := limit;
     limitReached := reached |}.

(** The stores the endpoint reads; only [users] is written. *)
Record stores := {
  users : User.table;
  ai_model_credentials : option credentials;
  offer_rows : list Offers.offer;
  businesses : gmap Z Offers.business
}.

(** [ai_chat]: the reply, the users table after the request, and the
    effects in the order they happened.  [user_id] is the JWT identity, [data]
    is [request.get_json()] ([None] for a missing or empty body).  The two
    messages that embed a number (the length, the limit) are shortened, and
    the [limiter.limit(..)(ai_chat)] line, which only builds a wrapped
    function, is left out. *)
Definition ai_chat (db : stores) (p : provider) (today now : Z)
    (user_id : Z) (data : option body)
  : reply * User.table * list effect :=
  match data with
  | None => (refuse 400 (Some "Message is required") None None, users db, [])
  | Some d =>
      if negb (py_truthy_str (get (message d))) then
        (refuse 400 (Some "Message is required") None None, users db, [])
      else
        let user_message := strip (default "" (get (message d))) in
        if String.eqb user_message "" then
          (refuse 400 (Some "Message cannot be empty") None None, users db, [])
        else if (150 <? String.length user_message)%nat then
          (refuse 400 (Some "Message too long. Maximum 150 characters allowed.")
             None None, users db, [])
        else
          let ai_chat_instance := new_chat (ai_model_credentials db) in
          let dynamic_chat_limit := get_chat_limit ai_chat_instance in
          if negb (User.check_ai_chat_limit (users db) today user_id
                     dynamic_chat_limit) then
            (refuse 429 (Some "Daily chat limit exceeded")
               (Some dynamic_chat_limit) (Some true), users db, [QuotaCheck])
          else
            let user_city := get_or (userCity d) "Helsinki" in
            let lang := get_or (language d) "fi" in
            let (log, response) :=
              process_chat_message ai_chat_instance p (offer_rows db)
                (businesses db) now user_message user_city lang in
            if negb (AIChat.success response) then
              (refuse 500 (AIChat.message response) None None, users db,
               QuotaCheck :: log)
            else
              let (current_usage, users') :=
                User.increment_ai_chat_usage (users db) today user_id in
              ({| status := 200; success := true;
                  reply_message := AIChat.message response;
                  reply_offers := AIChat.offers response;
                  currentUsage := Some current_usage;
                  dailyLimit := Some dynamic_chat_limit;
                  limitReached := Some (dynamic_chat_limit <=? current_usage) |},
               users', QuotaCheck :: log ++ [QuotaIncrement])
  end.

End AIChatRoute.

(** ** Concrete states and inputs used by the examples *)

Module Scenarios.
Import Offers AIChat.

(** *** The per-offer aggregate *)

(** The state of [offer_analytics] after user 7 viewed offer 1 on day 5,
    starting from the empty table. *)
Definition after_first_view : OfferAnalytics.table :=
  snd (OfferAnalytics.track_offer_interaction ∅ 5 1 (Some 7) "view" []).

(** The same after user 7 followed the website link of offer 1. *)
Definition after_first_website : OfferAnalytics.table :=
  snd (OfferAnalytics.track_conversion ∅ 5 1 "website" (Some 7) []).

(** *** Offers *)

(** The stored city of a multi-city offer written as a JSON array:
    [["Espoo","Aura","Helsinki"]]. *)
Definition json_cities : string :=
  "[" +:+ dq +:+ "Espoo" +:+ dq +:+ "," +:+ dq +:+ "Aura" +:+ dq +:+ ","
  +:+ dq +:+ "Helsinki" +:+ dq +:+ "]".

(** An approved offer without expiry, stored with the given city. *)
Definition offer_in (i : Z) (c : string) : offer :=
  {| id := i; title := Some "Kahvi -20%"; description := None;
     keywords := None; city := Some c; category := Some "Ruoka ja juoma";
     status := Some "approved"; expires_at := None; is_premium := false;
     created_at := i; business_id := None |}.

Definition four_offers : list offer :=
  [ offer_in 1 "Helsinki"; offer_in 2 "koko maa"; offer_in 3 json_cities;
    offer_in 4 "Espoo,Aura,Helsinki" ].

(** An offer of business [b], for the batch path. *)
Definition an_offer (i : Z) (b : option Z) : offer :=
  {| id := i; title := None; description := None; keywords := None;
     city := None; category := None; status := Some "approved";
     expires_at := None; is_premium := false; created_at := 0;
     business_id := b |}.

(** An anonymous event of the given type on the given offer. *)
Definition an_event (ty : string) (o : option Z) : Analytics.event :=
  {| Analytics.event_type := Some ty; Analytics.session_id := None;
     Analytics.user_id := None; Analytics.offer_id := o;
     Analytics.metadata := None; Analytics.ip_address := None;
     Analytics.user_agent := None |}.

(** *** Providers, credentials and requests *)

(** A provider that cannot be reached: both turns raise. *)
Definition unreachable : provider :=
  {| first_turn := fun _ => Raised; second_turn := fun _ => Raised |}.

(** A provider that answers in plain text, without a tool call. *)
Definition chatty : provider :=
  {| first_turn := fun _ =>
       Returned {| content := Some "Hei! Mitä etsit?"; tool_calls := [] |};
     second_turn := fun _ => Returned (Some "ok") |}.

(** A provider that asks for one search and then comments on the result. *)
Definition searching : provider :=
  {| first_turn := fun _ =>
       Returned {| content := None;
                   tool_calls :=
                     [ {| tc_id := "call_1"; tc_name := "search_offers";
                          tc_arguments :=
                            Some {| arg_category := None;
                                    arg_keywords := Some "kahvi";
                                    arg_city := None;
                                    arg_active_only := true |} |} ] |};
     second_turn := fun _ => Returned (Some "Löysin tarjouksia!") |}.

Definition a_key : credentials :=
  {| api_key := "sk-test"; cred_model_name := None; cred_chat_limit := Some 3 |}.

Definition a_user : User.row :=
  {| User.city := Some "Helsinki"; User.ai_chat_count := 2;
     User.ai_chat_date := Some 5 |}.

Definition a_store : AIChatRoute.stores :=
  {| AIChatRoute.users := {[ 7 := a_user ]};
     AIChatRoute.ai_model_credentials := Some a_key;
     AIChatRoute.offer_rows := four_offers;
     AIChatRoute.businesses := ∅ |}.

Definition a_body : AIChatRoute.body :=
  {| AIChatRoute.message := AIChatRoute.Str " kahvi ";
     AIChatRoute.userCity := AIChatRoute.Absent;
     AIChatRoute.language := AIChatRoute.Absent |}.

End Scenarios.

(** ** Vocabulary for the lifetime of the per-offer aggregate rows *)

Module OfferAnalyticsLife.
Import OfferAnalytics.

(** A row [r'] is a later state of the row [r] under tracking on offer [o]
    and day [d]: the key is the same, no counter went down, an owner and a
    city once set are kept, and a row of another offer or day is untouched. *)
Definition evolves (o d : Z) (r r' : row) : Prop :=
  offer_id r' = offer_id r /\ date r' = date r /\
  views r <= views r' /\ clicks r <= clicks r' /\
  conversions r <= conversions r' /\
  conversion_calls r <= conversion_calls r' /\
  conversion_directions r <= conversion_directions r' /\
  conversion_website r <= conversion_website r' /\
  (forall u, user_id r = Some u -> user_id r' = Some u) /\
  (forall c, user_city r = Some c -> user_city r' = Some c) /\
  (is_for o d r = false -> r' = r).

(** The table [t'] keeps every row of [t], in place and evolved, and has at
    most one more row at the end. *)
Definition grows (o d : Z) (t t' : table) : Prop :=
  exists kept added,
    t' = kept ++ added /\ Forall2 (evolves o d) t kept /\
    (List.length added <= 1)%nat.

(** The key of a row, and tables with at most one row per offer and day. *)
Definition key (r : row) : Z * Z := (offer_id r, date r).

Definition one_row_per_key (t : table) : Prop := List.NoDup (List.map key t).

(** [n] anonymous views of offer [o] in a row. *)
Definition anonymous_views (users : User.table) (today o : Z) (n : nat)
    (t : table) : table :=
  Nat.iter n (fun t => snd (track_offer_interaction users today o None "view" t)) t.

(** The rows of the offer and the day have no owner other than [u]. *)
Definition not_owned_by_others (o d u : Z) (t : table) : Prop :=
  forall r, In r t -> is_for o d r = true ->
            user_id r = None \/ user_id r = Some u.

End OfferAnalyticsLife.

(** ** The usage report and a day of chat requests

    [User.get_ai_chat_usage] ([models/user.py]), the endpoint
    [GET /chat/usage] ([routes/ai_chat.py]) and a sequence of
    [POST /ai-chat] requests of one user. *)

Module ChatUsage.
Import AIChat.

(** [get_ai_chat_usage]: the dictionary [{'current_usage': _, 'date': _}].
    An unknown user has usage 0 and no date; a stored date that is null or
    not today gives usage 0 and today's date. *)
Definition get_ai_chat_usage (users : User.table) (today user_id : Z)
  : Z * option Z :=
  match users !! user_id with
  | None => (0, None)
  | Some r =>
      match User.ai_chat_date r with
      | Some d =>
          if d =? today then (User.ai_chat_count r, Some d)
          else (0, Some today)
      | None => (0, Some today)
      end
  end.

(** The [data] object of the answer of [GET /chat/usage]. *)
Record usage_report := {
  daily_usage : Z;
  daily_limit : Z;
  remaining_today : Z;
  report_date : option Z;
  limitReached : bool
}.

(** The endpoint [get_ai_chat_usage] of [routes/ai_chat.py]: the limit is
    read from a fresh [AIChat] instance. *)
Definition usage_endpoint (db : AIChatRoute.stores) (today user_id : Z)
  : usage_report :=
  let dynamic_chat_limit :=
    get_chat_limit (new_chat (AIChatRoute.ai_model_credentials db)) in
  let usage_data := get_ai_chat_usage (AIChatRoute.users db) today user_id in
  let usage := fst usage_data in
  {| daily_usage := usage;
     daily_limit := dynamic_chat_limit;
     remaining_today := Z.max 0 (dynamic_chat_limit - usage);
     report_date := snd usage_data;
     limitReached := dynamic_chat_limit <=? usage |}.

(** One [POST /ai-chat] request of the user: the provider's behaviour for
    it, the clock and the JSON body. *)
Record request := {
  req_provider : provider;
  req_now : Z;
  req_data : option AIChatRoute.body
}.

Definition with_users (db : AIChatRoute.stores) (users : User.table)
  : AIChatRoute.stores :=
  {| AIChatRoute.users := users;
     AIChatRoute.ai_model_credentials := AIChatRoute.ai_model_credentials db;
     AIChatRoute.offer_rows := AIChatRoute.offer_rows db;
     AIChatRoute.businesses := AIChatRoute.businesses db |}.

(** The requests served one after the other on the same day, each on the
    users table left by the one before: the replies, in order, and the final
    users table. *)
Fixpoint serve (db : AIChatRoute.stores) (today user_id : Z)
    (requests : list request) : list AIChatRoute.reply * User.table :=
  match requests with
  | [] => ([], AIChatRoute.users db)
  | q :: rest =>
      let '(reply, users', _) :=
        AIChatRoute.ai_chat db (req_provider q) today (req_now q) user_id
          (req_data q) in
      let (replies, final) := serve (with_users db users') today user_id rest in
      (reply :: replies, final)
  end.

(** The number of replies with status 200. *)
Definition answered (replies : list AIChatRoute.reply) : Z :=
  Z.of_nat (List.length
              (List.filter (fun r => AIChatRoute.status r =? 200) replies)).

End ChatUsage.

(** ** Vocabulary for the search results and the chat replies *)

Module SearchSpec.
Import Offers AIChat.

(** The row [o] is eligible at [now] and passes every filter that was
    supplied; a filter that is [None] or empty is not applied. *)
Definition passes (now : Z) (cat kw cty : option string) (o : offer) : Prop :=
  is_active now o = true /\
  (if py_truthy_str kw then keywords_clause (default "" kw) o = true
   else True) /\
  (if py_truthy_str cat then category_clause (default "" cat) o = true
   else True) /\
  (if py_truthy_str cty
   then exists f, city_clause (default "" cty) = Some f /\ f (city o) = true
   else True).

(** The order of the rows under [ORDER BY]. *)
Definition before (a b : offer) : Prop := precedes a b = true.

(** [a] is listed before [b] under [ORDER BY is_premium DESC,
    created_at DESC], read on the returned dictionaries. *)
Definition ranks_before (a b : frontend_offer) : Prop :=
  (isPremium a = true /\ isPremium b = false) \/
  (isPremium a = isPremium b /\ createdAt b <= createdAt a).

(** The rows of the table that the [WHERE] clause selects, in table order;
    none when the statement fails. *)
Definition matching (offers : list offer) (now : Z) (cat kw cty : option string)
  : list offer :=
  match where_clause now cat kw cty with
  | Some p => List.filter p offers
  | None => []
  end.

(** A text without the characters that [LIKE] reads as wildcards or escape
    ([%], [_], backslash). *)
Fixpoint plain (s : string) : bool :=
  match s with
  | EmptyString => true
  | String c s' =>
      negb (Ascii.eqb c "%" || Ascii.eqb c "_" || Ascii.eqb c "\") && plain s'
  end.

(** [s] contains [kw] up to the case of the ASCII letters. *)
Definition contains_ci (s kw : string) : Prop :=
  exists a m b, s = a +:+ m +:+ b /\ Postgres.lower m = Postgres.lower kw.

(** The two messages of the first turn, as [process_chat_message] builds
    them. *)
Definition opening_messages (user_message : string)
    (user_city language : option string) : list chat_message :=
  [ SystemMsg (SystemPrompt (str_is language "fi")
                 (if py_truthy_str user_city then user_city else None));
    UserMsg (UserText user_message) ].

(** The first tool call named [search_offers], if any. *)
Definition search_call (m : assistant_message) : option tool_call :=
  List.find (fun tc => String.eqb (tc_name tc) "search_offers") (tool_calls m).

(** The stored city of a returned offer passes the city clause for [q]. *)
Definition in_city (q : string) (fo : frontend_offer) : Prop :=
  match city_clause q with
  | Some f => f (fo_city fo) = true
  | None => False
  end.

(** A provider that asks for a tool that does not exist. *)
Definition distracted : provider :=
  {| first_turn := fun _ =>
       Returned {| content := None;
                   tool_calls :=
                     [ {| tc_id := "call_9"; tc_name := "get_weather";
                          tc_arguments := None |} ] |};
     second_turn := fun _ => Returned (Some "ok") |}.

End SearchSpec.

(** ** models/analytics.py: the single-event path

    [track_event] and [_push_to_business_analytics] write the same columns
    of [business_analytics] as the batch path, so they are modelled on the
    same rows.  Every statement of these paths reaches the table through
    [WHERE business_id = %s AND date = %s]; a row whose [business_id] is null
    is never selected or updated by any of them, and is left out of the
    table. *)

Module SingleEvent.
Import Analytics.

(** [SELECT business_id FROM offers WHERE id = %s], [fetchone()]: [None]
    when no offer has the id, otherwise its (nullable) business. *)
Definition find_business (offers : list Offers.offer) (offer_id : Z)
  : option (option Z) :=
  option_map Offers.business_id
    (List.find (fun o => Offers.id o =? offer_id) offers).

(** An offer that counts for [active_offers]: approved, and without expiry
    or expiring strictly after the current time. *)
Definition is_live (now : Z) (o : Offers.offer) : bool :=
  match Offers.status o with
  | Some s => String.eqb s "approved"
  | None => false
  end &&
  match Offers.expires_at o with
  | None => true
  | Some e => now <? e
  end.

(** [SELECT COUNT( * ) FROM offers WHERE business_id = %s AND status =
    'approved' AND (expires_at IS NULL OR expires_at > CURRENT_TIMESTAMP)]. *)
Definition live_offers (offers : list Offers.offer) (now b : Z) : Z :=
  Z.of_nat (List.length
              (List.filter (fun o => sql_eq_id (Offers.business_id o) (Some b)
                                     && is_live now o) offers)).

(** [VALUES (%s, %s, 0, 0, 0, 0, 0, CURRENT_TIMESTAMP)]. *)
Definition zero_row (b d : Z) : row :=
  {| business_id := b; date := d; total_views := 0; total_clicks := 0;
     total_conversions := 0; total_spent := 0; active_offers := 0 |}.

(** [SET {field} = {field} + 1]. *)
Definition increment (k : kind) (r : row) : row :=
  {| business_id := business_id r; date := date r;
     total_views := match k with View => total_views r + 1 | _ => total_views r end;
     total_clicks :=
       match k with Click => total_clicks r + 1 | _ => total_clicks r end;
     total_conversions :=
       match k with
       | Conversion => total_conversions r + 1
       | _ => total_conversions r
       end;
     total_spent := total_spent r; active_offers := active_offers r |}.

(** [SET active_offers = (SELECT COUNT( * ) ..)]. *)
Definition set_active_offers (n : Z) (r : row) : row :=
  {| business_id := business_id r; date := date r;
     total_views := total_views r; total_clicks := total_clicks r;
     total_conversions := total_conversions r;
     total_spent := total_spent r; active_offers := n |}.

(** [_push_to_business_analytics]: nothing for an unknown offer; otherwise
    the row of the business and the day is created if missing, and, for a
    counted event type, the counter is incremented and [active_offers] is
    recomputed. *)
Definition _push_to_business_analytics (offers : list Offers.offer) (now : Z)
    (event_type : option string) (offer_id : Z) (event_date : Z)
    (t : list row) : list row :=
  match find_business offers offer_id with
  | None => t
  | Some None => t
  | Some (Some b) =>
      let t1 := if existsb (is_for b event_date) t then t
                else sql_insert (zero_row b event_date) t in
      match kind_of event_type with
      | None => t1
      | Some k =>
          sql_update (is_for b event_date)
            (set_active_offers (live_offers offers now b))
            (sql_update (is_for b event_date) (increment k) t1)
      end
  end.

(** [track_event]: the event is stored, then pushed to the business
    aggregate when it names an offer.  The arguments of the call are the
    fields of the stored event.  When the table refuses the row
    ([Analytics.accepted]) the [INSERT] raises, and the [except] of
    [track_event] ends the call: nothing is stored and nothing is pushed. *)
Definition track_event (fits : event -> bool) (users : User.table)
    (offers : list Offers.offer) (now event_date : Z)
    (st : state) (e : event) : state :=
  if accepted fits users offers e then
    {| analytics_events := analytics_events st ++ [e];
       business_analytics :=
         match offer_id e with
         | Some o =>
             if py_truthy (Some o)
             then _push_to_business_analytics offers now (event_type e) o
                    event_date (business_analytics st)
             else business_analytics st
         | None => business_analytics st
         end |}
  else st.

(** The events tracked one after the other on the same day, each at its own
    clock reading. *)
Definition track_events (fits : event -> bool) (users : User.table)
    (offers : list Offers.offer) (event_date : Z)
    (timed : list (Z * event)) (st : state) : state :=
  fold_left (fun st te => track_event fits users offers (fst te) event_date st
                            (snd te))
            timed st.

(** Every event of the list is accepted by [analytics_events]. *)
Definition all_accepted (fits : event -> bool) (users : User.table)
    (offers : list Offers.offer) (events : list event) : Prop :=
  forallb (accepted fits users offers) events = true.

(** Every event of the list has a counted type. *)
Definition all_counted (events : list event) : Prop :=
  List.Forall (fun e => kind_of (event_type e) <> None) events.

(** The offer ids are distinct ([id] is the primary key of [offers]). *)
Definition distinct_ids (offers : list Offers.offer) : Prop :=
  List.NoDup (List.map Offers.id offers).

(** The rows of a business on a day. *)
Definition rows_of (b d : Z) (t : list row) : list row :=
  List.filter (is_for b d) t.

End SingleEvent.

(** ** routes/offers.py: the tracking endpoints

    The four endpoints [POST /tarjoukset/<offer_id>/click] and
    [POST /tarjoukset/<offer_id>/conversion/{website,call,directions}], with
    [Tarjous.find_by_id] ([models/tarjous.py]) as far as they use it: only
    whether the query ran and whether an offer was found matter to them. *)

Module OffersRoute.
Import OfferAnalytics.

(** [Tarjous.find_by_id]: [SELECT .. WHERE o.id = %s AND o.status =
    'approved' AND (o.expires_at IS NULL OR o.expires_at >
    CURRENT_TIMESTAMP)], [fetchone()]. *)
Definition find_by_id (offers : list Offers.offer) (now offer_id : Z)
  : option Offers.offer :=
  List.find (fun o => (Offers.id o =? offer_id) && SingleEvent.is_live now o)
            offers.

(** The four endpoints. *)
Inductive endpoint :=
| track_offer_click
| track_website_conversion
| track_call_conversion
| track_directions_conversion.

(** The call each endpoint makes once the offer is found; its boolean
    result is dropped. *)
Definition track (users : User.table) (today : Z) (ep : endpoint)
    (offer_id user_id : Z) (t : table) : table :=
  match ep with
  | track_offer_click =>
      snd (track_offer_interaction users today offer_id (Some user_id) "click" t)
  | track_website_conversion =>
      snd (track_conversion users today offer_id "website" (Some user_id) t)
  | track_call_conversion =>
      snd (track_conversion users today offer_id "call" (Some user_id) t)
  | track_directions_conversion =>
      snd (track_conversion users today offer_id "directions" (Some user_id) t)
  end.

(** The id of the path, [<offer_id>], reaches the routes as text and is
    sent to the database as text: the server converts it to the type of the
    column it is compared with, and the statement fails when the text does
    not write a value of that type.  [as_offers_id] is the conversion for
    [offers.id] and [as_analytics_id] the one for
    [offer_analytics.offer_id]; neither table is declared in the sources,
    and both conversions are parameters. *)

(** The call of the tracking function with the text of the path.  When the
    text is no id of [offer_analytics.offer_id], every statement of
    [OfferAnalytics] that names the offer fails, the guards return [False],
    and the tracking function returns [False] from its [except] without
    having written. *)
Definition track_text (as_analytics_id : string -> option Z)
    (users : User.table) (today : Z) (ep : endpoint)
    (offer_id : string) (user_id : Z) (t : table) : table :=
  match as_analytics_id offer_id with
  | Some n => track users today ep n user_id t
  | None => t
  end.

(** An endpoint called by the user [user_id] (the JWT identity) for the
    path id [offer_id]: the HTTP status and the table afterwards.  500 when
    the [SELECT] of [find_by_id] fails, which raises the error again; 404
    when no approved, unexpired offer has the id; 200 otherwise, whatever
    the tracking function returns. *)
Definition handle (as_offers_id as_analytics_id : string -> option Z)
    (offers : list Offers.offer) (users : User.table)
    (today now : Z) (ep : endpoint) (offer_id : string) (user_id : Z)
    (t : table) : Z * table :=
  match as_offers_id offer_id with
  | None => (500, t)
  | Some n =>
      match find_by_id offers now n with
      | None => (404, t)
      | Some _ =>
          (200, track_text as_analytics_id users today ep offer_id user_id t)
      end
  end.

(** A call of one of the endpoints, with the state of the world it meets. *)
Record call := {
  call_as_offers_id : string -> option Z;
  call_as_analytics_id : string -> option Z;
  call_offers : list Offers.offer;
  call_users : User.table;
  call_today : Z;
  call_now : Z;
  call_endpoint : endpoint;
  call_offer_id : string;
  call_user_id : Z
}.

(** The table after a sequence of calls. *)
Definition serve (calls : list call) (t : table) : table :=
  fold_left
    (fun t c => snd (handle (call_as_offers_id c) (call_as_analytics_id c)
                       (call_offers c) (call_users c) (call_today c)
                       (call_now c) (call_endpoint c) (call_offer_id c)
                       (call_user_id c) t))
    calls t.

End OffersRoute.

(** ** models/tarjous.py and routes/offers.py: the paginated offer list *)

Module Tarjous.

(** The largest [bigint], the type of [LIMIT] and [OFFSET]. *)
Definition bigint_max : Z := 9223372036854775807.

(** The sort key of [ORDER BY o.is_premium DESC, o.created_at DESC]. *)
Definition sort_key (o : Offers.offer) : bool * Z :=
  (Offers.is_premium o, Offers.created_at o).

(** [ORDER BY] fixes the order of the fetched rows up to the rows with equal
    keys, whose order is the server's, statement by statement.  An
    arrangement is the server's choice for one statement; it [sorts] when it
    returns the rows it is given, each once, in an order that agrees with
    [ORDER BY]. *)
Definition sorts (arrange : list Offers.offer -> list Offers.offer) : Prop :=
  forall l, Permutation l (arrange l) /\
            StronglySorted SearchSpec.before (arrange l).

Section Listing.

(** [Tarjous(row).to_dict()], the rendering of a fetched row; it reads the
    row and the [offer_images] table and has no part in the pagination. *)
Variable D : Type.
Variable to_dict : Offers.offer -> D.

(** Whether the driver and the server take a text as a parameter of the
    statement. *)
Variable sendable : string -> bool.

(** The [WHERE] clause of [get_offers]: approved and unexpired, the category
    when given, and for a given city
    [o.city::text ILIKE '%city%' OR o.city::text ILIKE '%koko maa%']. *)
Definition listed (now : Z) (category city : option string)
    (o : Offers.offer) : bool :=
  SingleEvent.is_live now o
  && (if py_truthy_str category
      then AIChat.category_clause (default "" category) o else true)
  && (if py_truthy_str city
      then AIChat.ilike (Offers.city o) ("%" +:+ default "" city +:+ "%")
           || AIChat.ilike (Offers.city o) "%koko maa%"
      else true).

(** All the rows the [WHERE] clause selects, in table order. *)
Definition selected (offers : list Offers.offer) (now : Z)
    (category city : option string) : list Offers.offer :=
  List.filter (listed now category city) offers.

(** The text parameters of the statement are taken: the category when one
    is given, and the pattern built from the city when one is given. *)
Definition texts_ok (category city : option string) : bool :=
  (if py_truthy_str category then sendable (default "" category) else true)
  && (if py_truthy_str city
      then sendable ("%" +:+ default "" city +:+ "%") else true).

(** The statement runs: [LIMIT] and [OFFSET] are not negative and within
    [bigint], and the text parameters are taken. *)
Definition runs (page limit : Z) (category city : option string) : bool :=
  let offset := (page - 1) * limit in
  (0 <=? limit) && (limit <=? bigint_max)
  && (0 <=? offset) && (offset <=? bigint_max)
  && texts_ok category city.

(** The dictionary returned by [get_offers]. *)
Record page_of_offers := {
  offers : list D;
  currentPage : Z;
  totalPages : Z;
  totalCount : Z;
  hasNext : bool;
  hasPrev : bool
}.

(** [get_offers], with the arrangement of the rows that the server chooses
    for this statement.  [total_count] is read from the first fetched row,
    so it is 0 when the page is empty.  When the statement fails the error
    is raised again: [None]. *)
Definition get_offers (arrange : list Offers.offer -> list Offers.offer)
    (offers : list Offers.offer) (now page limit : Z)
    (category city : option string) : option page_of_offers :=
  let offset := (page - 1) * limit in
  if runs page limit category city then
    let rows := arrange (selected offers now category city) in
    let results := firstn (Z.to_nat limit) (skipn (Z.to_nat offset) rows) in
    let total_count :=
      match results with
      | [] => 0
      | _ => Z.of_nat (List.length rows)
      end in
    let total_pages :=
      if 0 <? total_count then (total_count + limit - 1) / limit else 0 in
    Some {| offers := List.map to_dict results;
            currentPage := page;
            totalPages := total_pages;
            totalCount := total_count;
            hasNext := page <? total_pages;
            hasPrev := 1 <? page |}
  else None.

(** [page] and [limit] as the endpoints pass them on: the query parameters
    read with [type=int] ([None] when missing or not an integer), a page
    below 1 replaced by 1 and a page size outside 1..50 by 20. *)
Definition clamp_page (page : option Z) : Z :=
  let page := default 1 page in
  if page <? 1 then 1 else page.

Definition clamp_limit (limit : option Z) : Z :=
  let limit := default 20 limit in
  if (limit <? 1) || (50 <? limit) then 20 else limit.

(** The endpoints [GET /tarjoukset] and [GET /tarjoukset/public] of
    [routes/offers.py]: the status and the [data] of the answer; 500 when
    [get_offers] raises. *)
Definition get_offers_endpoint
    (arrange : list Offers.offer -> list Offers.offer)
    (offers : list Offers.offer) (now : Z)
    (page limit : option Z) (category city : option string)
  : Z * option page_of_offers :=
  match get_offers arrange offers now (clamp_page page) (clamp_limit limit)
          category city with
  | Some result => (200, Some result)
  | None => (500, None)
  end.

(** The offers of the pages [1 .. n], one after the other; each page is a
    statement of its own, with its own arrangement. *)
Fixpoint pages_up_to
    (arrange_for : nat -> list Offers.offer -> list Offers.offer)
    (rows : list Offers.offer) (now limit : Z)
    (category city : option string) (n : nat) : list D :=
  match n with
  | O => []
  | S k =>
      pages_up_to arrange_for rows now limit category city k ++
      match get_offers (arrange_for n) rows now (Z.of_nat n) limit
              category city with
      | Some p => offers p
      | None => []
      end
  end.

End Listing.

(** The number of pages that [n] offers fill at [limit] offers a page. *)
Definition pages_for (n limit : Z) : Z := (n + limit - 1) / limit.

End Tarjous.

(** ** Concrete instances of the database's conversions used by the examples *)

Module Cases.

(** A text of printable ASCII characters, at most [n] of them. *)
Fixpoint printable (s : string) : bool :=
  match s with
  | EmptyString => true
  | String c s' =>
      let k := Z.of_N (N_of_ascii c) in
      (32 <=? k) && (k <=? 126) && printable s'
  end.

Definition short (n : nat) (s : option string) : bool :=
  match s with
  | None => true
  | Some s => (String.length s <=? n)%nat && printable s
  end.

(** A value of the range of [INTEGER]. *)
Definition int4 (z : option Z) : bool :=
  match z with
  | None => true
  | Some z => (-2147483648 <=? z) && (z <=? 2147483647)
  end.

(** Rows whose values every column of [analytics_events] takes: short
    printable texts, ids within [INTEGER], no metadata and no address. *)
Definition small_values (e : Analytics.event) : bool :=
  short 50 (Analytics.event_type e)
  && short 255 (Analytics.session_id e)
  && int4 (Analytics.user_id e)
  && int4 (Analytics.offer_id e)
  && match Analytics.metadata e with None => true | Some _ => false end
  && match Analytics.ip_address e with None => true | Some _ => false end
  && short 255 (Analytics.user_agent e).

(** The integer written by a text of decimal digits. *)
Fixpoint digits (s : string) (acc : Z) : option Z :=
  match s with
  | EmptyString => Some acc
  | String c s' =>
      let d := Z.of_N (N_of_ascii c) - 48 in
      if (0 <=? d) && (d <=? 9) then digits s' (10 * acc + d) else None
  end.

(** An id column of type [INTEGER] compared with a text of digits: the
    integer it writes, when within the range of the type. *)
Definition decimal_id (s : string) : option Z :=
  match s with
  | EmptyString => None
  | _ =>
      match digits s 0 with
      | Some n => if n <=? 2147483647 then Some n else None
      | None => None
      end
  end.

End Cases.

(** * Properties of the per-offer aggregate ([models/offer_analytics.py]) *)

Module OfferAnalyticsFacts.
Import OfferAnalytics Scenarios.

Lemma tracked_today_spec (t : table) (o d : Z) (uid : option Z) :
  _is_user_already_tracked_today t o uid d = true <->
  exists r, In r t /\ offer_id r = o /\ date r = d /\
            exists u, uid = Some u /\ user_id r = Some u.
Proof.
  unfold _is_user_already_tracked_today. rewrite existsb_exists.
  split.
  - intros (r & Hin & Hr).
    apply andb_prop in Hr as [Hr Hd]. apply andb_prop in Hr as [Ho Hu].
    exists r. repeat split; try lia; auto.
    unfold sql_eq_id in Hu. destruct (user_id r) as [a|], uid as [b|]; try discriminate.
    exists b. split; [reflexivity | f_equal; lia].
  - intros (r & Hin & Ho & Hd & u & -> & Hu).
    exists r. split; [assumption|].
    rewrite Hu. simpl. rewrite !andb_true_iff. lia.
Qed.

Lemma converted_today_spec (t : table) (o d : Z) (uid : option Z)
    (ct : string) (f : conversion_field) :
  conversion_field_mapping ct = Some f ->
  _has_user_converted_today t o uid ct d = true <->
  exists r, In r t /\ offer_id r = o /\ date r = d /\
            (exists u, uid = Some u /\ user_id r = Some u) /\
            0 < get_conversion f r.
Proof.
  intros Hf. unfold _has_user_converted_today. rewrite Hf, existsb_exists.
  split.
  - intros (r & Hin & Hr).
    apply andb_prop in Hr as [Hr Hpos]. apply andb_prop in Hr as [Hr Hd].
    apply andb_prop in Hr as [Ho Hu].
    exists r. repeat split; try lia; auto.
    unfold sql_eq_id in Hu. destruct (user_id r) as [a|], uid as [b|]; try discriminate.
    exists b. split; [reflexivity | f_equal; lia].
  - intros (r & Hin & Ho & Hd & (u & -> & Hu) & Hpos).
    exists r. split; [assumption|].
    rewrite Hu. simpl. rewrite !andb_true_iff. lia.
Qed.

(** C1 (as amended). For a generic event carrying a user id (non-null and,
    as Python tests it, non-zero), the guard of [track_offer_interaction]
    reports a duplicate exactly when some aggregate row of the offer and the
    day carries that same user id. *)
Theorem C1_duplicate_iff_row_of_same_user (t : table) (o d u : Z) :
  u <> 0 ->
  (is_duplicate_interaction t o (Some u) d = true <->
   exists r, In r t /\ offer_id r = o /\ date r = d /\ user_id r = Some u).
Proof.
  intros Hu. unfold is_duplicate_interaction. simpl.
  replace (u =? 0) with false by lia. simpl.
  rewrite tracked_today_spec. split.
  - intros (r & Hin & Ho & Hd & u' & [= <-] & Hr). eauto.
  - intros (r & Hin & Ho & Hd & Hr). exists r. eauto 8.
Qed.

Lemma C1_duplicate_iff_row_of_same_user_witness :
  is_duplicate_interaction after_first_view 1 (Some 7) 5 = true <->
  exists r, In r after_first_view /\ offer_id r = 1 /\ date r = 5 /\
            user_id r = Some 7.
Proof. apply (C1_duplicate_iff_row_of_same_user after_first_view 1 5 7). lia. Defined.

(** C1 (as stated) fails: after user 7 viewed offer 1, the row of the day
    carries a user id, yet a view by user 8 is not reported as a duplicate. *)
Lemma C1_other_user_not_blocked :
  ~ (is_duplicate_interaction after_first_view 1 (Some 8) 5 = true <->
     exists r, In r after_first_view /\ offer_id r = 1 /\ date r = 5 /\
               user_id r <> None).
Proof.
  intros [_ H].
  assert (Hd : is_duplicate_interaction after_first_view 1 (Some 8) 5 = false)
    by reflexivity.
  rewrite H in Hd; [discriminate|].
  eexists. split; [left; reflexivity|]. simpl. repeat split; discriminate.
Qed.

(** C2 (as amended). For a typed conversion carrying a user id, the guard of
    [track_conversion] reports a duplicate exactly when some aggregate row of
    the offer and the day carries that same user id and has a positive count
    in the matching counter. *)
Theorem C2_duplicate_iff_counted_row_of_same_user
    (t : table) (o d u : Z) (ct : string) (f : conversion_field) :
  u <> 0 ->
  conversion_field_mapping ct = Some f ->
  (is_duplicate_conversion t o (Some u) ct d = true <->
   exists r, In r t /\ offer_id r = o /\ date r = d /\ user_id r = Some u /\
             0 < get_conversion f r).
Proof.
  intros Hu Hf. unfold is_duplicate_conversion. simpl.
  replace (u =? 0) with false by lia. simpl.
  rewrite (converted_today_spec _ _ _ _ _ _ Hf). split.
  - intros (r & Hin & Ho & Hd & (u' & [= <-] & Hr) & Hpos). eauto 8.
  - intros (r & Hin & Ho & Hd & Hr & Hpos). exists r. eauto 10.
Qed.

Lemma C2_duplicate_iff_counted_row_of_same_user_witness :
  is_duplicate_conversion after_first_website 1 (Some 7) "website" 5 = true <->
  exists r, In r after_first_website /\ offer_id r = 1 /\ date r = 5 /\
            user_id r = Some 7 /\ 0 < get_conversion Website r.
Proof.
  apply (C2_duplicate_iff_counted_row_of_same_user
           after_first_website 1 5 7 "website" Website);
    [lia | reflexivity].
Defined.

(** C2 (as stated) fails: after user 7 followed the website link, the
    website counter of the row is positive, yet the same conversion by
    user 8 is not reported as a duplicate. *)
Lemma C2_other_user_not_blocked :
  ~ (is_duplicate_conversion after_first_website 1 (Some 8) "website" 5 = true <->
     exists r, In r after_first_website /\ offer_id r = 1 /\ date r = 5 /\
               0 < conversion_website r).
Proof.
  intros [_ H].
  assert (Hd : is_duplicate_conversion after_first_website 1 (Some 8) "website" 5
               = false) by reflexivity.
  rewrite H in Hd; [discriminate|].
  eexists. split; [left; reflexivity|]. simpl. repeat split; lia.
Qed.

(** *** Row creation and the counters *)


Lemma ensure_row_has_row (o d : Z) (uid : option Z) (c : option string)
    (t : table) :
  existsb (is_for o d) (ensure_row o d uid c t) = true.
Proof.
  unfold ensure_row. destruct (existsb (is_for o d) t) eqn:E; [assumption|].
  unfold sql_insert. rewrite existsb_app. simpl.
  unfold is_for. simpl. rewrite !Z.eqb_refl. simpl. apply orb_true_r.
Qed.

Lemma ensure_row_owner (o d : Z) (uid : option Z) (c : option string)
    (t : table) (P : row -> Prop) :
  P (new_row o d uid c) ->
  (forall r, In r t -> P r) ->
  forall r, In r (ensure_row o d uid c t) -> P r.
Proof.
  intros Hn Ht r. unfold ensure_row, sql_insert.
  destruct (existsb (is_for o d) t); [apply Ht|].
  rewrite in_app_iff. simpl. intros [H | [<- | []]]; auto.
Qed.

Lemma is_for_bump (o d : Z) (f : field) (uid : option Z) (c : option string)
    (r : row) :
  is_for o d (bump f uid c r) = is_for o d r.
Proof. reflexivity. Qed.

(** A user's repeat of an accepted generic event is skipped whenever the
    rows of the offer and the day are not owned by somebody else. *)
Lemma repeat_by_owner_is_skipped (users : User.table) (today o u : Z)
    (ev : string) (f : field) (t : table) :
  u <> 0 ->
  field_mapping ev = Some f ->
  (forall r, In r t -> is_for o today r = true ->
             user_id r = None \/ user_id r = Some u) ->
  let t1 := snd (track_offer_interaction users today o (Some u) ev t) in
  track_offer_interaction users today o (Some u) ev t1 = (true, t1).
Proof.
  intros Hu Hf Hown. unfold track_offer_interaction.
  destruct (is_duplicate_interaction t o (Some u) today) eqn:E; simpl.
  - rewrite E. reflexivity.
  - rewrite Hf. simpl.
    set (c := city_of_user users (Some u)).
    set (t0 := ensure_row o today (Some u) c t).
    assert (Hdup : is_duplicate_interaction
                     (sql_update (is_for o today) (bump f (Some u) c) t0)
                     o (Some u) today = true).
    { unfold is_duplicate_interaction. simpl.
      replace (u =? 0) with false by lia. simpl.
      apply tracked_today_spec.
      pose proof (ensure_row_has_row o today (Some u) c t) as Hex.
      fold t0 in Hex. apply existsb_exists in Hex as (r0 & Hin & Hfor).
      exists (bump f (Some u) c r0). split.
      - unfold sql_update. apply in_map_iff. exists r0.
        rewrite Hfor. auto.
      - unfold is_for in Hfor. apply andb_prop in Hfor as [Ho Hd].
        simpl. split; [lia|]. split; [lia|].
        exists u. split; [reflexivity|].
        assert (Hall : forall r, In r t0 -> is_for o today r = true ->
                                 user_id r = None \/ user_id r = Some u).
        { unfold t0.
          apply (ensure_row_owner o today (Some u) c t
                   (fun r => is_for o today r = true ->
                             user_id r = None \/ user_id r = Some u)).
          - intros _. right. reflexivity.
          - exact Hown. }
        assert (Hfor' : is_for o today r0 = true)
          by (unfold is_for; rewrite Ho, Hd; reflexivity).
        destruct (Hall r0 Hin Hfor') as [H | H]; rewrite H; reflexivity. }
    rewrite Hdup. reflexivity.
Qed.


(** C6. Evaluation at the failing input: user 7 views offer 1, then user 8
    submits the same view twice on the same day.  The row stays owned by
    user 7, so the guard never recognises user 8 and both submissions are
    counted: the second call moves [views] from 2 to 3.  (The repeat is
    skipped only for the owner of the row, [repeat_by_owner_is_skipped].) *)
Theorem C6_repeat_view_of_second_user_is_counted :
  let t2 := snd (track_offer_interaction ∅ 5 1 (Some 8) "view" after_first_view) in
  let t3 := snd (track_offer_interaction ∅ 5 1 (Some 8) "view" t2) in
  List.map views after_first_view = [1] /\
  List.map views t2 = [2] /\
  List.map views t3 = [3] /\
  List.map user_id t3 = [Some 7].
Proof. repeat split. Qed.

(** *** The conversions total and its typed breakdown *)

Lemma bump_conversion_both_sides (f : conversion_field) (uid : option Z)
    (c : option string) (r : row) :
  conversions (bump_conversion f uid c r) = conversions r + 1 /\
  typed_conversions (bump_conversion f uid c r) = typed_conversions r + 1.
Proof. unfold typed_conversions. destruct f; simpl; lia. Qed.

Lemma bump_generic_conversion_one_side (uid : option Z) (c : option string)
    (r : row) :
  conversions (bump Conversions uid c r) = conversions r + 1 /\
  typed_conversions (bump Conversions uid c r) = typed_conversions r.
Proof. unfold typed_conversions. simpl. lia. Qed.

Lemma sql_update_Forall {R} (P : R -> Prop) (p : R -> bool) (f : R -> R)
    (t : list R) :
  (forall r, P r -> P (f r)) ->
  List.Forall P t -> List.Forall P (sql_update p f t).
Proof.
  intros Hf Ht. unfold sql_update. induction Ht as [|r t Hr Ht IH]; simpl.
  - constructor.
  - constructor; [destruct (p r); auto | exact IH].
Qed.

Lemma ensure_row_Forall (P : row -> Prop) (o d : Z) (uid : option Z)
    (c : option string) (t : table) :
  P (new_row o d uid c) ->
  List.Forall P t -> List.Forall P (ensure_row o d uid c t).
Proof.
  intros Hn Ht. unfold ensure_row, sql_insert.
  destruct (existsb (is_for o d) t); [assumption|].
  apply Forall_app. split; [assumption|]. constructor; [assumption | constructor].
Qed.





End OfferAnalyticsFacts.

(** * Properties of the offer search ([AIChat.search_offers_function]) *)

Module SearchFacts.
Import Offers AIChat Scenarios.

(** C3. Against the stored cities "Helsinki", "koko maa",
    ["Espoo","Aura","Helsinki"] (JSON array) and "Espoo,Aura,Helsinki", the
    city clause of the search matches the requested city "Helsinki" on all
    four and the requested city "Tampere" on "koko maa" only; accordingly a
    search by city over four eligible offers stored with these cities returns
    all four for "Helsinki" and only the nationwide one for "Tampere". *)
Theorem C3_city_filter_on_the_four_representations :
  List.map (city_matches "Helsinki")
           ["Helsinki"; "koko maa"; json_cities; "Espoo,Aura,Helsinki"]
    = [Some true; Some true; Some true; Some true] /\
  List.map (city_matches "Tampere")
           ["Helsinki"; "koko maa"; json_cities; "Espoo,Aura,Helsinki"]
    = [Some false; Some true; Some false; Some false] /\
  List.map fo_id (search_offers_function four_offers ∅ 0 None None
                                         (Some "Helsinki") true)
    = [4; 3; 2; 1] /\
  List.map fo_id (search_offers_function four_offers ∅ 0 None None
                                         (Some "Tampere") true)
    = [2].
Proof. repeat split; vm_compute; reflexivity. Qed.

(** A nationwide offer passes the city clause whatever city is requested. *)
Lemma nationwide_always_matches (q : string) (f : option string -> bool) :
  city_clause q = Some f -> f (Some "koko maa") = true.
Proof.
  unfold city_clause. destruct (compile_all (city_patterns q)); [|discriminate].
  intros [= <-]. reflexivity.
Qed.

Lemma where_clause_is_active (now : Z) (cat kw cty : option string)
    (p : offer -> bool) (o : offer) :
  where_clause now cat kw cty = Some p -> p o = true -> is_active now o = true.
Proof.
  unfold where_clause. destruct (py_truthy_str cty).
  - destruct (city_clause _); [|discriminate].
    intros [= <-] H. rewrite !andb_true_iff in H. tauto.
  - intros [= <-] H. rewrite !andb_true_iff in H. tauto.
Qed.

Lemma In_insert_sorted (o x : offer) (l : list offer) :
  In x (insert_sorted o l) -> x = o \/ In x l.
Proof.
  induction l as [|y l IH]; simpl.
  - intros [<- | []]. left. reflexivity.
  - destruct (precedes o y); simpl.
    + intros [<- | H]; auto.
    + intros [<- | H]; [right; left; reflexivity|].
      destruct (IH H); auto.
Qed.

Lemma In_order_by (x : offer) (l : list offer) :
  In x (order_by l) -> In x l.
Proof.
  unfold order_by. induction l as [|y l IH]; simpl; [tauto|].
  intros H. apply In_insert_sorted in H as [-> | H]; auto.
Qed.

Lemma In_firstn {A} (n : nat) (x : A) (l : list A) :
  In x (firstn n l) -> In x l.
Proof.
  revert l. induction n as [|n IH]; intros [|y l]; simpl; try tauto.
  intros [<- | H]; auto.
Qed.

Lemma is_active_eligible (businesses : gmap Z business) (now : Z) (o : offer) :
  is_active now o = true -> eligible now (to_frontend businesses o).
Proof.
  unfold is_active, eligible. simpl. intros H.
  apply andb_prop in H as [Hs He]. split.
  - destruct (status o) as [s|]; [|discriminate].
    apply String.eqb_eq in Hs. congruence.
  - destruct (expires_at o) as [e|]; [right | left; reflexivity].
    exists e. split; [reflexivity | lia].
Qed.

(** C4. Whatever the category, keywords and city, the search returns at
    most ten offers, and each of them has status [approved] and an
    [expires_at] that is null or not before the time of the query. *)
Theorem C4_search_returns_at_most_ten_eligible_offers
    (offers : list offer) (businesses : gmap Z business) (now : Z)
    (cat kw cty : option string) (active_only : bool) :
  let found := search_offers_function offers businesses now cat kw cty
                                      active_only in
  (List.length found <= 10)%nat /\ List.Forall (eligible now) found.
Proof.
  unfold search_offers_function.
  destruct (where_clause now cat kw cty) as [p|] eqn:Hp; simpl.
  - split.
    + rewrite length_map, length_firstn. lia.
    + apply Forall_forall. intros fo Hfo.
      apply in_map_iff in Hfo as (o & <- & Ho).
      apply In_firstn, In_order_by, filter_In in Ho as [_ Ho].
      apply is_active_eligible.
      exact (where_clause_is_active _ _ _ _ _ _ Hp Ho).
  - split; [lia | constructor].
Qed.

End SearchFacts.

(** * Properties of the batch ingest path ([Analytics.batch_track_events]) *)

Module BatchFacts.
Import Analytics Scenarios.

(** *** Dictionaries *)

Lemma dict_get_set {V} (d : dict V) (k k' : Z) (v : V) :
  dict_get (dict_set d k v) k' = if k =? k' then Some v else dict_get d k'.
Proof.
  induction d as [|[k0 v0] d IH]; simpl.
  - reflexivity.
  - destruct (Z.eqb_spec k0 k) as [->|Hk]; simpl.
    + destruct (k =? k'); reflexivity.
    + rewrite IH. destruct (Z.eqb_spec k0 k') as [->|Hk']; [|reflexivity].
      destruct (Z.eqb_spec k k'); [congruence | reflexivity].
Qed.

Lemma dict_set_keys {V} (d : dict V) (k k' : Z) (v : V) :
  In k' (List.map fst (dict_set d k v)) -> k' = k \/ In k' (List.map fst d).
Proof.
  induction d as [|[k0 v0] d IH]; simpl.
  - intros [<- | []]. left. reflexivity.
  - destruct (Z.eqb_spec k0 k) as [->|Hk]; simpl.
    + tauto.
    + intros [<- | H]; [tauto|]. destruct (IH H); tauto.
Qed.

Lemma dict_set_NoDup {V} (d : dict V) (k : Z) (v : V) :
  List.NoDup (List.map fst d) -> List.NoDup (List.map fst (dict_set d k v)).
Proof.
  induction d as [|[k0 v0] d IH]; simpl; intros Hd.
  - constructor; [intros [] | constructor].
  - inversion Hd as [|x l Hnin Hd']; subst.
    destruct (Z.eqb_spec k0 k) as [->|Hk]; simpl.
    + constructor; assumption.
    + constructor; [|auto].
      intros H. apply dict_set_keys in H as [-> | H]; [congruence | tauto].
Qed.

Lemma dict_get_absent {V} (d : dict V) (k : Z) :
  ~ In k (List.map fst d) -> dict_get d k = None.
Proof.
  induction d as [|[k0 v0] d IH]; simpl; [reflexivity|].
  intros H. destruct (Z.eqb_spec k0 k) as [->|Hk]; [tauto|].
  apply IH. tauto.
Qed.

(** *** Counts *)

Lemma stats_eq (a b : stats) :
  view a = view b -> click a = click b -> conversion a = conversion b -> a = b.
Proof. destruct a, b; simpl; congruence. Qed.

Ltac stats_arith :=
  apply stats_eq; repeat (simpl; try match goal with
                                     | |- context [match ?k with _ => _ end] =>
                                         destruct k
                                     end); lia.

Lemma add_stats_assoc (a b c : stats) :
  add_stats a (add_stats b c) = add_stats (add_stats a b) c.
Proof. stats_arith. Qed.

Lemma add_stats_no_l (a : stats) : add_stats no_stats a = a.
Proof. stats_arith. Qed.

Lemma add_stats_no_r (a : stats) : add_stats a no_stats = a.
Proof. stats_arith. Qed.

Lemma count_one_add (k : kind) (s : stats) :
  count_one k s = add_stats s (count_one k no_stats).
Proof. destruct k; stats_arith. Qed.

Lemma any_positive_add (a b : stats) :
  any_positive (add_stats a b) = any_positive a || any_positive b.
Proof.
  unfold any_positive. simpl.
  destruct (view a), (click a), (conversion a), (view b), (click b),
    (conversion b); simpl; reflexivity.
Qed.

(** *** From events to per-business counts *)

Section Contributions.
Variable offers : list Offers.offer.

Lemma batch_total_app (b : Z) (e1 e2 : list event) :
  batch_total offers b (e1 ++ e2) = add_stats (batch_total offers b e1) (batch_total offers b e2).
Proof.
  unfold batch_total. induction e1 as [|e e1 IH]; simpl.
  - symmetry. apply add_stats_no_l.
  - rewrite IH. apply add_stats_assoc.
Qed.

Lemma mapping_restrict (ids : list Z) (o : Z) :
  In o ids ->
  dict_get (business_mapping offers ids) o = dict_get (whole_mapping offers) o.
Proof.
  intros Hin. unfold business_mapping, whole_mapping.
  set (step := fun m x => dict_set m (Offers.id x) (Offers.business_id x)).
  set (keep := fun x => existsb (Z.eqb (Offers.id x)) ids).
  assert (H : forall l m m',
             dict_get m o = dict_get m' o ->
             dict_get (fold_left step (List.filter keep l) m) o
             = dict_get (fold_left step l m') o).
  { induction l as [|x l IH]; intros m m' Hm; simpl; [assumption|].
    destruct (keep x) eqn:Hk; simpl.
    - apply IH. unfold step. rewrite !dict_get_set, Hm. reflexivity.
    - apply IH. unfold step. rewrite dict_get_set.
      destruct (Z.eqb_spec (Offers.id x) o) as [Heq|]; [|assumption].
      exfalso. unfold keep in Hk.
      assert (Ht : existsb (Z.eqb (Offers.id x)) ids = true).
      { apply existsb_exists. exists o. split; [assumption | lia]. }
      congruence. }
  apply H. reflexivity.
Qed.

Lemma share_set (b o : Z) (k : kind) (d : dict stats) :
  share offers b (dict_set d o (count_one k (default no_stats (dict_get d o))))
  = add_stats (share offers b d)
              (if counts_for offers b o then count_one k no_stats else no_stats).
Proof.
  induction d as [|[o' s'] d IH]; simpl.
  - destruct (counts_for offers b o); stats_arith.
  - destruct (Z.eqb_spec o' o) as [->|Ho]; simpl.
    + destruct (counts_for offers b o); [|stats_arith].
      rewrite (count_one_add k s'). stats_arith.
    + rewrite IH. destruct (counts_for offers b o'); [|reflexivity].
      apply add_stats_assoc.
Qed.

Lemma share_tally_event (b : Z) (d : dict stats) (e : event) :
  share offers b (tally_event d e) = add_stats (share offers b d) (contribution offers b e).
Proof.
  unfold tally_event, contribution.
  destruct (offer_id e) as [o|]; [|symmetry; apply add_stats_no_r].
  destruct (kind_of (event_type e)) as [k|]; [|symmetry; apply add_stats_no_r].
  destruct (py_truthy (Some o)); simpl; [|symmetry; apply add_stats_no_r].
  apply share_set.
Qed.

Lemma share_tally (b : Z) (events : list event) (d : dict stats) :
  share offers b (fold_left tally_event events d)
  = add_stats (share offers b d) (batch_total offers b events).
Proof.
  revert d. induction events as [|e events IH]; intros d; simpl.
  - symmetry. apply add_stats_no_r.
  - rewrite IH, share_tally_event. symmetry. apply add_stats_assoc.
Qed.

Lemma group_offer_get (mapping : dict (option Z)) (b o : Z) (s : stats)
    (acc : dict stats) :
  dict_get mapping o = dict_get (whole_mapping offers) o ->
  default no_stats (dict_get (group_offer mapping acc (o, s)) b)
  = add_stats (default no_stats (dict_get acc b))
              (if counts_for offers b o then s else no_stats).
Proof.
  intros Hm. unfold counts_for, business_of, group_offer. rewrite <- Hm.
  destruct (dict_get mapping o) as [[b'|]|];
    try (symmetry; apply add_stats_no_r).
  destruct (py_truthy (Some b')); [|symmetry; apply add_stats_no_r].
  rewrite dict_get_set.
  destruct (Z.eqb_spec b' b) as [->|Hb]; simpl.
  - reflexivity.
  - symmetry. apply add_stats_no_r.
Qed.

(** Grouping by business: the entry of [b] holds the share of [b]. *)
Lemma group_share (mapping : dict (option Z)) (b : Z) (l acc : dict stats) :
  (forall o, In o (List.map fst l) ->
             dict_get mapping o = dict_get (whole_mapping offers) o) ->
  default no_stats (dict_get (fold_left (group_offer mapping) l acc) b)
  = add_stats (default no_stats (dict_get acc b)) (share offers b l).
Proof.
  revert acc. induction l as [|[o s] l IH]; intros acc Hm.
  - simpl. symmetry. apply add_stats_no_r.
  - cbn [fold_left]. rewrite IH by (intros o' Ho'; apply Hm; simpl; tauto).
    rewrite group_offer_get by (apply Hm; simpl; tauto).
    cbn [share List.fold_right fst snd]. fold (share offers b l).
    destruct (counts_for offers b o).
    + symmetry. apply add_stats_assoc.
    + rewrite add_stats_no_r. reflexivity.
Qed.

Lemma group_NoDup (mapping : dict (option Z)) (l acc : dict stats) :
  List.NoDup (List.map fst acc) ->
  List.NoDup (List.map fst (fold_left (group_offer mapping) l acc)).
Proof.
  revert acc. induction l as [|[o s] l IH]; intros acc Hacc.
  - exact Hacc.
  - cbn [fold_left]. apply IH. unfold group_offer.
    destruct (dict_get mapping o) as [[b'|]|]; try exact Hacc.
    destruct (py_truthy (Some b')); [|exact Hacc].
    apply dict_set_NoDup. exact Hacc.
Qed.

End Contributions.

(** *** From per-business counts to the aggregate rows *)

Lemma existsb_false_filter {A} (p : A -> bool) (l : list A) :
  existsb p l = false -> List.filter p l = [].
Proof.
  induction l as [|x l IH]; simpl; [reflexivity|].
  destruct (p x); simpl; [discriminate | exact IH].
Qed.

Lemma existsb_true_filter {A} (p : A -> bool) (l : list A) :
  existsb p l = true -> List.filter p l <> [].
Proof.
  induction l as [|x l IH]; simpl; [discriminate|].
  destruct (p x); simpl; [discriminate | exact IH].
Qed.

Lemma totals_update_same (b d : Z) (s : stats) (t : list row) :
  totals_of b d (sql_update (is_for b d) (add_to_row s) t)
  = List.map (add_totals s) (totals_of b d t).
Proof.
  unfold totals_of, sql_update. induction t as [|r t IH]; simpl; [reflexivity|].
  destruct (is_for b d r) eqn:Hr; simpl.
  - change (is_for b d (add_to_row s r)) with (is_for b d r).
    rewrite Hr. simpl. rewrite IH. reflexivity.
  - rewrite Hr. exact IH.
Qed.

Lemma totals_update_other (b d b' d' : Z) (s : stats) (t : list row) :
  (b' =? b) && (d' =? d) = false ->
  totals_of b d (sql_update (is_for b' d') (add_to_row s) t) = totals_of b d t.
Proof.
  intros Hne. unfold totals_of, sql_update.
  induction t as [|r t IH]; simpl; [reflexivity|].
  destruct (is_for b' d' r) eqn:Hr; simpl.
  - change (is_for b d (add_to_row s r)) with (is_for b d r).
    assert (Hn : is_for b d r = false).
    { unfold is_for in *. apply andb_prop in Hr as [H1 H2].
      apply andb_false_iff in Hne.
      apply andb_false_iff. destruct Hne; [left | right]; lia. }
    rewrite Hn. exact IH.
  - destruct (is_for b d r); simpl; rewrite IH; reflexivity.
Qed.

Lemma bump_totals_none (s : stats) (rows : list (Z * Z * Z)) :
  any_positive s = false -> bump_totals s rows = rows.
Proof. unfold bump_totals. intros ->. reflexivity. Qed.

Lemma apply_business_totals (event_date : Z) (t : list row) (b' : Z)
    (s : stats) (b d : Z) :
  totals_of b d (apply_business event_date t (b', s))
  = if (b' =? b) && (event_date =? d)
    then bump_totals s (totals_of b d t)
    else totals_of b d t.
Proof.
  unfold apply_business. destruct (any_positive s) eqn:Hs.
  2:{ rewrite bump_totals_none by assumption.
      destruct ((b' =? b) && (event_date =? d)); reflexivity. }
  destruct ((b' =? b) && (event_date =? d)) eqn:Hk.
  - apply andb_prop in Hk as [Hb Hd].
    apply Z.eqb_eq in Hb, Hd. subst b' event_date.
    unfold bump_totals. rewrite Hs.
    destruct (existsb (is_for b d) t) eqn:Hex.
    + rewrite totals_update_same.
      apply existsb_true_filter in Hex. unfold totals_of.
      destruct (List.filter (is_for b d) t); [congruence | reflexivity].
    + unfold totals_of, sql_insert. rewrite filter_app.
      rewrite (existsb_false_filter _ _ Hex). simpl.
      unfold is_for. simpl. rewrite !Z.eqb_refl. reflexivity.
  - destruct (existsb (is_for b' event_date) t).
    + apply totals_update_other. exact Hk.
    + unfold totals_of, sql_insert. rewrite filter_app, map_app. simpl.
      unfold is_for at 2. simpl. rewrite Hk. simpl. apply app_nil_r.
Qed.

Lemma apply_all_totals (event_date : Z) (bs : dict stats) (t : list row)
    (b d : Z) :
  List.NoDup (List.map fst bs) ->
  totals_of b d (fold_left (apply_business event_date) bs t)
  = if event_date =? d
    then bump_totals (default no_stats (dict_get bs b)) (totals_of b d t)
    else totals_of b d t.
Proof.
  revert t. induction bs as [|[b' s] bs IH]; intros t Hnd.
  - simpl. destruct (event_date =? d); reflexivity.
  - inversion Hnd as [|x l Hnin Hnd']; subst.
    cbn [fold_left]. rewrite (IH _ Hnd'), apply_business_totals.
    cbn [dict_get].
    destruct (event_date =? d); [|rewrite andb_false_r; reflexivity].
    rewrite andb_true_r.
    destruct (Z.eqb_spec b' b) as [->|Hb]; [|reflexivity].
    rewrite (dict_get_absent _ _ Hnin). simpl.
    apply bump_totals_none. reflexivity.
Qed.

Lemma bump_totals_add (a b : stats) (rows : list (Z * Z * Z)) :
  bump_totals (add_stats a b) rows = bump_totals b (bump_totals a rows).
Proof.
  unfold bump_totals. rewrite any_positive_add.
  assert (Hadd : forall x, add_totals (add_stats a b) x
                           = add_totals b (add_totals a x)).
  { intros [[v c] n]. simpl. f_equal; [f_equal|]; lia. }
  destruct (any_positive a) eqn:Ha, (any_positive b) eqn:Hb; simpl;
    try reflexivity.
  - destruct rows as [|x rows]; simpl.
    + unfold stats_totals. simpl. f_equal. f_equal; [f_equal|]; lia.
    + rewrite Hadd. f_equal. rewrite map_map. apply map_ext. exact Hadd.
  - replace (add_stats a b) with a; [reflexivity|].
    unfold any_positive in Hb. destruct b as [[|?] [|?] [|?]]; try discriminate.
    symmetry. apply add_stats_no_r.
  - replace (add_stats a b) with b; [reflexivity|].
    unfold any_positive in Ha. destruct a as [[|?] [|?] [|?]]; try discriminate.
    symmetry. apply add_stats_no_l.
Qed.

(** The totals of a business after one call of [batch_track_events]. *)
Lemma batch_totals (fits : event -> bool) (users : User.table)
    (offers : list Offers.offer) (event_date : Z)
    (events : list event) (st : state) (b d : Z) :
  totals_of b d (business_analytics
                   (batch_track_events fits users offers event_date events st))
  = if (event_date =? d) && forallb (accepted fits users offers) events
    then bump_totals (batch_total offers b events)
                     (totals_of b d (business_analytics st))
    else totals_of b d (business_analytics st).
Proof.
  assert (Hupd : forall bu t,
             _batch_update_business_analytics offers bu event_date t
             = fold_left (apply_business event_date)
                 (fold_left (group_offer
                               (business_mapping offers (List.map fst bu)))
                            bu [])
                 t).
  { intros [|x bu] t; reflexivity. }
  destruct events as [|e events].
  - simpl. rewrite bump_totals_none by reflexivity.
    destruct (event_date =? d); reflexivity.
  - unfold batch_track_events.
    destruct (forallb (accepted fits users offers) (e :: events)) eqn:Hacc;
      [|rewrite andb_false_r; reflexivity].
    rewrite andb_true_r. cbn [business_analytics].
    rewrite Hupd, apply_all_totals by (apply group_NoDup; constructor).
    destruct (event_date =? d); [|reflexivity].
    f_equal. rewrite (group_share offers).
    + unfold tally. rewrite share_tally. simpl.
      rewrite !add_stats_no_l. reflexivity.
    + intros o Ho. apply mapping_restrict. exact Ho.
Qed.

(** The events stored by one call of [batch_track_events]. *)
Lemma batch_store (fits : event -> bool) (users : User.table)
    (offers : list Offers.offer) (event_date : Z)
    (events : list event) (st : state) :
  analytics_events (batch_track_events fits users offers event_date events st)
  = if forallb (accepted fits users offers) events
    then analytics_events st ++ events
    else analytics_events st.
Proof.
  destruct events as [|e events].
  - simpl. symmetry. apply app_nil_r.
  - unfold batch_track_events.
    destruct (forallb (accepted fits users offers) (e :: events)); reflexivity.
Qed.

(** *** A run of the batch path *)

(** Offers 1 and 2 belong to business 10, offer 3 to business 20, offer 4 to
    none.  Five of the eight events are counted. *)
Example batch_run :
  let offers := [an_offer 1 (Some 10); an_offer 2 (Some 10);
                 an_offer 3 (Some 20); an_offer 4 None] in
  let events := [an_event "view" (Some 1); an_event "click" (Some 2);
                 an_event "view" (Some 3); an_event "share" (Some 1);
                 an_event "view" None; an_event "conversion" (Some 4);
                 an_event "view" (Some 2); an_event "conversion" (Some 3)] in
  let st := batch_track_events Cases.small_values ∅ offers 5 events
              {| analytics_events := []; business_analytics := [] |} in
  List.map (fun r => (business_id r, totals r)) (business_analytics st)
    = [(10, (2, 1, 0)); (20, (1, 0, 1))] /\
  List.length (analytics_events st) = 8%nat.
Proof. split; reflexivity. Qed.

(** C5. When every event of the batch is accepted by [analytics_events]
    (an event type, values that fit their columns, a user and an offer that
    exist when given), ingesting the batch in two consecutive calls leaves
    every business with the same totals ([total_views], [total_clicks],
    [total_conversions]) on every day as ingesting the whole batch in one
    call from the same initial state; the stored events are the same too. *)
Theorem C5_split_batch_gives_same_totals (fits : event -> bool)
    (users : User.table) (offers : list Offers.offer)
    (event_date : Z) (e1 e2 : list event) (st : state) :
  forallb (accepted fits users offers) (e1 ++ e2) = true ->
  let whole := batch_track_events fits users offers event_date (e1 ++ e2) st in
  let split := batch_track_events fits users offers event_date e2
                 (batch_track_events fits users offers event_date e1 st) in
  (forall b d, totals_of b d (business_analytics whole)
               = totals_of b d (business_analytics split)) /\
  analytics_events whole = analytics_events split.
Proof.
  intros Hall.
  pose proof Hall as Hboth. rewrite forallb_app in Hboth.
  apply andb_prop in Hboth as [H1 H2].
  split.
  - intros b d. rewrite !batch_totals, Hall, H1, H2, !andb_true_r.
    destruct (event_date =? d); [|reflexivity].
    rewrite batch_total_app. apply bump_totals_add.
  - rewrite !batch_store, Hall, H1, H2. apply app_assoc.
Qed.

Lemma C5_split_batch_gives_same_totals_witness :
  let offers := [an_offer 1 (Some 10); an_offer 2 (Some 10)] in
  let e1 := [an_event "view" (Some 1)] in
  let e2 := [an_event "click" (Some 2); an_event "view" (Some 1)] in
  let st := {| analytics_events := []; business_analytics := [] |} in
  forallb (accepted Cases.small_values ∅ offers) (e1 ++ e2) = true /\
  let whole := batch_track_events Cases.small_values ∅ offers 5 (e1 ++ e2) st in
  let split := batch_track_events Cases.small_values ∅ offers 5 e2
                 (batch_track_events Cases.small_values ∅ offers 5 e1 st) in
  (forall b d, totals_of b d (business_analytics whole)
               = totals_of b d (business_analytics split)) /\
  analytics_events whole = analytics_events split.
Proof.
  split; [reflexivity|].
  apply (C5_split_batch_gives_same_totals Cases.small_values ∅
           [an_offer 1 (Some 10); an_offer 2 (Some 10)] 5
           [an_event "view" (Some 1)]
           [an_event "click" (Some 2); an_event "view" (Some 1)]
           {| analytics_events := []; business_analytics := [] |}).
  reflexivity.
Defined.

(** C5, as stated for every batch, fails: offer 1 of business 10 exists and
    offer 99 does not.  A batch of a view of offer 1 and a view of offer 99
    is refused as a whole by the reference of [offer_id] to [offers], so one
    call stores and counts nothing; split after the first event, the first
    call stores and counts the view of offer 1. *)
Theorem C5_refused_row_loses_the_whole_batch :
  let offers := [an_offer 1 (Some 10)] in
  let e1 := [an_event "view" (Some 1)] in
  let e2 := [an_event "view" (Some 99)] in
  let st := {| analytics_events := []; business_analytics := [] |} in
  let whole := batch_track_events Cases.small_values ∅ offers 5 (e1 ++ e2) st in
  let split := batch_track_events Cases.small_values ∅ offers 5 e2
                 (batch_track_events Cases.small_values ∅ offers 5 e1 st) in
  totals_of 10 5 (business_analytics whole) = [] /\
  totals_of 10 5 (business_analytics split) = [(1, 0, 0)] /\
  analytics_events whole = [] /\
  analytics_events split = e1.
Proof. repeat split; reflexivity. Qed.

End BatchFacts.

(** * Properties of the chat orchestrator and of POST /ai-chat *)

Module ChatFacts.
Import AIChat Scenarios.

(** Whatever happens, the failure dictionary has no offers and one of the
    two fixed messages; a provider error gives the message chosen by the
    language. *)
Lemma failure_shape (self : chat) (p : provider) (offer_rows : list Offers.offer)
    (businesses : gmap Z Offers.business) (now : Z) (user_message : string)
    (user_city language : option string) :
  let r := snd (process_chat_message self p offer_rows businesses now
                  user_message user_city language) in
  success r = false ->
  offers r = [] /\
  message r = Some (match openai_client self with
                    | None => service_unavailable
                    | Some _ => error_msg language
                    end).
Proof.
  unfold process_chat_message. destruct (openai_client self); simpl.
  - destruct (exchange _ _ _ _ _ _ _) as [log [[m found]|]]; simpl.
    + discriminate.
    + auto.
  - auto.
Qed.

Lemma provider_error_is_localized (creds : credentials) (p : provider)
    (offer_rows : list Offers.offer) (businesses : gmap Z Offers.business)
    (now : Z) (user_message : string) (user_city language : option string) :
  (forall msgs, first_turn p msgs = Raised) ->
  process_chat_message (new_chat (Some creds)) p offer_rows businesses now
    user_message user_city language
  = ([ModelCall],
     {| success := false; message := Some (error_msg language); offers := [] |}).
Proof.
  intros Hp. unfold process_chat_message, exchange. simpl.
  rewrite Hp. reflexivity.
Qed.

(** C9. Evaluation at the failing input: with no usable credentials and the
    Finnish language requested, [process_chat_message] returns (it never
    raises) the failure dictionary with an empty offer list, but its message
    is the fixed English sentence, not the Finnish fallback that the
    provider-error branch returns for the same request. *)
Theorem C9_unavailable_service_message_is_not_localized (p : provider)
    (offer_rows : list Offers.offer) (businesses : gmap Z Offers.business)
    (now : Z) (user_message : string) (user_city : option string) :
  process_chat_message (new_chat None) p offer_rows businesses now
    user_message user_city (Some "fi")
  = ([], {| success := false;
            message := Some "AI service not available. Please try again later.";
            offers := [] |}) /\
  process_chat_message (new_chat (Some a_key)) unreachable offer_rows
    businesses now user_message user_city (Some "fi")
  = ([ModelCall],
     {| success := false;
        message := Some "Anteeksi, minulla on teknisiä ongelmia. Yritä myöhemmin uudelleen.";
        offers := [] |}).
Proof. split; reflexivity. Qed.

End ChatFacts.

Module RouteFacts.
Import AIChat AIChatRoute Scenarios.

(** A chat exchange is one model call, or a model call, one search and a
    second model call; an exchange that raised stopped somewhere on the way. *)
Lemma exchange_log (p : provider) (offer_rows : list Offers.offer)
    (businesses : gmap Z Offers.business) (now : Z) (user_message : string)
    (user_city lang : option string) :
  let (log, r) := exchange p offer_rows businesses now user_message user_city
                           lang in
  increments log = 0%nat /\
  match r with
  | Returned _ => log = [ModelCall] \/ log = [ModelCall; ToolSearch; ModelCall]
  | Raised => True
  end.
Proof.
  unfold exchange.
  destruct (first_turn p _) as [m|]; simpl; [|auto].
  destruct (tool_calls m) as [|tc0 calls]; simpl; [auto|].
  destruct (if String.eqb (tc_name tc0) "search_offers" then Some tc0
            else List.find _ calls) as [tc|]; simpl; [|auto].
  destruct (tc_arguments tc) as [args|]; simpl; [|auto].
  destruct (second_turn p _) as [txt|]; simpl; auto.
Qed.

Lemma process_log (self : chat) (p : provider) (offer_rows : list Offers.offer)
    (businesses : gmap Z Offers.business) (now : Z) (user_message : string)
    (user_city lang : option string) :
  let (log, r) := process_chat_message self p offer_rows businesses now
                    user_message user_city lang in
  increments log = 0%nat /\
  (AIChat.success r = true ->
   log = [ModelCall] \/ log = [ModelCall; ToolSearch; ModelCall]).
Proof.
  unfold process_chat_message. destruct (openai_client self).
  - pose proof (exchange_log p offer_rows businesses now user_message
                  user_city lang) as H.
    destruct (exchange _ _ _ _ _ _ _) as [log [[m found]|]]; simpl.
    + destruct H as [H0 H1]. auto.
    + destruct H as [H0 _]. split; [exact H0 | discriminate].
  - simpl. split; [reflexivity | discriminate].
Qed.

(** A user who passed the limit check has today's count raised by one, and
    the returned count is the new one. *)
Lemma increment_after_check (users : User.table) (today uid limit : Z) :
  User.check_ai_chat_limit users today uid limit = true ->
  let (n, users') := User.increment_ai_chat_usage users today uid in
  User.usage_today users' today uid = User.usage_today users today uid + 1 /\
  n = User.usage_today users' today uid /\
  (forall u, u <> uid -> users' !! u = users !! u).
Proof.
  unfold User.check_ai_chat_limit, User.increment_ai_chat_usage,
    User.usage_today.
  destruct (users !! uid) as [r|] eqn:Hr; [|discriminate].
  intros _. rewrite lookup_insert_eq. simpl. rewrite Z.eqb_refl.
  repeat split.
  - destruct (User.ai_chat_date r) as [d|]; [destruct (d =? today)|]; lia.
  - intros u Hu. apply lookup_insert_ne. congruence.
Qed.

(** *** Three requests *)

(** With a limit of 3 and 2 messages used today, a plain answer and an
    answer after one search both bring the count to 3; the next request is
    refused with 429 before any model call. *)
Example request_runs :
  let '(r1, users1, log1) := ai_chat a_store chatty 5 0 7 (Some a_body) in
  let '(r2, users2, log2) := ai_chat a_store searching 5 0 7 (Some a_body) in
  let '(r3, users3, log3) :=
    ai_chat {| users := users2; ai_model_credentials := Some a_key;
               offer_rows := four_offers; businesses := ∅ |}
            searching 5 0 7 (Some a_body) in
  (status r1, currentUsage r1, log1)
    = (200, Some 3, [QuotaCheck; ModelCall; QuotaIncrement]) /\
  (status r2, currentUsage r2, List.length (reply_offers r2), log2)
    = (200, Some 3, 4%nat,
       [QuotaCheck; ModelCall; ToolSearch; ModelCall; QuotaIncrement]) /\
  (status r3, log3) = (429, [QuotaCheck]).
Proof. vm_compute. repeat split. Qed.

(** C8. A request that is answered with status 200 passed the limit check
    first, then ran one chat exchange (one model call, or a model call, one
    search and a second model call), and incremented the caller's usage
    exactly once, as the last step: today's count is one higher and is the
    count reported.  A request answered otherwise (validation failure,
    limit exceeded, unsuccessful exchange) increments nothing and leaves the
    users table as it was. *)
Theorem C8_usage_incremented_once_per_successful_request (db : stores)
    (p : provider) (today now user_id : Z) (data : option body) :
  let '(r, users', log) := ai_chat db p today now user_id data in
  let limit := get_chat_limit (new_chat (ai_model_credentials db)) in
  if status r =? 200 then
    User.check_ai_chat_limit (users db) today user_id limit = true /\
    (log = [QuotaCheck; ModelCall; QuotaIncrement] \/
     log = [QuotaCheck; ModelCall; ToolSearch; ModelCall; QuotaIncrement]) /\
    increments log = 1%nat /\
    User.usage_today users' today user_id
      = User.usage_today (users db) today user_id + 1 /\
    currentUsage r = Some (User.usage_today users' today user_id)
  else
    increments log = 0%nat /\ users' = users db.
Proof.
  unfold ai_chat.
  destruct data as [d|]; [|simpl; auto].
  destruct (negb (py_truthy_str (get (message d)))); [simpl; auto|].
  destruct (String.eqb (strip _) ""); [simpl; auto|].
  destruct (150 <? String.length _)%nat; [simpl; auto|].
  destruct (User.check_ai_chat_limit _ _ _ _) eqn:Hcheck; [|simpl; auto].
  cbn [negb].
  pose proof (process_log (new_chat (ai_model_credentials db)) p
                (offer_rows db) (businesses db) now
                (strip (default "" (get (message d))))
                (get_or (userCity d) "Helsinki")
                (get_or (language d) "fi")) as Hlog.
  destruct (process_chat_message _ _ _ _ _ _ _ _) as [log response].
  destruct Hlog as [Hnone Hshape].
  destruct (AIChat.success response) eqn:Hs; cbn [negb].
  - pose proof (increment_after_check _ _ _ _ Hcheck) as Hinc.
    destruct (User.increment_ai_chat_usage _ _ _) as [n users'].
    destruct Hinc as (Hup & Hn & _). simpl.
    split; [reflexivity|].
    destruct (Hshape eq_refl) as [-> | ->]; simpl; repeat split; auto;
      congruence.
  - simpl. split; [exact Hnone | reflexivity].
Qed.

End RouteFacts.

(** * Further properties of the per-offer aggregate *)

Module TrackingFacts.
Import OfferAnalytics OfferAnalyticsLife.

Lemma evolves_same (o d : Z) (r : row) : evolves o d r r.
Proof. unfold evolves. repeat split; auto; lia. Qed.

Lemma evolves_bump (o d : Z) (f : field) (uid : option Z) (c : option string)
    (r : row) :
  is_for o d r = true -> evolves o d r (bump f uid c r).
Proof.
  intros Hr. unfold evolves.
  repeat split; simpl; try (destruct f; lia); try lia.
  - intros u Hu. rewrite Hu. reflexivity.
  - intros c' Hc. rewrite Hc. reflexivity.
  - congruence.
Qed.

Lemma evolves_bump_conversion (o d : Z) (f : conversion_field)
    (uid : option Z) (c : option string) (r : row) :
  is_for o d r = true -> evolves o d r (bump_conversion f uid c r).
Proof.
  intros Hr. unfold evolves.
  repeat split; simpl; try (destruct f; lia); try lia.
  - intros u Hu. rewrite Hu. reflexivity.
  - intros c' Hc. rewrite Hc. reflexivity.
  - congruence.
Qed.

Lemma sql_update_evolves (o d : Z) (g : row -> row) (t : table) :
  (forall r, is_for o d r = true -> evolves o d r (g r)) ->
  Forall2 (evolves o d) t (sql_update (is_for o d) g t).
Proof.
  intros Hg. unfold sql_update. induction t as [|r t IH]; simpl.
  - constructor.
  - constructor; [|exact IH].
    destruct (is_for o d r) eqn:Hr; [auto | apply evolves_same].
Qed.

Lemma Forall2_evolves_same (o d : Z) (t : table) : Forall2 (evolves o d) t t.
Proof. induction t; constructor; auto using evolves_same. Qed.

Lemma grows_ensure_row (o d : Z) (uid : option Z) (c : option string)
    (t : table) :
  grows o d t (ensure_row o d uid c t).
Proof.
  unfold ensure_row, sql_insert.
  destruct (existsb (is_for o d) t).
  - exists t, []. rewrite app_nil_r.
    split; [reflexivity|]. split; [apply Forall2_evolves_same | simpl; lia].
  - exists t, [new_row o d uid c].
    split; [reflexivity|]. split; [apply Forall2_evolves_same | simpl; lia].
Qed.

Lemma grows_ensure_update (o d : Z) (uid : option Z) (c : option string)
    (g : row -> row) (t : table) :
  (forall r, is_for o d r = true -> evolves o d r (g r)) ->
  grows o d t (sql_update (is_for o d) g (ensure_row o d uid c t)).
Proof.
  intros Hg. unfold ensure_row, sql_insert.
  destruct (existsb (is_for o d) t).
  - exists (sql_update (is_for o d) g t), []. rewrite app_nil_r.
    split; [reflexivity|]. split; [apply sql_update_evolves, Hg | simpl; lia].
  - exists (sql_update (is_for o d) g t),
           (sql_update (is_for o d) g [new_row o d uid c]).
    split; [unfold sql_update; apply map_app|].
    split; [apply sql_update_evolves, Hg | simpl; lia].
Qed.

Lemma grows_same (o d : Z) (t : table) : grows o d t t.
Proof.
  exists t, []. rewrite app_nil_r.
  split; [reflexivity|]. split; [apply Forall2_evolves_same | simpl; lia].
Qed.

(** X1. Whatever the arguments, [track_offer_interaction] and
    [track_conversion] keep every row of the table in place with its key,
    never lower a counter, never replace an owner or a city that is set,
    leave the rows of other offers and days exactly as they were, and add
    at most one row. *)
Theorem X1_tracking_only_grows_the_table (users : User.table)
    (today o : Z) (uid : option Z) (kind : string) (t : table) :
  grows o today t (snd (track_offer_interaction users today o uid kind t)) /\
  grows o today t (snd (track_conversion users today o kind uid t)).
Proof.
  split.
  - unfold track_offer_interaction.
    destruct (is_duplicate_interaction t o uid today); simpl;
      [apply grows_same|].
    destruct (field_mapping kind) as [f|]; simpl.
    + apply grows_ensure_update. intros r Hr. apply evolves_bump, Hr.
    + apply grows_ensure_row.
  - unfold track_conversion.
    destruct (is_duplicate_conversion t o uid kind today); simpl;
      [apply grows_same|].
    destruct (conversion_field_mapping kind) as [f|]; simpl.
    + apply grows_ensure_update. intros r Hr.
      apply evolves_bump_conversion, Hr.
    + apply grows_ensure_row.
Qed.

Lemma key_sql_update (o d : Z) (g : row -> row) (t : table) :
  (forall r, key (g r) = key r) ->
  List.map key (sql_update (is_for o d) g t) = List.map key t.
Proof.
  intros Hg. unfold sql_update. rewrite map_map. apply map_ext.
  intros r. destruct (is_for o d r); auto.
Qed.

Lemma no_row_no_key (o d : Z) (t : table) :
  existsb (is_for o d) t = false -> ~ In (o, d) (List.map key t).
Proof.
  intros Hex Hin. apply in_map_iff in Hin as (r & Hk & Hr).
  assert (Ht : existsb (is_for o d) t = true).
  { apply existsb_exists. exists r. split; [assumption|].
    unfold key in Hk. injection Hk as Ho Hd. unfold is_for.
    rewrite Ho, Hd, !Z.eqb_refl. reflexivity. }
  congruence.
Qed.

Lemma NoDup_snoc {A} (x : A) (l : list A) :
  ~ In x l -> List.NoDup l -> List.NoDup (l ++ [x]).
Proof.
  induction l as [|y l IH]; simpl; intros Hx Hl.
  - constructor; [intros [] | constructor].
  - inversion Hl as [|z l' Hy Hl']; subst. constructor.
    + rewrite in_app_iff. simpl. intros [H | [H | []]]; [tauto|].
      apply Hx. left. symmetry. exact H.
    + apply IH; [tauto | exact Hl'].
Qed.

Lemma one_row_per_key_ensure (o d : Z) (uid : option Z) (c : option string)
    (t : table) :
  one_row_per_key t -> one_row_per_key (ensure_row o d uid c t).
Proof.
  unfold one_row_per_key, ensure_row, sql_insert. intros Ht.
  destruct (existsb (is_for o d) t) eqn:Hex; [assumption|].
  rewrite map_app. simpl. apply NoDup_snoc; [|assumption].
  exact (no_row_no_key o d t Hex).
Qed.

(** X2. If the table has at most one row per offer and day, it still has
    after any call of [track_offer_interaction] or [track_conversion]. *)
Theorem X2_tracking_keeps_one_row_per_offer_and_day (users : User.table)
    (today o : Z) (uid : option Z) (kind : string) (t : table) :
  one_row_per_key t ->
  one_row_per_key (snd (track_offer_interaction users today o uid kind t)) /\
  one_row_per_key (snd (track_conversion users today o kind uid t)).
Proof.
  intros Ht. split.
  - unfold track_offer_interaction.
    destruct (is_duplicate_interaction t o uid today); simpl; [assumption|].
    destruct (field_mapping kind) as [f|]; simpl.
    + unfold one_row_per_key. rewrite key_sql_update by reflexivity.
      apply one_row_per_key_ensure, Ht.
    + apply one_row_per_key_ensure, Ht.
  - unfold track_conversion.
    destruct (is_duplicate_conversion t o uid kind today); simpl; [assumption|].
    destruct (conversion_field_mapping kind) as [f|]; simpl.
    + unfold one_row_per_key. rewrite key_sql_update by reflexivity.
      apply one_row_per_key_ensure, Ht.
    + apply one_row_per_key_ensure, Ht.
Qed.

Lemma X2_tracking_keeps_one_row_per_offer_and_day_witness :
  one_row_per_key
    (snd (track_offer_interaction ∅ 5 1 (Some 8) "click"
            Scenarios.after_first_view)) /\
  one_row_per_key
    (snd (track_conversion ∅ 5 1 "click" (Some 8) Scenarios.after_first_view)).
Proof.
  apply (X2_tracking_keeps_one_row_per_offer_and_day ∅ 5 1 (Some 8) "click"
           Scenarios.after_first_view).
  unfold one_row_per_key. simpl. constructor; [intros [] | constructor].
Defined.

(** The row of offer [o] and day [d] after [n] anonymous views and nothing
    else. *)
Lemma anonymous_views_succ (users : User.table) (today o : Z) (n : nat) :
  anonymous_views users today o (S n) []
  = [ {| offer_id := o; date := today; views := Z.of_nat (S n); clicks := 0;
         conversions := 0; conversion_calls := 0; conversion_directions := 0;
         conversion_website := 0; user_id := None; user_city := None |} ].
Proof.
  induction n as [|n IH].
  - unfold anonymous_views. simpl.
    unfold track_offer_interaction, is_duplicate_interaction, ensure_row,
      sql_insert, sql_update, is_for. simpl.
    rewrite !Z.eqb_refl. reflexivity.
  - change (anonymous_views users today o (S (S n)) [])
      with (snd (track_offer_interaction users today o None "view"
                   (anonymous_views users today o (S n) []))).
    rewrite IH, (Nat2Z.inj_succ (S n)). clear IH.
    generalize (Z.of_nat (S n)). intros v.
    unfold track_offer_interaction, is_duplicate_interaction, ensure_row,
      sql_insert, sql_update, is_for. simpl.
    repeat (rewrite !Z.eqb_refl; simpl).
    unfold bump. simpl. do 2 f_equal; lia.
Qed.

(** X3. Starting from an empty table, [n] anonymous views of an offer on one
    day, [n >= 1], leave exactly one row for the offer and the day, with
    [views = n], every other counter zero and no owner. *)
Theorem X3_anonymous_views_are_all_counted (users : User.table)
    (today o : Z) (n : nat) :
  exists r,
    anonymous_views users today o (S n) [] = [r] /\
    offer_id r = o /\ date r = today /\ views r = Z.of_nat (S n) /\
    clicks r = 0 /\ conversions r = 0 /\ typed_conversions r = 0 /\
    user_id r = None.
Proof.
  eexists. split; [apply anonymous_views_succ|]. repeat split.
Qed.

(** After an accepted generic event of user [u], the guard recognises [u],
    provided the rows of the offer and the day had no other owner. *)
Lemma owner_is_recognised (users : User.table) (today o u : Z) (ev : string)
    (f : field) (t : table) :
  u <> 0 ->
  field_mapping ev = Some f ->
  not_owned_by_others o today u t ->
  is_duplicate_interaction
    (snd (track_offer_interaction users today o (Some u) ev t))
    o (Some u) today = true.
Proof.
  intros Hu Hf Hown. unfold track_offer_interaction.
  destruct (is_duplicate_interaction t o (Some u) today) eqn:E; simpl;
    [exact E|].
  rewrite Hf. simpl.
  set (c := city_of_user users (Some u)).
  unfold is_duplicate_interaction. simpl.
  replace (u =? 0) with false by lia. simpl.
  apply OfferAnalyticsFacts.tracked_today_spec.
  pose proof (OfferAnalyticsFacts.ensure_row_has_row o today (Some u) c t)
    as Hex.
  apply existsb_exists in Hex as (r0 & Hin & Hfor).
  exists (bump f (Some u) c r0). split.
  - unfold sql_update. apply in_map_iff. exists r0. rewrite Hfor. auto.
  - assert (Hr0 : user_id r0 = None \/ user_id r0 = Some u).
    { revert Hfor. revert r0 Hin.
      apply (OfferAnalyticsFacts.ensure_row_owner o today (Some u) c t
               (fun r => is_for o today r = true ->
                         user_id r = None \/ user_id r = Some u)).
      - intros _. right. reflexivity.
      - exact Hown. }
    unfold is_for in Hfor. apply andb_prop in Hfor as [Ho Hd].
    simpl. split; [lia|]. split; [lia|].
    exists u. split; [reflexivity|].
    destruct Hr0 as [H | H]; rewrite H; reflexivity.
Qed.

(** X4. The guard of the generic events does not look at the event type:
    once a generic event of user [u] has been accepted for an offer on a
    day whose rows had no other owner, every further generic event of [u]
    for that offer and day, of the same or of another type, is skipped: the
    call returns [True] and the table is unchanged.  A click after one's own
    view is therefore never counted. *)
Theorem X4_owner_is_counted_once_whatever_the_type (users : User.table)
    (today o u : Z) (ev ev' : string) (f : field) (t : table) :
  u <> 0 ->
  field_mapping ev = Some f ->
  not_owned_by_others o today u t ->
  let t1 := snd (track_offer_interaction users today o (Some u) ev t) in
  track_offer_interaction users today o (Some u) ev' t1 = (true, t1).
Proof.
  intros Hu Hf Hown t1.
  pose proof (owner_is_recognised users today o u ev f t Hu Hf Hown) as Hdup.
  fold t1 in Hdup. unfold track_offer_interaction. rewrite Hdup. reflexivity.
Qed.

Lemma X4_owner_is_counted_once_whatever_the_type_witness :
  let t1 := snd (track_offer_interaction ∅ 5 1 (Some 7) "view" []) in
  track_offer_interaction ∅ 5 1 (Some 7) "click" t1 = (true, t1).
Proof.
  apply (X4_owner_is_counted_once_whatever_the_type ∅ 5 1 7 "view" "click"
           Views []).
  - lia.
  - reflexivity.
  - intros r [].
Defined.

(** X5. A typed conversion is deduplicated per type for the owner of the
    row: when the rows of the offer and the day have no other owner and
    non-negative counters, a second conversion of the same type by the same
    user returns [True] and changes nothing. *)
Theorem X5_owner_converts_once_per_type (users : User.table)
    (today o u : Z) (ct : string) (f : conversion_field) (t : table) :
  u <> 0 ->
  conversion_field_mapping ct = Some f ->
  not_owned_by_others o today u t ->
  (forall r, In r t -> 0 <= get_conversion f r) ->
  let t1 := snd (track_conversion users today o ct (Some u) t) in
  track_conversion users today o ct (Some u) t1 = (true, t1).
Proof.
  intros Hu Hf Hown Hpos t1. unfold t1, track_conversion.
  destruct (is_duplicate_conversion t o (Some u) ct today) eqn:E; simpl.
  - rewrite E. reflexivity.
  - rewrite Hf. simpl.
    set (c := city_of_user users (Some u)).
    assert (Hdup : is_duplicate_conversion
                     (sql_update (is_for o today) (bump_conversion f (Some u) c)
                        (ensure_row o today (Some u) c t))
                     o (Some u) ct today = true).
    { unfold is_duplicate_conversion. simpl.
      replace (u =? 0) with false by lia. simpl.
      apply (OfferAnalyticsFacts.converted_today_spec _ _ _ _ _ _ Hf).
      pose proof (OfferAnalyticsFacts.ensure_row_has_row o today (Some u) c t)
        as Hex.
      apply existsb_exists in Hex as (r0 & Hin & Hfor).
      exists (bump_conversion f (Some u) c r0). split.
      - unfold sql_update. apply in_map_iff. exists r0. rewrite Hfor. auto.
      - assert (Hr0 : (user_id r0 = None \/ user_id r0 = Some u) /\
                      0 <= get_conversion f r0).
        { revert Hfor. revert r0 Hin.
          apply (OfferAnalyticsFacts.ensure_row_owner o today (Some u) c t
                   (fun r => is_for o today r = true ->
                             (user_id r = None \/ user_id r = Some u) /\
                             0 <= get_conversion f r)).
          - intros _. split; [right; reflexivity|]. destruct f; simpl; lia.
          - intros r Hr Hfr. split; [exact (Hown r Hr Hfr) | exact (Hpos r Hr)]. }
        destruct Hr0 as [Hown0 Hpos0].
        unfold is_for in Hfor. apply andb_prop in Hfor as [Ho Hd].
        simpl. split; [lia|]. split; [lia|]. split.
        + exists u. split; [reflexivity|].
          destruct Hown0 as [H | H]; rewrite H; reflexivity.
        + destruct f; simpl in *; lia. }
    rewrite Hdup. reflexivity.
Qed.

Lemma X5_owner_converts_once_per_type_witness :
  let t1 := snd (track_conversion ∅ 5 1 "call" (Some 7) []) in
  track_conversion ∅ 5 1 "call" (Some 7) t1 = (true, t1).
Proof.
  apply (X5_owner_converts_once_per_type ∅ 5 1 7 "call" Calls []).
  - lia.
  - reflexivity.
  - intros r [].
  - intros r [].
Defined.

End TrackingFacts.

(** * Properties of the daily chat quota *)

Module QuotaFacts.
Import AIChat AIChatRoute ChatUsage.

(** A request either is answered with 200 after a passed check, and then
    the users table is the one left by the increment, or is answered
    otherwise and leaves the users table alone. *)
Lemma ai_chat_users (db : stores) (p : provider) (today now user_id : Z)
    (data : option body) :
  let '(r, users', _) := ai_chat db p today now user_id data in
  let limit := get_chat_limit (new_chat (ai_model_credentials db)) in
  (status r = 200 /\
   User.check_ai_chat_limit (users db) today user_id limit = true /\
   users' = snd (User.increment_ai_chat_usage (users db) today user_id)) \/
  (status r <> 200 /\ users' = users db).
Proof.
  unfold ai_chat.
  destruct data as [d|]; [|right; simpl; split; [lia | reflexivity]].
  destruct (negb (py_truthy_str (get (message d))));
    [right; simpl; split; [lia | reflexivity]|].
  destruct (String.eqb (strip _) "");
    [right; simpl; split; [lia | reflexivity]|].
  destruct (150 <? String.length _)%nat;
    [right; simpl; split; [lia | reflexivity]|].
  destruct (User.check_ai_chat_limit _ _ _ _) eqn:Hcheck;
    [|right; simpl; split; [lia | reflexivity]].
  cbn [negb].
  destruct (process_chat_message _ _ _ _ _ _ _ _) as [log response].
  destruct (AIChat.success response); cbn [negb].
  - destruct (User.increment_ai_chat_usage _ _ _) as [n users'] eqn:Hinc.
    left. simpl. auto.
  - right. simpl. split; [lia | reflexivity].
Qed.

Lemma increment_bound (users : User.table) (today uid limit : Z) :
  User.check_ai_chat_limit users today uid limit = true ->
  User.usage_today (snd (User.increment_ai_chat_usage users today uid))
                   today uid
  <= Z.max (User.usage_today users today uid) (Z.max limit 1).
Proof.
  unfold User.check_ai_chat_limit, User.increment_ai_chat_usage,
    User.usage_today.
  destruct (users !! uid) as [r|] eqn:Hr; [|discriminate].
  simpl. rewrite lookup_insert_eq. simpl. rewrite Z.eqb_refl.
  destruct (User.ai_chat_date r) as [d|]; [destruct (d =? today)|]; lia.
Qed.

Lemma increment_frame (users : User.table) (today uid : Z) :
  let users' := snd (User.increment_ai_chat_usage users today uid) in
  (forall u, u <> uid -> users' !! u = users !! u) /\
  User.city <$> users' !! uid = User.city <$> users !! uid.
Proof.
  unfold User.increment_ai_chat_usage.
  destruct (users !! uid) as [r|] eqn:Hr; simpl.
  - split.
    + intros u Hu. apply lookup_insert_ne. congruence.
    + rewrite lookup_insert_eq. reflexivity.
  - split; [reflexivity | rewrite Hr; reflexivity].
Qed.

Lemma limit_with_users (db : stores) (users : User.table) :
  get_chat_limit (new_chat (ai_model_credentials (with_users db users)))
  = get_chat_limit (new_chat (ai_model_credentials db)).
Proof. reflexivity. Qed.

(** What a sequence of requests does to today's count of the caller. *)
Lemma serve_usage (requests : list request) (db : stores) (today user_id : Z) :
  let (replies, final) := serve db today user_id requests in
  let limit := get_chat_limit (new_chat (ai_model_credentials db)) in
  List.length replies = List.length requests /\
  User.usage_today final today user_id
    = User.usage_today (users db) today user_id + answered replies /\
  User.usage_today final today user_id
    <= Z.max (User.usage_today (users db) today user_id) (Z.max limit 1).
Proof.
  revert db. induction requests as [|q rest IH]; intros db; simpl.
  - unfold answered. simpl. repeat split; lia.
  - pose proof (ai_chat_users db (req_provider q) today (req_now q) user_id
                  (req_data q)) as Hone.
    destruct (ai_chat db (req_provider q) today (req_now q) user_id
                (req_data q)) as [[reply users'] log].
    specialize (IH (with_users db users')).
    destruct (serve (with_users db users') today user_id rest)
      as [replies final].
    rewrite limit_with_users in IH. simpl in IH.
    destruct IH as (Hlen & Hcount & Hbound).
    unfold answered in *. simpl.
    destruct Hone as [(Hs & Hcheck & ->) | (Hs & ->)].
    + rewrite Hs. simpl.
      pose proof (RouteFacts.increment_after_check _ _ _ _ Hcheck) as Hinc.
      pose proof (increment_bound _ _ _ _ Hcheck) as Hb.
      destruct (User.increment_ai_chat_usage (users db) today user_id)
        as [n users'].
      simpl in *. destruct Hinc as (Hup & _).
      repeat split; lia.
    + replace (status reply =? 200) with false by lia.
      repeat split; lia.
Qed.

(** X6. Over any sequence of [POST /ai-chat] requests of one user on one
    day, whatever the bodies and whatever the provider does, every request
    gets a reply and today's count of the user grows by exactly the number
    of replies with status 200. *)
Theorem X6_usage_counts_the_answered_messages (db : stores)
    (today user_id : Z) (requests : list request) :
  let (replies, final) := serve db today user_id requests in
  List.length replies = List.length requests /\
  User.usage_today final today user_id
    = User.usage_today (users db) today user_id + answered replies.
Proof.
  pose proof (serve_usage requests db today user_id) as H.
  destruct (serve db today user_id requests) as [replies final].
  destruct H as (Hlen & Hcount & _). auto.
Qed.

(** X7. The quota is never exceeded: with a limit [L] (taken as 1 when the
    stored limit is below 1, because the first message of a day is always
    admitted) and [c] messages already counted today, no sequence of
    requests gets more than [max 0 (L - c)] replies with status 200, and
    today's count never passes [max c L]. *)
Theorem X7_quota_is_never_exceeded (db : stores) (today user_id : Z)
    (requests : list request) :
  let (replies, final) := serve db today user_id requests in
  let limit := Z.max (get_chat_limit (new_chat (ai_model_credentials db))) 1 in
  let used := User.usage_today (users db) today user_id in
  answered replies <= Z.max 0 (limit - used) /\
  User.usage_today final today user_id <= Z.max used limit.
Proof.
  pose proof (serve_usage requests db today user_id) as H.
  destruct (serve db today user_id requests) as [replies final].
  destruct H as (Hlen & Hcount & Hbound). simpl in *. lia.
Qed.

(** X8. The chat requests of a user never touch the row of another user,
    and never change the user's own city. *)
Theorem X8_requests_touch_only_the_callers_count (db : stores)
    (today user_id : Z) (requests : list request) :
  let final := snd (serve db today user_id requests) in
  (forall u, u <> user_id -> final !! u = users db !! u) /\
  User.city <$> final !! user_id = User.city <$> users db !! user_id.
Proof.
  revert db. induction requests as [|q rest IH]; intros db; simpl.
  - auto.
  - pose proof (ai_chat_users db (req_provider q) today (req_now q) user_id
                  (req_data q)) as Hone.
    destruct (ai_chat db (req_provider q) today (req_now q) user_id
                (req_data q)) as [[reply users'] log].
    specialize (IH (with_users db users')).
    destruct (serve (with_users db users') today user_id rest)
      as [replies final].
    simpl in *. destruct IH as [Hother Hcity].
    destruct Hone as [(_ & _ & ->) | (_ & ->)]; [|auto].
    destruct (increment_frame (users db) today user_id) as [Ho Hc].
    split.
    + intros u Hu. rewrite (Hother u Hu). apply Ho, Hu.
    + rewrite Hcity. exact Hc.
Qed.

(** X9. The first message of a day is always admitted and restarts the
    count: for a known user whose stored date is not today, the limit check
    passes whatever the limit and the stored count, and the increment
    returns 1 and leaves today's count at 1. *)
Theorem X9_new_day_restarts_the_count (users : User.table)
    (today user_id limit : Z) (r : User.row) :
  users !! user_id = Some r ->
  User.ai_chat_date r <> Some today ->
  User.check_ai_chat_limit users today user_id limit = true /\
  User.usage_today users today user_id = 0 /\
  let (n, users') := User.increment_ai_chat_usage users today user_id in
  n = 1 /\ User.usage_today users' today user_id = 1.
Proof.
  intros Hr Hd.
  unfold User.check_ai_chat_limit, User.usage_today,
    User.increment_ai_chat_usage.
  rewrite Hr. simpl. rewrite lookup_insert_eq. simpl. rewrite Z.eqb_refl.
  destruct (User.ai_chat_date r) as [d|]; [|auto].
  destruct (Z.eqb_spec d today) as [->|Hne]; [congruence | auto].
Qed.

Lemma X9_new_day_restarts_the_count_witness :
  User.check_ai_chat_limit {[ 7 := Scenarios.a_user ]} 6 7 0 = true /\
  User.usage_today {[ 7 := Scenarios.a_user ]} 6 7 = 0 /\
  let (n, users') :=
    User.increment_ai_chat_usage {[ 7 := Scenarios.a_user ]} 6 7 in
  n = 1 /\ User.usage_today users' 6 7 = 1.
Proof.
  apply (X9_new_day_restarts_the_count {[ 7 := Scenarios.a_user ]} 6 7 0
           Scenarios.a_user).
  - reflexivity.
  - simpl. congruence.
Defined.

(** X10. For a known user and a limit of at least 1, [GET /chat/usage]
    agrees with [POST /ai-chat]: it reports the count that the quota check
    reads, [limitReached] exactly when the check would refuse the next
    message, and [remaining_today] as the messages still admitted (0 when
    the limit is reached, limit minus usage otherwise). *)
Theorem X10_usage_report_agrees_with_the_check (db : stores)
    (today user_id : Z) (r : User.row) :
  users db !! user_id = Some r ->
  1 <= get_chat_limit (new_chat (ai_model_credentials db)) ->
  let report := usage_endpoint db today user_id in
  let limit := get_chat_limit (new_chat (ai_model_credentials db)) in
  daily_usage report = User.usage_today (users db) today user_id /\
  limitReached report
    = negb (User.check_ai_chat_limit (users db) today user_id limit) /\
  remaining_today report
    = (if limitReached report then 0 else limit - daily_usage report) /\
  0 <= remaining_today report.
Proof.
  intros Hr Hlimit. unfold usage_endpoint, get_ai_chat_usage,
    User.usage_today, User.check_ai_chat_limit. rewrite Hr. simpl.
  set (limit := get_chat_limit (new_chat (ai_model_credentials db))) in *.
  destruct (User.ai_chat_date r) as [d|]; [destruct (d =? today)|]; simpl.
  - destruct (Z.leb_spec limit (User.ai_chat_count r)),
      (Z.ltb_spec (User.ai_chat_count r) limit); simpl;
      repeat split; lia.
  - destruct (Z.leb_spec limit 0); simpl; repeat split; lia.
  - destruct (Z.leb_spec limit 0); simpl; repeat split; lia.
Qed.

Lemma X10_usage_report_agrees_with_the_check_witness :
  let report := usage_endpoint Scenarios.a_store 5 7 in
  let limit :=
    get_chat_limit (new_chat (ai_model_credentials Scenarios.a_store)) in
  daily_usage report = User.usage_today (users Scenarios.a_store) 5 7 /\
  limitReached report
    = negb (User.check_ai_chat_limit (users Scenarios.a_store) 5 7 limit) /\
  remaining_today report
    = (if limitReached report then 0 else limit - daily_usage report) /\
  0 <= remaining_today report.
Proof.
  apply (X10_usage_report_agrees_with_the_check Scenarios.a_store 5 7
           Scenarios.a_user).
  - reflexivity.
  - simpl. lia.
Defined.



End QuotaFacts.

(** * Further properties of the offer search and of the chat orchestrator *)

Module SearchMoreFacts.
Import Offers AIChat SearchSpec.

Lemma where_clause_passes (now : Z) (cat kw cty : option string)
    (p : offer -> bool) (o : offer) :
  where_clause now cat kw cty = Some p ->
  (p o = true <-> passes now cat kw cty o).
Proof.
  unfold where_clause, passes.
  destruct (py_truthy_str cty) eqn:Hcty.
  - destruct (city_clause (default "" cty)) as [f|] eqn:Hf; [|discriminate].
    intros [= <-]. rewrite !andb_true_iff.
    destruct (py_truthy_str kw), (py_truthy_str cat); split.
    all: try (intros [[[Ha Hk] Hc] Hy]; repeat split; eauto).
    all: intros (Ha & Hk & Hc & g & Hg & Hy);
      assert (g = f) by congruence; subst g; auto.
  - intros [= <-]. rewrite !andb_true_iff.
    destruct (py_truthy_str kw), (py_truthy_str cat); split.
    all: try (intros [[Ha Hk] Hc]; repeat split; auto).
    all: intros (Ha & Hk & Hc & _); auto.
Qed.

(** X11. Every offer returned by the search is the image of a row of the
    offers table that is approved, unexpired and passes each filter that was
    supplied (keywords, category, city); nothing is invented and no supplied
    filter is bypassed. *)
Theorem X11_search_results_pass_every_supplied_filter
    (offers : list offer) (businesses : gmap Z business) (now : Z)
    (cat kw cty : option string) (active_only : bool) :
  List.Forall
    (fun fo => exists o, In o offers /\ fo = to_frontend businesses o /\
                         passes now cat kw cty o)
    (search_offers_function offers businesses now cat kw cty active_only).
Proof.
  unfold search_offers_function.
  destruct (where_clause now cat kw cty) as [p|] eqn:Hp; [|constructor].
  apply Forall_forall. intros fo Hfo.
  apply in_map_iff in Hfo as (o & <- & Ho).
  apply SearchFacts.In_firstn, SearchFacts.In_order_by, filter_In in Ho
    as [Hin Ho].
  exists o. split; [exact Hin|]. split; [reflexivity|].
  apply (where_clause_passes _ _ _ _ _ _ Hp). exact Ho.
Qed.

(** *** The order of the results *)

Lemma precedes_total (a b : offer) : precedes a b = false -> precedes b a = true.
Proof.
  unfold precedes. destruct (is_premium a), (is_premium b); try discriminate;
    try reflexivity; lia.
Qed.

Lemma before_trans (a b c : offer) : before a b -> before b c -> before a c.
Proof.
  unfold before, precedes.
  destruct (is_premium a), (is_premium b), (is_premium c);
    try discriminate; try reflexivity; lia.
Qed.

Lemma HdRel_insert_sorted (x o : offer) (l : list offer) :
  HdRel before x l -> before x o -> HdRel before x (insert_sorted o l).
Proof.
  intros Hl Ho. destruct l as [|y l]; simpl.
  - constructor. exact Ho.
  - destruct (precedes o y); constructor; [exact Ho|].
    inversion Hl; assumption.
Qed.

Lemma insert_sorted_Sorted (o : offer) (l : list offer) :
  Sorted before l -> Sorted before (insert_sorted o l).
Proof.
  induction l as [|x l IH]; simpl; intros Hl.
  - repeat constructor.
  - inversion Hl as [|y l' Hs Hh]; subst.
    destruct (precedes o x) eqn:Hox.
    + constructor; [exact Hl | constructor; exact Hox].
    + constructor; [apply IH, Hs|].
      apply HdRel_insert_sorted; [exact Hh | apply precedes_total, Hox].
Qed.

Lemma order_by_Sorted (l : list offer) : Sorted before (order_by l).
Proof.
  unfold order_by. induction l as [|o l IH]; simpl.
  - constructor.
  - apply insert_sorted_Sorted, IH.
Qed.

Lemma StronglySorted_firstn {A} (R : A -> A -> Prop) (n : nat) (l : list A) :
  StronglySorted R l -> StronglySorted R (firstn n l).
Proof.
  revert l. induction n as [|n IH]; intros l Hl; simpl; [constructor|].
  destruct Hl as [|x l Hl Hx]; [constructor|].
  constructor; [apply IH, Hl|].
  apply Forall_forall. intros y Hy.
  apply SearchFacts.In_firstn in Hy.
  rewrite List.Forall_forall in Hx. apply Hx, Hy.
Qed.

Lemma StronglySorted_map {A B} (R : A -> A -> Prop) (R' : B -> B -> Prop)
    (f : A -> B) (l : list A) :
  (forall a b, R a b -> R' (f a) (f b)) ->
  StronglySorted R l -> StronglySorted R' (List.map f l).
Proof.
  intros Hf Hl. induction Hl as [|x l Hl IH Hx]; simpl; constructor.
  - exact IH.
  - apply Forall_forall. intros y Hy.
    apply in_map_iff in Hy as (a & <- & Ha).
    rewrite List.Forall_forall in Hx. apply Hf, Hx, Ha.
Qed.

Lemma before_ranks (businesses : gmap Z business) (a b : offer) :
  before a b ->
  ranks_before (to_frontend businesses a) (to_frontend businesses b).
Proof.
  unfold before, precedes, ranks_before. simpl.
  destruct (is_premium a), (is_premium b); intros H; try discriminate;
    try (left; split; reflexivity); right; split; try reflexivity; lia.
Qed.

(** X12. The search returns its results in rank order: each returned offer
    is listed before every later one under "premium first, then newest
    first"; in particular no non-premium offer is listed before a premium
    one. *)
Theorem X12_search_results_are_ranked (offers : list offer)
    (businesses : gmap Z business) (now : Z) (cat kw cty : option string)
    (active_only : bool) :
  StronglySorted ranks_before
    (search_offers_function offers businesses now cat kw cty active_only).
Proof.
  unfold search_offers_function.
  destruct (where_clause now cat kw cty) as [p|]; [|constructor].
  apply (StronglySorted_map before); [apply before_ranks|].
  apply StronglySorted_firstn.
  apply Sorted_StronglySorted; [|apply order_by_Sorted].
  intros a b c. apply before_trans.
Qed.

(** *** How many results, and which *)

Lemma length_insert_sorted (o : offer) (l : list offer) :
  List.length (insert_sorted o l) = S (List.length l).
Proof.
  induction l as [|x l IH]; simpl; [reflexivity|].
  destruct (precedes o x); simpl; [reflexivity | rewrite IH; reflexivity].
Qed.

Lemma length_order_by (l : list offer) :
  List.length (order_by l) = List.length l.
Proof.
  unfold order_by. induction l as [|o l IH]; simpl; [reflexivity|].
  rewrite length_insert_sorted, IH. reflexivity.
Qed.

Lemma insert_sorted_In (o x : offer) (l : list offer) :
  x = o \/ In x l -> In x (insert_sorted o l).
Proof.
  induction l as [|y l IH]; simpl.
  - intros [-> | []]. left. reflexivity.
  - destruct (precedes o y); simpl.
    + intros [-> | [-> | H]]; auto.
    + intros [-> | [-> | H]]; auto.
Qed.

Lemma order_by_In (x : offer) (l : list offer) :
  In x l -> In x (order_by l).
Proof.
  unfold order_by. induction l as [|y l IH]; simpl; [tauto|].
  intros [-> | H]; apply insert_sorted_In; auto.
Qed.

(** X13. The search returns exactly [min 10 n] offers, where [n] is the
    number of rows selected by the [WHERE] clause; when at most ten rows are
    selected, every one of them is returned. *)
Theorem X13_search_returns_the_first_ten_matches (offers : list offer)
    (businesses : gmap Z business) (now : Z) (cat kw cty : option string)
    (active_only : bool) :
  let found := search_offers_function offers businesses now cat kw cty
                                      active_only in
  let selected := matching offers now cat kw cty in
  List.length found = Nat.min 10 (List.length selected) /\
  if (List.length selected <=? 10)%nat
  then List.Forall (fun o => In (to_frontend businesses o) found) selected
  else True.
Proof.
  unfold search_offers_function, matching.
  destruct (where_clause now cat kw cty) as [p|]; simpl.
  2:{ split; [reflexivity | constructor]. }
  split.
  - rewrite length_map, length_firstn, length_order_by. reflexivity.
  - destruct (Nat.leb_spec (List.length (List.filter p offers)) 10)
      as [Hle|]; [|exact I].
    apply Forall_forall. intros o Ho.
    apply in_map. rewrite firstn_all2 by (rewrite length_order_by; exact Hle).
    apply order_by_In, Ho.
Qed.

(** *** The keywords filter finds substrings *)

Lemma lower_app (a b : string) :
  Postgres.lower (a +:+ b) = Postgres.lower a +:+ Postgres.lower b.
Proof. induction a as [|c a IH]; simpl; [reflexivity | rewrite IH; reflexivity]. Qed.

Lemma like_cons_plain (c d : ascii) (p s : string) :
  (Ascii.eqb c "%" || Ascii.eqb c "_" || Ascii.eqb c "\")%char = false ->
  Postgres.like (String c p) (String d s)
  = Ascii.eqb c d && Postgres.like p s.
Proof.
  destruct c as [[] [] [] [] [] [] [] []]; simpl; intros H;
    try discriminate; reflexivity.
Qed.

Lemma plain_lower (s : string) : plain s = true -> plain (Postgres.lower s) = true.
Proof.
  induction s as [|c s IH]; simpl; [reflexivity|].
  intros H. apply andb_prop in H as [Hc Hs]. rewrite (IH Hs), andb_true_r.
  revert Hc. destruct c as [[] [] [] [] [] [] [] []]; simpl; intros Hc;
    try discriminate; reflexivity.
Qed.

Lemma like_plain_prefix (m q s : string) :
  plain m = true ->
  Postgres.like (m +:+ q) (m +:+ s) = Postgres.like q s.
Proof.
  induction m as [|c m IH]; [reflexivity|].
  intros H. simpl in H. apply andb_prop in H as [Hc Hm].
  apply negb_true_iff in Hc.
  change (String c m +:+ q) with (String c (m +:+ q)).
  change (String c m +:+ s) with (String c (m +:+ s)).
  rewrite (like_cons_plain c c (m +:+ q) (m +:+ s) Hc).
  rewrite Ascii.eqb_refl. cbn [andb]. apply IH, Hm.
Qed.

Lemma like_percent_skip (q a s : string) :
  Postgres.like q s = true ->
  Postgres.like (String "%" q) (a +:+ s) = true.
Proof.
  intros H. induction a as [|c a IH].
  - change ("" +:+ s) with s. destruct s; simpl; rewrite H; reflexivity.
  - simpl in *. rewrite IH. apply orb_true_r.
Qed.

Lemma like_percent_all (s : string) : Postgres.like "%" s = true.
Proof.
  induction s as [|c s IH]; [reflexivity|].
  simpl in *. rewrite IH. reflexivity.
Qed.

Lemma ilike_contains (kw s : string) :
  plain kw = true -> contains_ci s kw ->
  ilike (Some s) ("%" +:+ kw +:+ "%") = true.
Proof.
  intros Hp (a & m & b & -> & Hm). unfold ilike.
  rewrite !lower_app, Hm.
  change (Postgres.lower "%") with "%".
  change ("%" +:+ Postgres.lower kw +:+ "%")
    with (String "%" (Postgres.lower kw +:+ "%")).
  apply like_percent_skip.
  rewrite like_plain_prefix by (apply plain_lower, Hp).
  apply like_percent_all.
Qed.

(** X26. The keywords filter is a substring search that ignores the case
    of the ASCII letters: for keywords that are not empty and hold no
    [LIKE] wildcard, an approved, unexpired offer whose title, description
    or keywords column contains them is selected by a search by keywords. *)
Theorem X26_keywords_find_substrings (offers : list offer) (now : Z)
    (kw : string) (o : offer) (field : string) :
  py_truthy_str (Some kw) = true ->
  plain kw = true ->
  In o offers ->
  is_active now o = true ->
  title o = Some field \/ description o = Some field \/ keywords o = Some field ->
  contains_ci field kw ->
  In o (matching offers now None (Some kw) None).
Proof.
  intros Hkw Hp Hin Hact Hfield Hc.
  unfold matching, where_clause. rewrite Hkw. simpl.
  apply filter_In. split; [exact Hin|].
  rewrite Hact. simpl. rewrite andb_true_r.
  unfold keywords_clause.
  pose proof (ilike_contains kw field Hp Hc) as Hlike.
  destruct Hfield as [-> | [-> | ->]]; rewrite Hlike;
    rewrite ?orb_true_r; reflexivity.
Qed.

Lemma X26_keywords_find_substrings_witness :
  In (Scenarios.offer_in 1 "Helsinki")
     (matching Scenarios.four_offers 0 None (Some "KAHVI") None).
Proof.
  apply (X26_keywords_find_substrings Scenarios.four_offers 0 "KAHVI"
           (Scenarios.offer_in 1 "Helsinki") "Kahvi -20%").
  - reflexivity.
  - reflexivity.
  - simpl. auto.
  - reflexivity.
  - left. reflexivity.
  - exists "", "Kahvi", " -20%". split; reflexivity.
Defined.

End SearchMoreFacts.

Module ChatMoreFacts.
Import Offers AIChat SearchSpec.

Lemma search_found (offers : list offer) (businesses : gmap Z business)
    (now : Z) (cat kw cty : option string) (active_only : bool) :
  let found := search_offers_function offers businesses now cat kw cty
                                      active_only in
  (List.length found <= 10)%nat /\ List.Forall (eligible now) found.
Proof.
  unfold search_offers_function.
  destruct (where_clause now cat kw cty) as [p|] eqn:Hp; simpl.
  - split.
    + rewrite length_map, length_firstn. lia.
    + apply Forall_forall. intros fo Hfo.
      apply in_map_iff in Hfo as (o & <- & Ho).
      apply SearchFacts.In_firstn, SearchFacts.In_order_by, filter_In in Ho
        as [_ Ho].
      apply SearchFacts.is_active_eligible.
      exact (SearchFacts.where_clause_is_active _ _ _ _ _ _ Hp Ho).
  - split; [lia | constructor].
Qed.

Lemma search_in_city (offers : list offer) (businesses : gmap Z business)
    (now : Z) (cat kw : option string) (c : string) (active_only : bool) :
  py_truthy_str (Some c) = true ->
  List.Forall (in_city c)
    (search_offers_function offers businesses now cat kw (Some c) active_only).
Proof.
  intros Hc. unfold search_offers_function.
  destruct (where_clause now cat kw (Some c)) as [p|] eqn:Hp; [|constructor].
  apply Forall_forall. intros fo Hfo.
  apply in_map_iff in Hfo as (o & <- & Ho).
  apply SearchFacts.In_firstn, SearchFacts.In_order_by, filter_In in Ho
    as [_ Ho].
  apply (SearchMoreFacts.where_clause_passes _ _ _ _ _ _ Hp) in Ho.
  destruct Ho as (_ & _ & _ & Hcity). rewrite Hc in Hcity.
  destruct Hcity as (f & Hf & Hy). unfold in_city. simpl in Hf.
  rewrite Hf. exact Hy.
Qed.

(** X14. Whatever the model answers, the offers of a chat reply are at most
    ten, each approved and unexpired; a reply carries offers only when it is
    successful and the exchange was a model call, one search and a second
    model call. *)
Theorem X14_chat_offers_come_from_one_search (self : chat) (p : provider)
    (offer_rows : list offer) (businesses : gmap Z business) (now : Z)
    (user_message : string) (user_city language : option string) :
  let (log, r) := process_chat_message self p offer_rows businesses now
                    user_message user_city language in
  (List.length (offers r) <= 10)%nat /\
  List.Forall (eligible now) (offers r) /\
  match offers r with
  | [] => True
  | _ => success r = true /\ log = [ModelCall; ToolSearch; ModelCall]
  end.
Proof.
  unfold process_chat_message.
  destruct (openai_client self); [|simpl; repeat split; [lia | constructor]].
  unfold exchange.
  destruct (first_turn p _) as [m|]; simpl;
    [|repeat split; [lia | constructor]].
  destruct (tool_calls m) as [|tc0 calls]; simpl;
    [repeat split; [lia | constructor]|].
  destruct (if String.eqb (tc_name tc0) "search_offers" then Some tc0
            else List.find _ calls) as [tc|]; simpl;
    [|repeat split; [lia | constructor]].
  destruct (tc_arguments tc) as [args|]; simpl;
    [|repeat split; [lia | constructor]].
  match goal with
  | |- context [search_offers_function ?a ?b ?c ?d ?e ?f ?g] =>
      pose proof (search_found a b c d e f g) as [Hlen Hall];
      set (found := search_offers_function a b c d e f g) in *
  end.
  destruct (second_turn p _) as [txt|]; simpl.
  - split; [exact Hlen|]. split; [exact Hall|].
    destruct found; auto.
  - repeat split; [lia | constructor].
Qed.

(** X15. When the model asks for a search without a city and the caller has
    one, the search is run with the caller's city: every offer of the reply
    passes the city clause for that city (its stored city is the city, a
    list containing it, or nationwide). *)
Theorem X15_callers_city_is_used_when_the_model_omits_it (self : chat)
    (p : provider) (offer_rows : list offer) (businesses : gmap Z business)
    (now : Z) (user_message c : string) (language : option string)
    (m : assistant_message) (tc : tool_call) (args : search_args) :
  py_truthy_str (Some c) = true ->
  first_turn p (opening_messages user_message (Some c) language) = Returned m ->
  search_call m = Some tc ->
  tc_arguments tc = Some args ->
  py_truthy_str (arg_city args) = false ->
  List.Forall (in_city c)
    (offers (snd (process_chat_message self p offer_rows businesses now
                    user_message (Some c) language))).
Proof.
  intros Hc Hm Hcall Hargs Hnone. unfold process_chat_message.
  destruct (openai_client self); [|constructor].
  unfold exchange. unfold opening_messages in Hm. rewrite Hm. simpl.
  unfold search_call in Hcall.
  destruct (tool_calls m) as [|tc0 calls]; [discriminate|].
  simpl in Hcall. simpl. rewrite Hcall, Hargs. simpl.
  rewrite Hnone. simpl in Hc. rewrite Hc. simpl.
  destruct (second_turn p _) as [txt|]; simpl; [|constructor].
  apply search_in_city. exact Hc.
Qed.

Lemma X15_callers_city_is_used_when_the_model_omits_it_witness :
  List.Forall (in_city "Helsinki")
    (offers (snd (process_chat_message (new_chat (Some Scenarios.a_key))
                    Scenarios.searching Scenarios.four_offers ∅ 0 "kahvi"
                    (Some "Helsinki") (Some "fi")))).
Proof.
  apply (X15_callers_city_is_used_when_the_model_omits_it
           (new_chat (Some Scenarios.a_key)) Scenarios.searching
           Scenarios.four_offers ∅ 0 "kahvi" "Helsinki" (Some "fi")
           {| content := None;
              tool_calls :=
                [ {| tc_id := "call_1"; tc_name := "search_offers";
                     tc_arguments :=
                       Some {| arg_category := None;
                               arg_keywords := Some "kahvi";
                               arg_city := None;
                               arg_active_only := true |} |} ] |}
           {| tc_id := "call_1"; tc_name := "search_offers";
              tc_arguments :=
                Some {| arg_category := None; arg_keywords := Some "kahvi";
                        arg_city := None; arg_active_only := true |} |}
           {| arg_category := None; arg_keywords := Some "kahvi";
              arg_city := None; arg_active_only := true |});
    reflexivity.
Defined.

(** X16. When the model asks only for tools other than [search_offers], no
    message is ever assigned: after that single model call the request ends
    with the failure dictionary, the fallback message of the language and no
    offers. *)
Theorem X16_only_foreign_tool_calls_end_in_failure (k : string)
    (self : chat) (p : provider) (offer_rows : list offer)
    (businesses : gmap Z business) (now : Z) (user_message : string)
    (user_city language : option string) (m : assistant_message) :
  openai_client self = Some k ->
  first_turn p (opening_messages user_message user_city language)
    = Returned m ->
  tool_calls m <> [] ->
  search_call m = None ->
  process_chat_message self p offer_rows businesses now user_message
    user_city language
  = ([ModelCall],
     {| success := false; message := Some (error_msg language);
        offers := [] |}).
Proof.
  intros Hk Hm Hcalls Hnone. unfold process_chat_message. rewrite Hk.
  unfold exchange. unfold opening_messages in Hm. rewrite Hm. simpl.
  unfold search_call in Hnone.
  destruct (tool_calls m) as [|tc0 calls]; [congruence|].
  simpl in Hnone. simpl. rewrite Hnone. reflexivity.
Qed.

Lemma X16_only_foreign_tool_calls_end_in_failure_witness :
  process_chat_message (new_chat (Some Scenarios.a_key)) distracted
    Scenarios.four_offers ∅ 0 "kahvi" (Some "Helsinki") (Some "fi")
  = ([ModelCall],
     {| success := false; message := Some (error_msg (Some "fi"));
        offers := [] |}).
Proof.
  apply (X16_only_foreign_tool_calls_end_in_failure "sk-test"
           (new_chat (Some Scenarios.a_key)) distracted Scenarios.four_offers
           ∅ 0 "kahvi" (Some "Helsinki") (Some "fi")
           {| content := None;
              tool_calls :=
                [ {| tc_id := "call_9"; tc_name := "get_weather";
                     tc_arguments := None |} ] |});
    [reflexivity | reflexivity | discriminate | reflexivity].
Defined.

End ChatMoreFacts.

(** * Properties of the single-event path ([Analytics.track_event]) *)

Module SingleEventFacts.
Import Analytics SingleEvent.

Lemma whole_mapping_find (offers : list Offers.offer) (o : Z) :
  distinct_ids offers ->
  dict_get (whole_mapping offers) o = find_business offers o.
Proof.
  unfold distinct_ids, whole_mapping, find_business.
  set (step := fun m x => dict_set m (Offers.id x) (Offers.business_id x)).
  assert (H : forall l m,
             List.NoDup (List.map Offers.id l) ->
             dict_get (fold_left step l m) o
             = match List.find (fun x => Offers.id x =? o) l with
               | Some x => Some (Offers.business_id x)
               | None => dict_get m o
               end).
  { induction l as [|x l IH]; intros m Hnd; simpl; [reflexivity|].
    inversion Hnd as [|y l' Hx Hl]; subst.
    rewrite (IH _ Hl). subst step. cbv beta. rewrite BatchFacts.dict_get_set.
    destruct (Z.eqb_spec (Offers.id x) o) as [Heq|Hne].
    - destruct (List.find (fun x0 => Offers.id x0 =? o) l) as [z|] eqn:Hz;
        [|reflexivity].
      exfalso. apply find_some in Hz as [Hin Hid]. apply Hx.
      apply in_map_iff. exists z. split; [lia | exact Hin].
    - reflexivity. }
  intros Hnd. rewrite (H offers [] Hnd).
  destruct (List.find _ offers); reflexivity.
Qed.

Lemma totals_update_keeps (b d b' d' : Z) (g : row -> row) (t : list row) :
  (forall r, business_id (g r) = business_id r /\ date (g r) = date r) ->
  (b' =? b) && (d' =? d) = false ->
  totals_of b d (sql_update (is_for b' d') g t) = totals_of b d t.
Proof.
  intros Hg Hne. unfold totals_of, sql_update.
  induction t as [|r t IH]; simpl; [reflexivity|].
  destruct (is_for b' d' r) eqn:Hr; simpl.
  - assert (Hn : is_for b d r = false).
    { unfold is_for in *. apply andb_prop in Hr as [H1 H2].
      apply andb_false_iff in Hne.
      apply andb_false_iff. destruct Hne; [left | right]; lia. }
    assert (Hn' : is_for b d (g r) = false).
    { unfold is_for in *. destruct (Hg r) as [-> ->]. exact Hn. }
    rewrite Hn, Hn'. exact IH.
  - destruct (is_for b d r); simpl; rewrite IH; reflexivity.
Qed.

Lemma totals_update_all (b d : Z) (g : row -> row) (h : Z * Z * Z -> Z * Z * Z)
    (t : list row) :
  (forall r, business_id (g r) = business_id r /\ date (g r) = date r) ->
  (forall r, totals (g r) = h (totals r)) ->
  totals_of b d (sql_update (is_for b d) g t) = List.map h (totals_of b d t).
Proof.
  intros Hg Hh. unfold totals_of, sql_update.
  induction t as [|r t IH]; simpl; [reflexivity|].
  destruct (is_for b d r) eqn:Hr; simpl.
  - assert (Hr' : is_for b d (g r) = true).
    { unfold is_for in *. destruct (Hg r) as [-> ->]. exact Hr. }
    rewrite Hr'. simpl. rewrite IH, Hh. reflexivity.
  - rewrite Hr. exact IH.
Qed.

(** The totals of business [b] after one push. *)
Lemma push_totals (offers : list Offers.offer) (now : Z)
    (ty : option string) (k : kind) (o event_date : Z) (t : list row)
    (b d : Z) :
  distinct_ids offers ->
  kind_of ty = Some k ->
  b <> 0 ->
  totals_of b d (_push_to_business_analytics offers now ty o event_date t)
  = if event_date =? d
    then bump_totals (if counts_for offers b o then count_one k no_stats
                      else no_stats)
                     (totals_of b d t)
    else totals_of b d t.
Proof.
  intros Hnd Hk Hb. unfold _push_to_business_analytics, counts_for, business_of.
  rewrite (whole_mapping_find offers o Hnd), Hk.
  assert (Hid : bump_totals no_stats (totals_of b d t) = totals_of b d t)
    by (apply BatchFacts.bump_totals_none; reflexivity).
  destruct (find_business offers o) as [[b'|]|];
    try (rewrite Hid; destruct (event_date =? d); reflexivity).
  set (live := live_offers offers now b').
  assert (Hset : forall r, business_id (set_active_offers live r) = business_id r
                           /\ date (set_active_offers live r) = date r)
    by (intros r; split; reflexivity).
  assert (Hinc : forall r, business_id (increment k r) = business_id r
                           /\ date (increment k r) = date r)
    by (intros r; split; reflexivity).
  destruct ((b' =? b) && (event_date =? d)) eqn:Hsame.
  - apply andb_prop in Hsame as [Hb' Hd].
    apply Z.eqb_eq in Hb', Hd. subst b' event_date.
    rewrite Z.eqb_refl. simpl. replace (b =? 0) with false by lia. simpl.
    rewrite Z.eqb_refl.
    assert (Htot : forall r, totals (increment k r)
                             = add_totals (count_one k no_stats) (totals r)).
    { intros r. destruct k; unfold totals; simpl; f_equal; try f_equal; lia. }
    rewrite (totals_update_all b d (set_active_offers live) (fun x => x) _
               Hset (fun r => eq_refl)).
    rewrite map_id.
    rewrite (totals_update_all b d (increment k)
               (add_totals (count_one k no_stats)) _ Hinc Htot).
    unfold bump_totals.
    replace (any_positive (count_one k no_stats)) with true
      by (destruct k; reflexivity).
    destruct (existsb (is_for b d) t) eqn:Hex.
    + apply BatchFacts.existsb_true_filter in Hex. unfold totals_of in *.
      destruct (List.filter (is_for b d) t); [congruence | reflexivity].
    + unfold totals_of, sql_insert. rewrite filter_app.
      rewrite (BatchFacts.existsb_false_filter _ _ Hex). simpl.
      unfold is_for. simpl. rewrite !Z.eqb_refl. simpl.
      destruct k; reflexivity.
  - rewrite !totals_update_keeps by assumption.
    assert (Hsame_t : totals_of b d
                        (if existsb (is_for b' event_date) t then t
                         else sql_insert (zero_row b' event_date) t)
                      = totals_of b d t).
    { destruct (existsb (is_for b' event_date) t); [reflexivity|].
      unfold totals_of, sql_insert. rewrite filter_app, map_app. simpl.
      unfold is_for at 2. simpl. rewrite Hsame. simpl. apply app_nil_r. }
    rewrite Hsame_t.
    destruct (event_date =? d) eqn:Hd; [|reflexivity].
    rewrite andb_true_r in Hsame.
    unfold py_truthy.
    destruct (negb (b' =? 0)); simpl; rewrite ?Hsame; simpl; rewrite ?Hid;
      reflexivity.
Qed.

Lemma track_event_totals (fits : event -> bool) (users : User.table)
    (offers : list Offers.offer) (now event_date : Z)
    (st : state) (e : event) (b d : Z) :
  distinct_ids offers ->
  accepted fits users offers e = true ->
  kind_of (event_type e) <> None ->
  b <> 0 ->
  totals_of b d (business_analytics
                   (track_event fits users offers now event_date st e))
  = if event_date =? d
    then bump_totals (contribution offers b e)
                     (totals_of b d (business_analytics st))
    else totals_of b d (business_analytics st).
Proof.
  intros Hnd Hacc Hk Hb. unfold track_event, contribution. rewrite Hacc.
  cbn [business_analytics].
  assert (Hid : bump_totals no_stats (totals_of b d (business_analytics st))
                = totals_of b d (business_analytics st))
    by (apply BatchFacts.bump_totals_none; reflexivity).
  destruct (kind_of (event_type e)) as [k|] eqn:Hke; [|congruence].
  destruct (offer_id e) as [o|];
    [|rewrite Hid; destruct (event_date =? d); reflexivity].
  destruct (py_truthy (Some o)); cbn [andb];
    [|rewrite Hid; destruct (event_date =? d); reflexivity].
  apply push_totals; assumption.
Qed.

Lemma track_events_totals (fits : event -> bool) (users : User.table)
    (offers : list Offers.offer) (event_date : Z)
    (timed : list (Z * event)) (st : state) (b d : Z) :
  distinct_ids offers ->
  all_accepted fits users offers (List.map snd timed) ->
  all_counted (List.map snd timed) ->
  b <> 0 ->
  totals_of b d (business_analytics
                   (track_events fits users offers event_date timed st))
  = if event_date =? d
    then bump_totals (batch_total offers b (List.map snd timed))
                     (totals_of b d (business_analytics st))
    else totals_of b d (business_analytics st).
Proof.
  intros Hnd Hacc Hall Hb. unfold track_events, all_accepted in *.
  revert st. induction timed as [|[now e] timed IH]; intros st; simpl.
  - rewrite BatchFacts.bump_totals_none by reflexivity.
    destruct (event_date =? d); reflexivity.
  - inversion Hall as [|x l Hk Hrest]; subst.
    simpl in Hacc. apply andb_prop in Hacc as [He Hes].
    rewrite (IH Hes Hrest), track_event_totals by assumption.
    destruct (event_date =? d); [|reflexivity].
    fold (batch_total offers b (List.map snd timed)).
    symmetry. apply BatchFacts.bump_totals_add.
Qed.

Lemma track_events_store (fits : event -> bool) (users : User.table)
    (offers : list Offers.offer) (event_date : Z)
    (timed : list (Z * event)) (st : state) :
  all_accepted fits users offers (List.map snd timed) ->
  analytics_events (track_events fits users offers event_date timed st)
  = analytics_events st ++ List.map snd timed.
Proof.
  unfold track_events, all_accepted. revert st.
  induction timed as [|[now e] timed IH]; intros st Hacc; simpl.
  - symmetry. apply app_nil_r.
  - simpl in Hacc. apply andb_prop in Hacc as [He Hes].
    rewrite (IH _ Hes). unfold track_event. simpl. rewrite He. simpl.
    rewrite <- app_assoc. reflexivity.
Qed.

(** X17. The batch path is the single-event path done at once: when the
    offer ids are distinct, every event is accepted by [analytics_events]
    and has a counted type, tracking the events one by one with
    [track_event] and ingesting them in one [batch_track_events] call leave
    every business (other than the id 0, which the batch path skips) with
    the same totals on every day, and store the same events. *)
Theorem X17_batch_agrees_with_single_events (fits : event -> bool)
    (users : User.table) (offers : list Offers.offer)
    (event_date : Z) (timed : list (Z * event)) (st : state) :
  distinct_ids offers ->
  all_accepted fits users offers (List.map snd timed) ->
  all_counted (List.map snd timed) ->
  let one_by_one := track_events fits users offers event_date timed st in
  let at_once := batch_track_events fits users offers event_date
                   (List.map snd timed) st in
  (forall b d, b <> 0 ->
               totals_of b d (business_analytics one_by_one)
               = totals_of b d (business_analytics at_once)) /\
  analytics_events one_by_one = analytics_events at_once.
Proof.
  intros Hnd Hacc Hall. split.
  - intros b d Hb.
    rewrite track_events_totals by assumption.
    rewrite BatchFacts.batch_totals. unfold all_accepted in Hacc.
    rewrite Hacc, andb_true_r. reflexivity.
  - rewrite track_events_store by assumption.
    rewrite BatchFacts.batch_store. unfold all_accepted in Hacc.
    rewrite Hacc. reflexivity.
Qed.

Lemma X17_batch_agrees_with_single_events_witness :
  let offers := [Scenarios.an_offer 1 (Some 10); Scenarios.an_offer 2 (Some 10)] in
  let timed := [(0, Scenarios.an_event "view" (Some 1));
                (1, Scenarios.an_event "click" (Some 2))] in
  let st := {| analytics_events := []; business_analytics := [] |} in
  let one_by_one := track_events Cases.small_values ∅ offers 5 timed st in
  let at_once := batch_track_events Cases.small_values ∅ offers 5
                   (List.map snd timed) st in
  (forall b d, b <> 0 ->
               totals_of b d (business_analytics one_by_one)
               = totals_of b d (business_analytics at_once)) /\
  analytics_events one_by_one = analytics_events at_once.
Proof.
  apply (X17_batch_agrees_with_single_events Cases.small_values ∅
           [Scenarios.an_offer 1 (Some 10); Scenarios.an_offer 2 (Some 10)] 5
           [(0, Scenarios.an_event "view" (Some 1));
            (1, Scenarios.an_event "click" (Some 2))]
           {| analytics_events := []; business_analytics := [] |}).
  - unfold distinct_ids. simpl.
    constructor; [simpl; lia|]. constructor; [simpl; tauto | constructor].
  - reflexivity.
  - unfold all_counted. simpl. repeat constructor; discriminate.
Defined.

Lemma rows_update_other (b d b' d' : Z) (g : row -> row) (t : list row) :
  (forall r, business_id (g r) = business_id r /\ date (g r) = date r) ->
  (b' =? b) && (d' =? d) = false ->
  rows_of b d (sql_update (is_for b' d') g t) = rows_of b d t.
Proof.
  intros Hg Hne. unfold rows_of, sql_update.
  induction t as [|r t IH]; simpl; [reflexivity|].
  destruct (is_for b' d' r) eqn:Hr; simpl.
  - assert (Hn : is_for b d r = false).
    { unfold is_for in *. apply andb_prop in Hr as [H1 H2].
      apply andb_false_iff in Hne.
      apply andb_false_iff. destruct Hne; [left | right]; lia. }
    assert (Hn' : is_for b d (g r) = false).
    { unfold is_for in *. destruct (Hg r) as [-> ->]. exact Hn. }
    rewrite Hn, Hn'. exact IH.
  - destruct (is_for b d r); simpl; rewrite IH; reflexivity.
Qed.

(** X18. [track_event] stores the event exactly when [analytics_events]
    accepts it, and then stores it once; an event that is refused changes
    nothing at all.  In either case no row of [business_analytics] changes
    other than those of the business of the event's offer on the day of the
    event; an event without an offer changes no row. *)
Theorem X18_track_event_touches_one_business_and_day
    (fits : event -> bool) (users : User.table)
    (offers : list Offers.offer) (now event_date : Z) (st : state)
    (e : event) (b d : Z) :
  d <> event_date \/
  (forall o, offer_id e = Some o -> find_business offers o <> Some (Some b)) ->
  let st' := track_event fits users offers now event_date st e in
  (if accepted fits users offers e
   then analytics_events st' = analytics_events st ++ [e]
   else st' = st) /\
  rows_of b d (business_analytics st') = rows_of b d (business_analytics st).
Proof.
  intros Hother. unfold track_event.
  destruct (accepted fits users offers e); [|split; reflexivity].
  split; [reflexivity|].
  cbn [business_analytics].
  destruct (offer_id e) as [o|]; [|reflexivity].
  destruct (py_truthy (Some o)); [|reflexivity].
  unfold _push_to_business_analytics.
  destruct (find_business offers o) as [[b'|]|] eqn:Hfind; try reflexivity.
  assert (Hne : (b' =? b) && (event_date =? d) = false).
  { destruct Hother as [Hd | Ho].
    - apply andb_false_iff. right. lia.
    - apply andb_false_iff. left. specialize (Ho o eq_refl).
      destruct (Z.eqb_spec b' b); [congruence | reflexivity]. }
  assert (Hins : rows_of b d
                   (if existsb (is_for b' event_date) (business_analytics st)
                    then business_analytics st
                    else sql_insert (zero_row b' event_date)
                           (business_analytics st))
                 = rows_of b d (business_analytics st)).
  { destruct (existsb _ _); [reflexivity|].
    unfold rows_of, sql_insert. rewrite filter_app. simpl.
    unfold is_for at 2. simpl. rewrite Hne. apply app_nil_r. }
  destruct (kind_of (event_type e)) as [k|]; [|exact Hins].
  rewrite !rows_update_other; try assumption; intros r; split; reflexivity.
Qed.

Lemma X18_track_event_touches_one_business_and_day_witness :
  let st := {| analytics_events := []; business_analytics := [zero_row 20 5] |} in
  let e := Scenarios.an_event "view" (Some 1) in
  let st' := track_event Cases.small_values ∅ [Scenarios.an_offer 1 (Some 10)]
               0 5 st e in
  (if accepted Cases.small_values ∅ [Scenarios.an_offer 1 (Some 10)] e
   then analytics_events st' = analytics_events st ++ [e]
   else st' = st) /\
  rows_of 20 5 (business_analytics st') = rows_of 20 5 (business_analytics st).
Proof.
  apply (X18_track_event_touches_one_business_and_day Cases.small_values ∅
           [Scenarios.an_offer 1 (Some 10)] 0 5
           {| analytics_events := []; business_analytics := [zero_row 20 5] |}
           (Scenarios.an_event "view" (Some 1)) 20 5).
  right. intros o [= <-]. simpl. discriminate.
Defined.




End SingleEventFacts.

(** * Properties of the tracking endpoints ([routes/offers.py]) *)

Module OffersRouteFacts.
Import OfferAnalytics OffersRoute.

Lemma track_balanced (users : User.table) (today : Z) (ep : endpoint)
    (offer_id user_id : Z) (t : table) :
  List.Forall conversions_balanced t ->
  List.Forall conversions_balanced (track users today ep offer_id user_id t).
Proof.
  intros Ht.
  assert (Hconv : forall ct,
             List.Forall conversions_balanced
               (snd (track_conversion users today offer_id ct (Some user_id) t))).
  { intros ct. unfold track_conversion.
    destruct (is_duplicate_conversion _ _ _ _ _); simpl; [assumption|].
    assert (H0 : List.Forall conversions_balanced
                   (ensure_row offer_id today (Some user_id)
                      (city_of_user users (Some user_id)) t))
      by (apply OfferAnalyticsFacts.ensure_row_Forall; [reflexivity | assumption]).
    destruct (conversion_field_mapping ct) as [f|]; simpl; [|assumption].
    apply OfferAnalyticsFacts.sql_update_Forall; [|assumption].
    intros r Hr. unfold conversions_balanced in *.
    destruct (OfferAnalyticsFacts.bump_conversion_both_sides f (Some user_id)
                (city_of_user users (Some user_id)) r). lia. }
  destruct ep; simpl; try apply Hconv.
  unfold track_offer_interaction.
  destruct (is_duplicate_interaction _ _ _ _); simpl; [assumption|].
  apply OfferAnalyticsFacts.sql_update_Forall.
  - intros r Hr. unfold conversions_balanced, typed_conversions in *.
    simpl. exact Hr.
  - apply OfferAnalyticsFacts.ensure_row_Forall; [reflexivity | assumption].
Qed.

(** X20. Through the four tracking endpoints the equality [conversions =
    conversion_calls + conversion_directions + conversion_website] is an
    invariant of [offer_analytics]: no endpoint records a generic
    conversion, so any sequence of calls keeps it on every row. *)
Theorem X20_endpoints_keep_conversions_balanced (calls : list call)
    (t : table) :
  List.Forall conversions_balanced t ->
  List.Forall conversions_balanced (serve calls t).
Proof.
  unfold serve. revert t. induction calls as [|c calls IH]; intros t Ht; simpl.
  - exact Ht.
  - apply IH. unfold handle, track_text.
    destruct (call_as_offers_id c (call_offer_id c)); simpl; [|exact Ht].
    destruct (find_by_id _ _ _); simpl; [|exact Ht].
    destruct (call_as_analytics_id c (call_offer_id c)); [|exact Ht].
    apply track_balanced, Ht.
Qed.

Lemma X20_endpoints_keep_conversions_balanced_witness :
  List.Forall conversions_balanced
    (serve [ {| call_as_offers_id := Cases.decimal_id;
                call_as_analytics_id := Cases.decimal_id;
                call_offers := Scenarios.four_offers; call_users := ∅;
                call_today := 5; call_now := 0;
                call_endpoint := track_call_conversion;
                call_offer_id := "1"; call_user_id := 7 |} ] []).
Proof.
  apply (X20_endpoints_keep_conversions_balanced
           [ {| call_as_offers_id := Cases.decimal_id;
                call_as_analytics_id := Cases.decimal_id;
                call_offers := Scenarios.four_offers; call_users := ∅;
                call_today := 5; call_now := 0;
                call_endpoint := track_call_conversion;
                call_offer_id := "1"; call_user_id := 7 |} ] []).
  constructor.
Defined.

Lemma views_sql_update (o d : Z) (g : row -> row) (t : table) :
  (forall r, views (g r) = views r) ->
  List.map views (sql_update (is_for o d) g t) = List.map views t.
Proof.
  intros Hg. unfold sql_update. rewrite map_map. apply map_ext.
  intros r. destruct (is_for o d r); auto.
Qed.

Lemma views_ensure_row (o d : Z) (uid : option Z) (c : option string)
    (t : table) :
  exists n, List.map views (ensure_row o d uid c t)
            = List.map views t ++ repeat 0 n.
Proof.
  unfold ensure_row, sql_insert. destruct (existsb (is_for o d) t).
  - exists 0%nat. simpl. symmetry. apply app_nil_r.
  - exists 1%nat. rewrite map_app. reflexivity.
Qed.

Lemma track_views (users : User.table) (today : Z) (ep : endpoint)
    (offer_id user_id : Z) (t : table) :
  exists n, List.map views (track users today ep offer_id user_id t)
            = List.map views t ++ repeat 0 n.
Proof.
  assert (Hsame : exists n, List.map views t = List.map views t ++ repeat 0 n)
    by (exists 0%nat; simpl; symmetry; apply app_nil_r).
  assert (Hconv : forall ct,
             exists n,
               List.map views
                 (snd (track_conversion users today offer_id ct (Some user_id) t))
               = List.map views t ++ repeat 0 n).
  { intros ct. unfold track_conversion.
    destruct (is_duplicate_conversion _ _ _ _ _); simpl; [exact Hsame|].
    destruct (conversion_field_mapping ct) as [f|]; simpl.
    - rewrite views_sql_update by reflexivity. apply views_ensure_row.
    - apply views_ensure_row. }
  destruct ep; simpl; try apply Hconv.
  unfold track_offer_interaction.
  destruct (is_duplicate_interaction _ _ _ _); simpl; [exact Hsame|].
  rewrite views_sql_update by reflexivity. apply views_ensure_row.
Qed.

(** X21. No tracking endpoint counts a view: after any sequence of calls
    the [views] of the rows that existed are what they were, and the rows
    that were added have [views = 0]. *)
Theorem X21_endpoints_never_count_a_view (calls : list call) (t : table) :
  exists n, List.map views (serve calls t) = List.map views t ++ repeat 0 n.
Proof.
  unfold serve. revert t. induction calls as [|c calls IH]; intros t; simpl.
  - exists 0%nat. simpl. symmetry. apply app_nil_r.
  - destruct (IH (snd (handle (call_as_offers_id c) (call_as_analytics_id c)
                         (call_offers c) (call_users c) (call_today c)
                         (call_now c) (call_endpoint c) (call_offer_id c)
                         (call_user_id c) t))) as [n Hn].
    rewrite Hn. unfold handle, track_text.
    destruct (call_as_offers_id c (call_offer_id c)) as [i|]; simpl;
      [|exists n; reflexivity].
    destruct (find_by_id _ _ _); simpl; [|exists n; reflexivity].
    destruct (call_as_analytics_id c (call_offer_id c)) as [j|];
      [|exists n; reflexivity].
    destruct (track_views (call_users c) (call_today c) (call_endpoint c)
                j (call_user_id c) t) as [m Hm].
    rewrite Hm. exists (m + n)%nat.
    rewrite <- app_assoc, repeat_app. reflexivity.
Qed.

(** X22. A tracking endpoint answers 500, and leaves the table untouched,
    exactly when the id of the path is no id that [offers.id] can be
    compared with.  Otherwise it answers 200 exactly when some offer with
    the id is approved and unexpired at the time of the call, whether or not
    anything was counted, and else 404 with the table untouched: an expired,
    unapproved or unknown offer is never tracked. *)
Theorem X22_only_live_offers_are_tracked
    (as_offers_id as_analytics_id : string -> option Z)
    (offers : list Offers.offer)
    (users : User.table) (today now : Z) (ep : endpoint)
    (offer_id : string) (user_id : Z) (t : table) :
  let (code, t') := handle as_offers_id as_analytics_id offers users today now
                      ep offer_id user_id t in
  match as_offers_id offer_id with
  | None => code = 500 /\ t' = t
  | Some n =>
      (code = 200 /\
       exists o, In o offers /\ Offers.id o = n /\
                 SingleEvent.is_live now o = true) \/
      (code = 404 /\ t' = t /\
       forall o, In o offers -> Offers.id o = n ->
                 SingleEvent.is_live now o = false)
  end.
Proof.
  unfold handle, find_by_id.
  destruct (as_offers_id offer_id) as [n|]; [|split; reflexivity].
  destruct (List.find _ offers) as [o|] eqn:Hfind.
  - left. split; [reflexivity|].
    apply find_some in Hfind as [Hin Ho]. apply andb_prop in Ho as [Hid Hlive].
    exists o. repeat split; [exact Hin | lia | exact Hlive].
  - right. repeat split. intros o Hin Hid.
    pose proof (find_none _ _ Hfind o Hin) as Hno. simpl in Hno.
    replace (Offers.id o =? n) with true in Hno by lia.
    exact Hno.
Qed.

End OffersRouteFacts.

(** * Properties of the paginated offer list ([Tarjous.get_offers]) *)

Module ListingFacts.
Import Tarjous.

Lemma length_slice {A} (a b : nat) (l : list A) :
  List.length (firstn a (skipn b l)) = Nat.min a (List.length l - b).
Proof. rewrite length_firstn, length_skipn. reflexivity. Qed.

Lemma firstn_plus {A} (a b : nat) (l : list A) :
  firstn (a + b) l = firstn a l ++ firstn b (skipn a l).
Proof.
  revert l. induction a as [|a IH]; intros l; simpl; [reflexivity|].
  destruct l as [|x l]; simpl.
  - rewrite firstn_nil. reflexivity.
  - rewrite IH. reflexivity.
Qed.

(** [page] reaches into [n] items exactly when it is one of the pages that
    [n] items fill. *)
Lemma in_range_iff (n page limit : Z) :
  0 <= n -> 1 <= page -> 1 <= limit ->
  ((page - 1) * limit < n <-> page <= pages_for n limit).
Proof.
  intros Hn Hp Hl. unfold pages_for.
  pose proof (Z.div_mod (n + limit - 1) limit ltac:(lia)) as Hdm.
  pose proof (Z.mod_pos_bound (n + limit - 1) limit ltac:(lia)) as Hmod.
  split; intros H; nia.
Qed.

Lemma clamp_page_bound (page : option Z) : 1 <= clamp_page page.
Proof.
  unfold clamp_page. destruct (Z.ltb_spec (default 1 page) 1); lia.
Qed.

Lemma clamp_limit_bound (limit : option Z) : 1 <= clamp_limit limit <= 50.
Proof.
  unfold clamp_limit.
  destruct (Z.ltb_spec (default 20 limit) 1),
    (Z.ltb_spec 50 (default 20 limit)); simpl; lia.
Qed.

(** *** Rows with distinct sort keys have one sorted order *)

Lemma before_both_ways (a b : Offers.offer) :
  SearchSpec.before a b -> SearchSpec.before b a -> sort_key a = sort_key b.
Proof.
  unfold SearchSpec.before, AIChat.precedes, sort_key.
  destruct (Offers.is_premium a), (Offers.is_premium b);
    intros H1 H2; try discriminate; f_equal; lia.
Qed.

Lemma sorted_unique (l1 l2 : list Offers.offer) :
  Permutation l1 l2 ->
  StronglySorted SearchSpec.before l1 ->
  StronglySorted SearchSpec.before l2 ->
  List.NoDup (List.map sort_key l1) ->
  l1 = l2.
Proof.
  revert l2. induction l1 as [|a l1 IH]; intros l2 Hp H1 H2 Hnd.
  - apply Permutation_nil in Hp. congruence.
  - destruct l2 as [|b l2].
    { apply Permutation_sym, Permutation_nil in Hp. discriminate. }
    inversion H1 as [|a' l1' Hs1 Ha]; subst.
    inversion H2 as [|b' l2' Hs2 Hb]; subst.
    inversion Hnd as [|k ks Hnotin Hnd']; subst.
    assert (Hab : a = b).
    { assert (Hina : In a (b :: l2))
        by (apply (Permutation_in _ Hp); left; reflexivity).
      assert (Hinb : In b (a :: l1))
        by (apply (Permutation_in _ (Permutation_sym Hp)); left; reflexivity).
      destruct Hinb as [E | Hinb]; [exact E|].
      exfalso. apply Hnotin.
      assert (Hk : sort_key a = sort_key b).
      { destruct Hina as [E | Hina].
        - rewrite E. reflexivity.
        - apply before_both_ways.
          + exact (proj1 (Forall_forall _ _) Ha b Hinb).
          + exact (proj1 (Forall_forall _ _) Hb a Hina). }
      rewrite Hk. apply in_map. exact Hinb. }
    subst b. f_equal.
    apply IH; try assumption.
    exact (Permutation_cons_inv Hp).
Qed.

Lemma sorts_agree (a1 a2 : list Offers.offer -> list Offers.offer)
    (l : list Offers.offer) :
  sorts a1 -> sorts a2 ->
  List.NoDup (List.map sort_key l) ->
  a1 l = a2 l.
Proof.
  intros H1 H2 Hnd.
  destruct (H1 l) as [Hp1 Hs1], (H2 l) as [Hp2 Hs2].
  apply sorted_unique; try assumption.
  - exact (Permutation_trans (Permutation_sym Hp1) Hp2).
  - apply (Permutation_NoDup (l := List.map sort_key l)); [|exact Hnd].
    apply Permutation_map. exact Hp1.
Qed.

(** The stable sort of the search is one arrangement that sorts. *)
Lemma insert_sorted_Permutation (o : Offers.offer) (l : list Offers.offer) :
  Permutation (o :: l) (AIChat.insert_sorted o l).
Proof.
  induction l as [|x l IH]; simpl; [reflexivity|].
  destruct (AIChat.precedes o x); [reflexivity|].
  apply (Permutation_trans (perm_swap x o l)).
  apply perm_skip. exact IH.
Qed.

Lemma order_by_sorts : sorts AIChat.order_by.
Proof.
  intros l. split.
  - induction l as [|x l IH]; simpl; [constructor|].
    apply (Permutation_trans (perm_skip x IH)).
    apply insert_sorted_Permutation.
  - apply Sorted_StronglySorted.
    + intros a b c. apply SearchMoreFacts.before_trans.
    + apply SearchMoreFacts.order_by_Sorted.
Qed.

Section Listing.
Variable D : Type.
Variable to_dict : Offers.offer -> D.
Variable sendable : string -> bool.

(** X23. The listing endpoints never pass a page below 1 or a page size
    outside 1..50 to [get_offers].  Whatever the query parameters, they
    answer 200 with the page asked for and at most 50 offers, or 500; and
    500 exactly when the statement fails, that is, when the [OFFSET] of the
    page is beyond [bigint] or a text parameter is not taken. *)
Theorem X23_listing_endpoint_bounds_the_page
    (arrange : list Offers.offer -> list Offers.offer)
    (offers : list Offers.offer)
    (now : Z) (page limit : option Z) (category city : option string) :
  let p := clamp_page page in
  let l := clamp_limit limit in
  1 <= p /\ 1 <= l <= 50 /\
  match get_offers_endpoint D to_dict sendable arrange offers now page limit
          category city with
  | (code, Some r) =>
      code = 200 /\
      (p - 1) * l <= bigint_max /\ texts_ok sendable category city = true /\
      currentPage D r = p /\
      (List.length (Tarjous.offers D r) <= 50)%nat
  | (code, None) =>
      code = 500 /\
      (bigint_max < (p - 1) * l \/ texts_ok sendable category city = false)
  end.
Proof.
  intros p l.
  pose proof (clamp_page_bound page) as Hp.
  pose proof (clamp_limit_bound limit) as Hl.
  fold p in Hp. fold l in Hl.
  split; [exact Hp|]. split; [exact Hl|].
  unfold get_offers_endpoint, get_offers. fold p l.
  unfold runs.
  replace (0 <=? l) with true by (symmetry; apply Z.leb_le; lia).
  replace (l <=? bigint_max) with true
    by (symmetry; apply Z.leb_le; unfold bigint_max; lia).
  replace (0 <=? (p - 1) * l) with true by (symmetry; apply Z.leb_le; nia).
  cbn [andb].
  destruct (Z.leb_spec ((p - 1) * l) bigint_max) as [Hoff | Hoff];
    cbn [andb].
  - destruct (texts_ok sendable category city) eqn:Ht.
    + repeat split; try assumption; try reflexivity.
      cbn [Tarjous.offers]. rewrite length_map, length_firstn. lia.
    + split; [reflexivity|]. right. reflexivity.
  - split; [reflexivity|]. left. exact Hoff.
Qed.

(** X24. For a page of at least 1 and a page size of at least 1, both
    within what the statement takes, with [n] offers selected: a page within
    the [ceil(n / limit)] pages reports [totalCount = n] and that number of
    pages, has a next page exactly when it is not the last, and carries
    [min limit (n - (page - 1) * limit)] offers, at least one; a page past
    the end carries no offer and reports [totalCount = 0] and
    [totalPages = 0], however many offers there are. *)
Theorem X24_page_counts
    (arrange : list Offers.offer -> list Offers.offer)
    (offers : list Offers.offer) (now page limit : Z)
    (category city : option string) :
  sorts arrange ->
  1 <= page -> 1 <= limit <= bigint_max ->
  (page - 1) * limit <= bigint_max ->
  texts_ok sendable category city = true ->
  let n := Z.of_nat (List.length (selected offers now category city)) in
  exists r,
    get_offers D to_dict sendable arrange offers now page limit category city
      = Some r /\
    currentPage D r = page /\ hasPrev D r = (1 <? page) /\
    if page <=? pages_for n limit
    then totalCount D r = n /\ totalPages D r = pages_for n limit /\
         hasNext D r = (page <? pages_for n limit) /\
         Z.of_nat (List.length (Tarjous.offers D r))
           = Z.min limit (n - (page - 1) * limit) /\
         Tarjous.offers D r <> []
    else Tarjous.offers D r = [] /\ totalCount D r = 0 /\
         totalPages D r = 0 /\ hasNext D r = false.
Proof.
  intros Hs Hp Hl Hoff Ht n. unfold get_offers, runs. rewrite Ht.
  replace (0 <=? limit) with true by (symmetry; apply Z.leb_le; lia).
  replace (limit <=? bigint_max) with true by (symmetry; apply Z.leb_le; lia).
  replace (0 <=? (page - 1) * limit) with true
    by (symmetry; apply Z.leb_le; nia).
  replace ((page - 1) * limit <=? bigint_max) with true
    by (symmetry; apply Z.leb_le; lia).
  cbn [andb].
  set (sel := selected offers now category city) in *.
  assert (Hn : Z.of_nat (List.length (arrange sel)) = n).
  { unfold n. f_equal. symmetry. apply Permutation_length, Hs. }
  set (rows := arrange sel) in *.
  set (results := firstn (Z.to_nat limit)
                    (skipn (Z.to_nat ((page - 1) * limit)) rows)).
  assert (Hlen : Z.of_nat (List.length results)
                 = Z.min limit (Z.max 0 (n - (page - 1) * limit))).
  { unfold results. rewrite length_slice, <- Hn.
    assert (0 <= (page - 1) * limit) by nia. lia. }
  assert (Hrange := in_range_iff n page limit ltac:(lia) Hp ltac:(lia)).
  eexists. split; [reflexivity|]. simpl.
  split; [reflexivity|]. split; [reflexivity|].
  destruct (Z.leb_spec page (pages_for n limit)) as [Hin | Hout].
  - assert (Hpos : (page - 1) * limit < n) by (apply Hrange; exact Hin).
    assert (Hne : results <> []).
    { intros E. rewrite E in Hlen. simpl in Hlen. lia. }
    destruct results as [|x results'] eqn:Hres; [congruence|].
    rewrite Hn. replace (0 <? n) with true by (symmetry; apply Z.ltb_lt; nia).
    repeat split; try reflexivity.
    + rewrite length_map. simpl in *. lia.
    + simpl. discriminate.
  - assert (Hnpos : ~ (page - 1) * limit < n) by (rewrite Hrange; lia).
    assert (He : results = []).
    { destruct results; [reflexivity|]. simpl in Hlen. lia. }
    rewrite He. simpl. repeat split. apply Z.ltb_ge. lia.
Qed.

Lemma pages_up_to_firstn
    (arrange_for : nat -> list Offers.offer -> list Offers.offer)
    (a : list Offers.offer -> list Offers.offer)
    (offers : list Offers.offer) (now limit : Z)
    (category city : option string) (k : nat) :
  (forall i, sorts (arrange_for i)) -> sorts a ->
  1 <= limit <= bigint_max ->
  texts_ok sendable category city = true ->
  List.NoDup (List.map sort_key (selected offers now category city)) ->
  (Z.of_nat k - 1) * limit <= bigint_max ->
  pages_up_to D to_dict sendable arrange_for offers now limit category city k
  = List.map to_dict
      (firstn (k * Z.to_nat limit) (a (selected offers now category city))).
Proof.
  intros Hfor Ha Hl Ht Hnd. induction k as [|k IH]; intros Hoff;
    [reflexivity|].
  cbn [pages_up_to]. rewrite IH by nia. unfold get_offers, runs. rewrite Ht.
  replace (0 <=? limit) with true by (symmetry; apply Z.leb_le; lia).
  replace (limit <=? bigint_max) with true by (symmetry; apply Z.leb_le; lia).
  replace (0 <=? (Z.of_nat (S k) - 1) * limit) with true
    by (symmetry; apply Z.leb_le; nia).
  replace ((Z.of_nat (S k) - 1) * limit <=? bigint_max) with true
    by (symmetry; apply Z.leb_le; lia).
  cbn [andb Tarjous.offers].
  rewrite (sorts_agree (arrange_for (S k)) a _ (Hfor (S k)) Ha Hnd).
  replace (Z.to_nat ((Z.of_nat (S k) - 1) * limit))
    with (k * Z.to_nat limit)%nat by nia.
  rewrite <- map_app. f_equal.
  replace (S k * Z.to_nat limit)%nat with (k * Z.to_nat limit + Z.to_nat limit)%nat
    by lia.
  symmetry. apply firstn_plus.
Qed.

(** X25. The pages tile the selection when no two selected offers share
    their sort key ([is_premium], [created_at]): for a page size of at least
    1, whatever order the server gives to each page's statement among those
    that agree with [ORDER BY], the offers of the pages 1 to
    [ceil(n / limit)], one after the other, are exactly the [n] selected
    offers in their one sorted order, each once. *)
Theorem X25_pages_tile_the_selection
    (arrange_for : nat -> list Offers.offer -> list Offers.offer)
    (a : list Offers.offer -> list Offers.offer)
    (offers : list Offers.offer)
    (now limit : Z) (category city : option string) :
  (forall i, sorts (arrange_for i)) -> sorts a ->
  1 <= limit <= bigint_max ->
  texts_ok sendable category city = true ->
  let sel := selected offers now category city in
  Z.of_nat (List.length sel) <= bigint_max ->
  List.NoDup (List.map sort_key sel) ->
  pages_up_to D to_dict sendable arrange_for offers now limit category city
    (Z.to_nat (pages_for (Z.of_nat (List.length sel)) limit))
  = List.map to_dict (a sel).
Proof.
  intros Hfor Ha Hl Ht sel Hbig Hnd.
  set (n := Z.of_nat (List.length sel)) in *.
  assert (Hn : 0 <= n) by (unfold n; lia).
  pose proof (Z.div_mod (n + limit - 1) limit ltac:(lia)) as Hdm.
  pose proof (Z.mod_pos_bound (n + limit - 1) limit ltac:(lia)) as Hmod.
  assert (Hq : 0 <= (n + limit - 1) / limit) by (apply Z.div_pos; lia).
  rewrite (pages_up_to_firstn arrange_for a) by
    (try assumption; unfold pages_for; rewrite Z2Nat.id by exact Hq; nia).
  fold sel. f_equal. apply firstn_all2.
  assert (Hlen : List.length (a sel) = List.length sel)
    by (symmetry; apply Permutation_length, Ha).
  rewrite Hlen. unfold pages_for.
  assert (n <= (n + limit - 1) / limit * limit) by nia.
  unfold n in *. nia.
Qed.

End Listing.

Lemma X24_page_counts_witness :
  let n := Z.of_nat (List.length (selected Scenarios.four_offers 0 None None)) in
  exists r,
    get_offers Z Offers.id (fun _ => true) AIChat.order_by
      Scenarios.four_offers 0 3 2 None None = Some r /\
    currentPage Z r = 3 /\ hasPrev Z r = (1 <? 3) /\
    if 3 <=? pages_for n 2
    then totalCount Z r = n /\ totalPages Z r = pages_for n 2 /\
         hasNext Z r = (3 <? pages_for n 2) /\
         Z.of_nat (List.length (Tarjous.offers Z r))
           = Z.min 2 (n - (3 - 1) * 2) /\
         Tarjous.offers Z r <> []
    else Tarjous.offers Z r = [] /\ totalCount Z r = 0 /\
         totalPages Z r = 0 /\ hasNext Z r = false.
Proof.
  apply (X24_page_counts Z Offers.id (fun _ => true) AIChat.order_by
           Scenarios.four_offers 0 3 2 None None);
    [exact order_by_sorts | lia | unfold bigint_max; lia
    | unfold bigint_max; lia | reflexivity].
Defined.

Lemma X25_pages_tile_the_selection_witness :
  let sel := selected Scenarios.four_offers 0 None None in
  pages_up_to Z Offers.id (fun _ => true) (fun _ => AIChat.order_by)
    Scenarios.four_offers 0 3 None None
    (Z.to_nat (pages_for (Z.of_nat (List.length sel)) 3))
  = List.map Offers.id (AIChat.order_by sel).
Proof.
  apply (X25_pages_tile_the_selection Z Offers.id (fun _ => true)
           (fun _ => AIChat.order_by) AIChat.order_by
           Scenarios.four_offers 0 3 None None).
  - intros i. exact order_by_sorts.
  - exact order_by_sorts.
  - unfold bigint_max. lia.
  - reflexivity.
  - unfold bigint_max. simpl. lia.
  - vm_compute. repeat (constructor; [simpl; intuition congruence|]).
    constructor.
Defined.

End ListingFacts.
